(** * Ananda hostel API: the inventory consumption engine

    A shallow embedding of the scheduled jobs of [src/utils/cronJobs.js]
    ([getAttendanceCount], [consumeInventoryForMeal], [checkLowStockItems]),
    of the manual recording handler [recordInventoryUsage] of
    [src/controllers/inventoryUsage.controller.js] and of
    [createAttendanceSession] of [src/controllers/attendance.controller.js].

    Modelling conventions.
    - In the runs and handlers a JavaScript [Number] holding a quantity is an
      exact rational [Q] and a head count an integer [Z]; the rounding of
      IEEE-754 doubles is left out there.  What rounding does to the
      calculator is settled on the calculator itself, given a second time
      over binary64 ([Double.quantityToConsume]).
    - An ObjectId is written as a string.  The ids a request body carries are
      ObjectIds; where a handler is modelled on a string that may not cast to
      one, the request has a type that says so ([ReqId]).
    - A [Date] is the number of milliseconds on the local wall clock, as a [Z];
      the local time zone has a fixed offset (no daylight-saving jump), so a
      calendar day is a block of [msPerDay] milliseconds.
    - A MongoDB collection is the list of its documents in insertion order;
      [findOne] returns the first match, [create] appends.
    - A Mongoose document returned by [findById] is a private copy of the
      stored document: [save] writes the copy's fields back into the store.
    - The clock ([new Date()]) and the ObjectId generator of the driver are
      arguments of the operations that use them. *)

From Stdlib Require Import ZArith QArith Qround Qabs List String Ascii Bool Lia.
From Stdlib Require Import DecimalString Lqa Qpower SpecFloat.
Import ListNotations.

Open Scope Z_scope.
Open Scope Q_scope.
Open Scope string_scope.
Open Scope list_scope.

(** ** JavaScript values *)

Module Js.

(** [a < b] on numbers. *)
Definition ltb (a b : Q) : bool := negb (Qle_bool b a).

(** [a <= b] on numbers. *)
Definition leb (a b : Q) : bool := Qle_bool a b.

(** [a === b] on numbers. *)
Definition eqb (a b : Q) : bool := Qeq_bool a b.

(** Template-literal rendering of an integer. *)
Definition show_int (z : Z) : string := NilZero.string_of_int (Z.to_int z).

(** Two decimal digits of a number below one hundred. *)
Definition two_digits (z : Z) : string :=
  show_int (z / 10) ++ show_int (z mod 10).

(** [x.toFixed(2)]: the integer [n] closest to [x * 100], the larger one on
    a tie, printed with two fraction digits; the sign is taken off first.
    (Below 1e21, where [toFixed] does not switch to exponent notation.) *)
Definition toFixed2 (x : Q) : string :=
  let a := Qabs x in
  let n := Qfloor (a * (100 # 1) + (1 # 2)) in
  (if ltb x 0 then "-" else "")
    ++ show_int (n / 100) ++ "." ++ two_digits (n mod 100).

(** [xs.join(sep)]. *)
Definition join (sep : string) (xs : list string) : string :=
  String.concat sep xs.

(** [xs.includes(x)] on an array of numbers. *)
Definition includes (xs : list Q) (x : Q) : bool := existsb (eqb x) xs.

(** [s.includes(t)] on strings: [t] occurs in [s]. *)
Fixpoint str_includes (s t : string) : bool :=
  String.prefix t s ||
  match s with
  | EmptyString => false
  | String _ s' => str_includes s' t
  end.

End Js.

(** ** Dates *)

Definition Date := Z.

Bind Scope Z_scope with Date.

Definition msPerDay : Z := 86400000.

(** [d.setHours(0, 0, 0, 0)]. *)
Definition startOfDay (d : Date) : Date := (d - d mod msPerDay)%Z.

(** [d.setHours(23, 59, 59, 999)]. *)
Definition endOfDay (d : Date) : Date := (startOfDay d + 86399999)%Z.

(** [d.setDate(d.getDate() - 1)]: same time of day, one day earlier. *)
Definition previousDay (d : Date) : Date := (d - msPerDay)%Z.

(** The calendar day a date falls on, counted from the epoch. *)
Definition dayOf (d : Date) : Z := (d / msPerDay)%Z.

(** [d.getDay()]: the epoch was a Thursday. *)
Definition getDay (d : Date) : Z := ((dayOf d + 4) mod 7)%Z.

Definition dayNames : list string :=
  ["Sunday"; "Monday"; "Tuesday"; "Wednesday"; "Thursday"; "Friday";
   "Saturday"].

Definition dayName (d : Date) : string :=
  nth (Z.to_nat (getDay d)) dayNames "".

(** ** Data model *)

Definition ObjectId := string.

Record InventoryItem := mkItem {
  item_id : ObjectId;
  item_name : string;
  currentStock : Q;
  item_unit : string;
  minimumStock : Q;
  lastUpdated : Date
}.

(** An entry of [breakfastInventory], [lunchInventory] or [dinnerInventory].
    [forStudents] is read by the scheduled job; [None] is [undefined]. *)
Record PlanItem := mkPlanItem {
  inventoryItemId : ObjectId;
  quantity : Q;
  forStudents : option Q
}.

Record MealPlan := mkPlan {
  day : string;
  breakfastInventory : list PlanItem;
  lunchInventory : list PlanItem;
  dinnerInventory : list PlanItem
}.

Record AttendanceRecord := mkRecord {
  record_student : ObjectId;
  record_status : string;
  record_remarks : string
}.

Record AttendanceSession := mkSession {
  session_id : ObjectId;
  sessionType : string;
  attendanceRecords : list ObjectId;
  totalStudents : Z;
  presentCount : Z;
  absentCount : Z;
  markedBy : ObjectId;
  markedAt : Date;
  session_notes : string;
  isCompleted : bool
}.

Record User := mkUser {
  user_id : ObjectId;
  role : string;
  firstName : string;
  lastName : string
}.

Record UsageItem := mkUsageItem {
  usage_inventoryItemId : ObjectId;
  recordedQuantity : Q;
  recordedForStudents : Q;
  actualQuantityDeducted : Q
}.

Record InventoryUsage := mkUsage {
  usage_date : Date;
  usage_mealType : string;
  usage_items : list UsageItem;
  attendanceCount : Z;
  attendanceSessionId : option ObjectId;
  recordedBy : ObjectId;
  usage_notes : string
}.

Record Notification := mkNotification {
  notif_user : ObjectId;
  notif_type : string;
  notif_title : string;
  notif_message : string;
  notif_read : bool;
  createdAt : Date
}.

(** The collections of the database. *)
Record Store := mkStore {
  inventory : list InventoryItem;
  mealPlans : list MealPlan;
  sessions : list AttendanceSession;
  users : list User;
  students : list ObjectId;
  records : list (ObjectId * AttendanceRecord);
  usages : list InventoryUsage;
  notifications : list Notification
}.

Definition set_inventory (inv : list InventoryItem) (s : Store) : Store :=
  mkStore inv (mealPlans s) (sessions s) (users s) (students s) (records s)
          (usages s) (notifications s).

Definition set_sessions (l : list AttendanceSession) (s : Store) : Store :=
  mkStore (inventory s) (mealPlans s) l (users s) (students s) (records s)
          (usages s) (notifications s).

Definition set_records (l : list (ObjectId * AttendanceRecord)) (s : Store)
  : Store :=
  mkStore (inventory s) (mealPlans s) (sessions s) (users s) (students s) l
          (usages s) (notifications s).

Definition set_usages (l : list InventoryUsage) (s : Store) : Store :=
  mkStore (inventory s) (mealPlans s) (sessions s) (users s) (students s)
          (records s) l (notifications s).

Definition set_notifications (l : list Notification) (s : Store) : Store :=
  mkStore (inventory s) (mealPlans s) (sessions s) (users s) (students s)
          (records s) (usages s) l.

(** ** Queries *)

(** [InventoryItem.findById(id)]. *)
Definition findItemById (id : ObjectId) (inv : list InventoryItem)
  : option InventoryItem :=
  find (fun it => String.eqb (item_id it) id) inv.

(** [doc.save()] of an inventory item: the stored document with the same
    [_id] takes the fields of [doc]. *)
Definition saveItem (doc : InventoryItem) (inv : list InventoryItem)
  : list InventoryItem :=
  map (fun it => if String.eqb (item_id it) (item_id doc) then doc else it) inv.

(** [MealPlan.findOne({ day })]. *)
Definition findPlan (d : string) (plans : list MealPlan) : option MealPlan :=
  find (fun p => String.eqb (day p) d) plans.

(** The filter
    [{ sessionType, markedAt: { $gte: startOfDay, $lte: endOfDay } }]
    built from a date. *)
Definition sessionMatches (ty : string) (date : Date) (s : AttendanceSession)
  : bool :=
  String.eqb (sessionType s) ty
  && (startOfDay date <=? markedAt s)%Z
  && (markedAt s <=? endOfDay date)%Z.

(** [AttendanceSession.findOne] with that filter. *)
Definition findSession (ty : string) (date : Date)
    (ss : list AttendanceSession) : option AttendanceSession :=
  find (sessionMatches ty date) ss.

(** [User.find({ role: { $in: roles } })]. *)
Definition usersWithRole (roles : list string) (us : list User) : list User :=
  filter (fun u => existsb (String.eqb (role u)) roles) us.

(** ** Attendance lookup *)

(** [presentCount || 0]. *)
Definition presentOrZero (s : AttendanceSession) : Z :=
  if (presentCount s =? 0)%Z then 0%Z else presentCount s.

(** [getAttendanceCount] of cronJobs.js: [presentCount || 0] of the session
    found, [null] when there is none. *)
Definition getAttendanceCount (ty : string) (date : Date)
    (ss : list AttendanceSession) : option Z :=
  match findSession ty date ss with
  | Some s => Some (presentOrZero s)
  | None => None
  end.

(** [getAttendanceForDate] of inventoryUsage.controller.js. *)
Definition getAttendanceForDate (date : Date) (ty : string)
    (ss : list AttendanceSession) : option Z :=
  match findSession ty date ss with
  | Some s => Some (presentCount s)
  | None => None
  end.

(** The attendance date both paths compute: the day before for breakfast and
    lunch, the date itself otherwise. *)
Definition attendanceDateFor (mealType : string) (date : Date) : Date :=
  if String.eqb mealType "breakfast" || String.eqb mealType "lunch"
  then previousDay date
  else date.

Definition attendanceSessionType : string := "evening".

(** ** Consumption calculator *)

(** [(attendanceCount / forStudents) * baseQuantity], on the rationals the
    runs and handlers are modelled over. *)
Definition quantityToConsume (baseQuantity forStudents : Q)
    (attendance : Z) : Q :=
  (inject_Z attendance / forStudents) * baseQuantity.

(** The same expression as the engine evaluates it.  A JavaScript [Number] is
    an IEEE-754 binary64 value: [/] and [*] each round their exact result to
    the nearest double, ties to even.  [spec_float] with precision 53 and
    maximal exponent 1024 is that format; [SFdiv] and [SFmul] are its
    division and multiplication. *)
Module Double.

Local Open Scope Z_scope.

Definition prec : Z := 53.
Definition emax : Z := 1024.




(** [x / y], [x * y], [x <= y] and [x < y]. *)
Definition div : spec_float -> spec_float -> spec_float := SFdiv prec emax.
Definition mul : spec_float -> spec_float -> spec_float := SFmul prec emax.
Definition leb : spec_float -> spec_float -> bool := SFleb.
Definition ltb : spec_float -> spec_float -> bool := SFltb.

(** [(attendanceCount / forStudents) * baseQuantity]: the quotient is
    rounded, then the product. *)
Definition quantityToConsume
    (baseQuantity forStudents attendanceCount : spec_float) : spec_float :=
  mul (div attendanceCount forStudents) baseQuantity.








End Double.

(** Doubles a request or a plan can carry. *)
Module DoubleSample.




End DoubleSample.

(** ** Validation of usage records

    The validators of the InventoryUsage schema: [mealType] is one of the
    three meals, every line has [recordedQuantity >= 0],
    [recordedForStudents] 1 or 10 and [actualQuantityDeducted >= 0],
    [attendanceCount >= 0], and the trimmed [notes] have at most 500
    characters. *)

Definition validMealTypes : list string := ["breakfast"; "lunch"; "dinner"].

Definition isValidMealType (m : string) : bool :=
  existsb (String.eqb m) validMealTypes.

Definition is_space (c : ascii) : bool :=
  match nat_of_ascii c with
  | 9%nat | 10%nat | 11%nat | 12%nat | 13%nat | 32%nat => true
  | _ => false
  end.

Fixpoint trimStart (s : string) : string :=
  match s with
  | String c s' => if is_space c then trimStart s' else s
  | EmptyString => EmptyString
  end.

Fixpoint trimEnd (s : string) : string :=
  match s with
  | EmptyString => EmptyString
  | String c s' =>
      match trimEnd s' with
      | EmptyString => if is_space c then EmptyString else String c EmptyString
      | t => String c t
      end
  end.

Definition trim (s : string) : string := trimEnd (trimStart s).

Definition usageItemValid (u : UsageItem) : bool :=
  Js.leb 0 (recordedQuantity u)
  && Js.includes [1; 10 # 1] (recordedForStudents u)
  && Js.leb 0 (actualQuantityDeducted u).

Definition usageValid (u : InventoryUsage) : bool :=
  isValidMealType (usage_mealType u)
  && forallb usageItemValid (usage_items u)
  && (0 <=? attendanceCount u)%Z
  && (String.length (usage_notes u) <=? 500)%nat.

(** [InventoryUsage.create(doc)]: [notes] is trimmed, the validators run, and
    the document is appended; [None] is a thrown ValidationError. *)
Definition createUsage (u : InventoryUsage) (s : Store)
  : option (InventoryUsage * Store) :=
  let doc := mkUsage (usage_date u) (usage_mealType u) (usage_items u)
                     (attendanceCount u) (attendanceSessionId u)
                     (recordedBy u) (trim (usage_notes u)) in
  if usageValid doc then Some (doc, set_usages (usages s ++ [doc]) s)
  else None.

(** Modelled from the spec: notification.model.js is not among the sources.
    A notification holds user, title, message, type (info, warning, alert,
    ...), read flag and createdAt; [Notification.create] stamps [createdAt]
    with the clock and appends the document. *)
Definition createNotification (now : Date) (user : ObjectId)
    (type title message : string) (s : Store) : Store :=
  set_notifications
    (notifications s ++ [mkNotification user type title message false now]) s.

(** ** The scheduled run: [consumeInventoryForMeal] *)

Record ConsumptionUpdate := mkUpdate {
  upd_meal : string;
  upd_item : string;
  upd_baseQuantity : Q;
  upd_quantity : Q;
  upd_attendance : Z;
  upd_remainingStock : Q
}.

(** The variables of the item loop: the inventory collection and the three
    arrays [consumptionUpdates], [errors] and [usageItems]. *)
Record Loop := mkLoop {
  loop_inventory : list InventoryItem;
  consumptionUpdates : list ConsumptionUpdate;
  errors : list string;
  usageItems : list UsageItem
}.

(** [item.forStudents || 10]. *)
Definition forStudentsOrDefault (item : PlanItem) : Q :=
  match forStudents item with
  | Some f => if Js.eqb f 0 then 10 # 1 else f
  | None => 10 # 1
  end.

Definition insufficientStockError (mealType : string) (it : InventoryItem)
    (required : Q) (attendance : Z) : string :=
  mealType ++ ": Insufficient stock for " ++ item_name it
    ++ ". Available: " ++ Js.toFixed2 (currentStock it) ++ " " ++ item_unit it
    ++ ", Required: " ++ Js.toFixed2 required ++ " " ++ item_unit it
    ++ " (Attendance: " ++ Js.show_int attendance ++ ")".

(** [inventoryItem.currentStock -= amount; inventoryItem.lastUpdated = new
    Date()] on a document. *)
Definition deduct (now : Date) (doc : InventoryItem) (amount : Q)
  : InventoryItem :=
  mkItem (item_id doc) (item_name doc) (currentStock doc - amount)
         (item_unit doc) (minimumStock doc) now.

(** One iteration of [for (const item of mealInventory)].  Its [catch] is
    not reached in the model: a lookup does not throw, and a debit that
    passed the check leaves a non-negative stock, which the schema's
    [min: 0] validator accepts on [save]. *)
Definition processPlanItem (mealType : string) (attendance : Z) (now : Date)
    (st : Loop) (item : PlanItem) : Loop :=
  match findItemById (inventoryItemId item) (loop_inventory st) with
  | None =>
      mkLoop (loop_inventory st) (consumptionUpdates st)
        (errors st ++
           [(mealType ++ ": Inventory item " ++ inventoryItemId item
               ++ " not found")%string])
        (usageItems st)
  | Some inventoryItem =>
      let baseQuantity := quantity item in
      let forStudents := forStudentsOrDefault item in
      let amount := quantityToConsume baseQuantity forStudents attendance in
      if Js.ltb (currentStock inventoryItem) amount then
        mkLoop (loop_inventory st) (consumptionUpdates st)
          (errors st ++
             [insufficientStockError mealType inventoryItem amount attendance])
          (usageItems st)
      else
        let saved := deduct now inventoryItem amount in
        mkLoop (saveItem saved (loop_inventory st))
          (consumptionUpdates st ++
             [mkUpdate mealType (item_name saved) baseQuantity amount
                       attendance (currentStock saved)])
          (errors st)
          (usageItems st ++
             [mkUsageItem (item_id saved) baseQuantity forStudents amount])
  end.

Definition processPlanItems (mealType : string) (attendance : Z) (now : Date)
    (mealInventory : list PlanItem) (inv : list InventoryItem) : Loop :=
  fold_left (processPlanItem mealType attendance now) mealInventory
            (mkLoop inv [] [] []).

(** The plan's list for a meal type. *)
Definition mealInventoryOf (mealType : string) (p : MealPlan) : list PlanItem :=
  if String.eqb mealType "breakfast" then breakfastInventory p
  else if String.eqb mealType "lunch" then lunchInventory p
  else dinnerInventory p.

(** [User.findOne({ role: "admin" })]. *)
Definition findAdmin (us : list User) : option User :=
  find (fun u => String.eqb (role u) "admin") us.

(** The alerts of a run: one per user with the admin role. *)
Definition notifyAdmins (now : Date) (mealType dayName : string)
    (errs : list string) (s : Store) : Store :=
  fold_left
    (fun st admin =>
       createNotification now (user_id admin) "alert"
         ("Inventory Consumption Error - " ++ mealType ++ " (" ++ dayName
            ++ ")")%string
         ("Errors: " ++ Js.join "; " errs)%string st)
    (usersWithRole ["admin"] (users s)) s.

(** [consumeInventoryForMeal(mealType, date)]; [now] is the clock during the
    run.  Every [return] of the source leaves the store as it is. *)
Definition consumeInventoryForMeal (mealType : string) (date now : Date)
    (s : Store) : Store :=
  match findPlan (dayName date) (mealPlans s) with
  | None => s
  | Some mealPlan =>
      let attendanceDate := attendanceDateFor mealType date in
      match getAttendanceCount attendanceSessionType attendanceDate
                               (sessions s) with
      | None => s
      | Some attendance =>
          if (attendance =? 0)%Z then s
          else
            let attendanceSession :=
              findSession attendanceSessionType attendanceDate (sessions s) in
            match mealInventoryOf mealType mealPlan with
            | [] => s
            | mealInventory =>
                match findAdmin (users s) with
                | None => s
                | Some systemUser =>
                    let r := processPlanItems mealType attendance now
                               mealInventory (inventory s) in
                    let s1 := set_inventory (loop_inventory r) s in
                    let s2 :=
                      match usageItems r with
                      | [] => s1
                      | items =>
                          match createUsage
                                  (mkUsage date mealType items attendance
                                     (option_map session_id attendanceSession)
                                     (user_id systemUser)
                                     "Automated deduction via cron job") s1 with
                          | Some (_, s') => s'
                          | None => s1
                          end
                      end in
                    match errors r with
                    | [] => s2
                    | errs => notifyAdmins now mealType (dayName date) errs s2
                    end
                end
            end
      end
  end.

(** ** The low-stock monitor: [checkLowStockItems] *)

Section LowStock.

(** Template-literal rendering of a quantity ([Number::toString]). *)
Variable showNumber : Q -> string.

Definition isLowStock (it : InventoryItem) : bool :=
  Js.leb (currentStock it) (minimumStock it).

Definition lowStockTitle (it : InventoryItem) : string :=
  "Low Stock: " ++ item_name it.

Definition lowStockType (it : InventoryItem) : string :=
  if Js.eqb (currentStock it) 0 then "alert" else "warning".

Definition lowStockMessage (it : InventoryItem) : string :=
  let stockStatus :=
    if Js.eqb (currentStock it) 0 then "out of stock"
    else "below minimum level" in
  item_name it ++ " is " ++ stockStatus ++ ". Current stock: "
    ++ showNumber (currentStock it) ++ " " ++ item_unit it
    ++ ", Minimum required: " ++ showNumber (minimumStock it) ++ " "
    ++ item_unit it ++ ".".

(** The filter [{ user, title, createdAt: { $gte: start of today } }]. *)
Definition sameAlertToday (now : Date) (user : ObjectId) (title : string)
    (n : Notification) : bool :=
  String.eqb (notif_user n) user
  && String.eqb (notif_title n) title
  && (startOfDay now <=? createdAt n)%Z.

(** The body of [for (const user of adminUsers)]. *)
Definition notifyLowStock (now : Date) (item : InventoryItem) (s : Store)
    (user : User) : Store :=
  match find (sameAlertToday now (user_id user) (lowStockTitle item))
             (notifications s) with
  | Some _ => s
  | None =>
      createNotification now (user_id user) (lowStockType item)
        (lowStockTitle item) (lowStockMessage item) s
  end.

Definition checkLowStockItems (now : Date) (s : Store) : Store :=
  match filter isLowStock (inventory s) with
  | [] => s
  | lowStockItems =>
      let adminUsers := usersWithRole ["admin"; "kitchen"] (users s) in
      fold_left
        (fun st item => fold_left (notifyLowStock now item) adminUsers st)
        lowStockItems s
  end.

End LowStock.

(** ** Request handlers *)

(** The [date] of a request body: absent, not parseable, or a date. *)
Inductive ReqDate :=
| DateMissing
| DateInvalid
| DateValue (d : Date).

(** The outcome of a handler: a JSON reply, or an error thrown after
    [res.status(status)] (200 when the handler never set it). *)
Inductive Response (A : Type) :=
| Sent (status : Z) (data : A)
| Thrown (status : Z) (message : string).

Arguments Sent {A} status data.
Arguments Thrown {A} status message.

(** A line of [req.body.items]: an empty id and [None] stand for a missing
    field.  The id of a line is an ObjectId: for a string that does not cast
    to one, [InventoryItem.findById] throws the driver's CastError, and the
    handler fails with the status never set before anything is written. *)
Record ReqItem := mkReqItem {
  req_inventoryItemId : ObjectId;
  req_recordedQuantity : option Q;
  req_recordedForStudents : option Q
}.

Record UsageRequest := mkUsageRequest {
  req_date : ReqDate;
  req_mealType : string;
  req_items : option (list ReqItem);
  req_notes : string;
  req_user : ObjectId
}.

(** An entry of [inventoryUpdates]: the document read during validation and
    the amount to take from it. *)
Record InventoryUpdate := mkInventoryUpdate {
  update_item : InventoryItem;
  quantityToDeduct : Q
}.

(** The three arrays of the validation loop. *)
Record Checked := mkChecked {
  processedItems : list UsageItem;
  inventoryUpdates : list InventoryUpdate;
  req_errors : list string
}.

Definition pushError (msg : string) (st : Checked) : Checked :=
  mkChecked (processedItems st) (inventoryUpdates st) (req_errors st ++ [msg]).

Definition manualStockError (it : InventoryItem) (required : Q) : string :=
  "Insufficient stock for " ++ item_name it
    ++ ". Available: " ++ Js.toFixed2 (currentStock it) ++ " " ++ item_unit it
    ++ ", Required: " ++ Js.toFixed2 required ++ " " ++ item_unit it.

(** One iteration of [for (const item of items)]: nothing is written. *)
Definition checkItem (attendance : Z) (inv : list InventoryItem)
    (st : Checked) (item : ReqItem) : Checked :=
  match req_recordedQuantity item, req_recordedForStudents item with
  | Some recordedQuantity, Some recordedForStudents =>
      if String.eqb (req_inventoryItemId item) ""
         || Js.eqb recordedForStudents 0
      then pushError
             "Each item must have inventoryItemId, recordedQuantity, and recordedForStudents"
             st
      else if negb (Js.includes [1; 10 # 1] recordedForStudents)
      then pushError "recordedForStudents must be either 1 or 10" st
      else
        match findItemById (req_inventoryItemId item) inv with
        | None =>
            pushError ("Inventory item " ++ req_inventoryItemId item
                         ++ " not found") st
        | Some inventoryItem =>
            let actualQuantity :=
              quantityToConsume recordedQuantity recordedForStudents
                                attendance in
            if Js.ltb (currentStock inventoryItem) actualQuantity
            then pushError (manualStockError inventoryItem actualQuantity) st
            else
              mkChecked
                (processedItems st ++
                   [mkUsageItem (req_inventoryItemId item) recordedQuantity
                                recordedForStudents actualQuantity])
                (inventoryUpdates st ++
                   [mkInventoryUpdate inventoryItem actualQuantity])
                (req_errors st)
        end
  | _, _ =>
      pushError
        "Each item must have inventoryItemId, recordedQuantity, and recordedForStudents"
        st
  end.

Definition checkItems (attendance : Z) (inv : list InventoryItem)
    (items : list ReqItem) : Checked :=
  fold_left (checkItem attendance inv) items (mkChecked [] [] []).

(** One iteration of [for (const update of inventoryUpdates)]: the document
    read during validation gets its new stock and the clock, and is saved.
    [save] sends the fields the handler gave a new value.  The model writes
    the document back whole, which is the same write whenever the document
    is still the stored one and whenever the line changes its stock; a
    second document of an item whose line deducts nothing would leave the
    stored stock alone. *)
Definition applyUpdate (now : Date) (inv : list InventoryItem)
    (update : InventoryUpdate) : list InventoryItem :=
  saveItem (deduct now (update_item update) (quantityToDeduct update)) inv.

Definition applyUpdates (now : Date) (updates : list InventoryUpdate)
    (inv : list InventoryItem) : list InventoryItem :=
  fold_left (applyUpdate now) updates inv.

Section Handlers.

(** [d.toLocaleDateString()], which depends on the host's locale. *)
Variable toLocaleDateString : Date -> string.

(** [recordInventoryUsage]: POST /api/inventory-usage. *)
Definition recordInventoryUsage (req : UsageRequest) (now : Date)
    (s : Store) : Response InventoryUsage * Store :=
  let required :=
    Thrown 400 "Date, mealType, and items array are required" in
  match req_items req with
  | None | Some [] => (required, s)
  | Some items =>
      if String.eqb (req_mealType req) "" then (required, s)
      else
        match req_date req with
        | DateMissing => (required, s)
        | DateInvalid =>
            if negb (isValidMealType (req_mealType req))
            then (Thrown 400
                    "Invalid meal type. Must be 'breakfast', 'lunch', or 'dinner'",
                  s)
            else (Thrown 400 "Invalid date format", s)
        | DateValue date =>
            if negb (isValidMealType (req_mealType req))
            then (Thrown 400
                    "Invalid meal type. Must be 'breakfast', 'lunch', or 'dinner'",
                  s)
            else
              let usageDate := startOfDay date in
              let attendanceDate :=
                attendanceDateFor (req_mealType req) usageDate in
              match getAttendanceForDate attendanceDate attendanceSessionType
                                         (sessions s) with
              | None =>
                  (Thrown 404
                     ("Attendance not found for " ++ attendanceSessionType
                        ++ " session on " ++ toLocaleDateString attendanceDate
                        ++ ". Please record attendance first."), s)
              | Some attendance =>
                  let attendanceSession :=
                    findSession attendanceSessionType attendanceDate
                                (sessions s) in
                  let c := checkItems attendance (inventory s) items in
                  match req_errors c with
                  | _ :: _ => (Thrown 400 (Js.join "; " (req_errors c)), s)
                  | [] =>
                      let s1 :=
                        set_inventory
                          (applyUpdates now (inventoryUpdates c)
                                        (inventory s)) s in
                      match createUsage
                              (mkUsage usageDate (req_mealType req)
                                 (processedItems c) attendance
                                 (option_map session_id attendanceSession)
                                 (req_user req) (req_notes req)) s1 with
                      | Some (doc, s2) => (Sent 201 doc, s2)
                      | None =>
                          (Thrown 200 "InventoryUsage validation failed", s1)
                      end
                  end
              end
        end
  end.

End Handlers.

(** ** Attendance sessions: [createAttendanceSession] *)

(** An element of [req.body.records]. *)
Record ReqRecord := mkReqRecord {
  rr_student : ObjectId;
  rr_status : string;
  rr_remarks : string
}.

Record SessionRequest := mkSessionRequest {
  sreq_sessionType : string;
  sreq_notes : string;
  sreq_records : option (list ReqRecord);
  sreq_date : ReqDate;
  sreq_user : User
}.

(** The variables the callbacks of [records.map] share, and the collection of
    attendance records they append to. *)
Record Marking := mkMarking {
  invalidStudents : list ObjectId;
  attendanceRecordIds : list ObjectId;
  marking_present : Z;
  marking_absent : Z;
  marking_records : list (ObjectId * AttendanceRecord)
}.

Definition validSessionTypes : list string := ["morning"; "evening"].

(** The attendance date of a request: today when no [date] is given, the
    parsed date otherwise, at the start of its day; [None] when the date does
    not parse. *)
Definition sessionDate (date : ReqDate) (now : Date) : option Date :=
  match date with
  | DateMissing => Some (startOfDay now)
  | DateInvalid => None
  | DateValue d => Some (startOfDay d)
  end.

Section Attendance.

Variable toLocaleDateString : Date -> string.

(** The ObjectId the driver gives to the n-th document it creates. *)
Variable newObjectId : nat -> ObjectId.

(** Modelled from the spec: student.model.js and attendanceRecord.model.js
    are not among the sources.  [Student.findById] succeeds for the ids of
    the student collection; [AttendanceRecord.create] appends the record
    under a new ObjectId. *)
Definition markRecord (sts : list ObjectId) (st : Marking)
    (record : ReqRecord) : Marking :=
  if existsb (String.eqb (rr_student record)) sts then
    let id := newObjectId (List.length (marking_records st)) in
    let doc := mkRecord (rr_student record) (rr_status record)
                        (rr_remarks record) in
    if String.eqb (rr_status record) "present" then
      mkMarking (invalidStudents st) (attendanceRecordIds st ++ [id])
                (marking_present st + 1)%Z (marking_absent st)
                (marking_records st ++ [(id, doc)])
    else
      mkMarking (invalidStudents st) (attendanceRecordIds st ++ [id])
                (marking_present st) (marking_absent st + 1)%Z
                (marking_records st ++ [(id, doc)])
  else
    mkMarking (invalidStudents st ++ [rr_student record])
              (attendanceRecordIds st) (marking_present st)
              (marking_absent st) (marking_records st).

(** The callbacks of [Promise.all(records.map(...))], run in list order. *)
Definition markRecords (s : Store) (recs : list ReqRecord) : Marking :=
  fold_left (markRecord (students s)) recs
            (mkMarking [] [] 0%Z 0%Z (records s)).

(** [getUserIdsByRoles(roles, excludeUserId)]. *)
Definition getUserIdsByRoles (roles : list string) (excludeUserId : ObjectId)
    (us : list User) : list ObjectId :=
  map user_id
    (filter (fun u => String.eqb excludeUserId ""
                      || negb (String.eqb (user_id u) excludeUserId))
            (usersWithRole roles us)).

(** [sendNotifications(userIds, { title, message, type })]. *)
Definition sendNotifications (now : Date) (userIds : list ObjectId)
    (title message type : string) (s : Store) : Store :=
  fold_left
    (fun st userId => createNotification now userId type title message st)
    userIds s.

(** [createAttendanceSession]: POST /api/attendance.
    Modelled from the spec: attendanceSession.model.js is not among the
    sources; [AttendanceSession.create] appends the session it is given. *)
Definition createAttendanceSession (req : SessionRequest) (now : Date)
    (s : Store) : Response AttendanceSession * Store :=
  match sreq_records req with
  | None =>
      (Thrown 400
         "Please provide all required fields: sessionType and records", s)
  | Some recs =>
      if String.eqb (sreq_sessionType req) "" then
        (Thrown 400
           "Please provide all required fields: sessionType and records", s)
      else if negb (existsb (String.eqb (sreq_sessionType req))
                            validSessionTypes) then
        (Thrown 400 "Invalid session type. Must be 'morning' or 'evening'", s)
      else
        match sessionDate (sreq_date req) now with
        | None =>
            (Thrown 400 "Invalid date format. Please provide a valid date.",
             s)
        | Some attendanceDate =>
            match findSession (sreq_sessionType req) attendanceDate
                              (sessions s) with
            | Some _ =>
                (Thrown 409
                   ("Attendance for " ++ sreq_sessionType req
                      ++ " session on " ++ toLocaleDateString attendanceDate
                      ++ " already exists. Please update or delete the existing record instead."),
                 s)
            | None =>
                let m := markRecords s recs in
                let s1 := set_records (marking_records m) s in
                match invalidStudents m with
                | _ :: _ =>
                    (Thrown 400
                       ("Invalid students or students not in this dorm: "
                          ++ Js.join ", " (invalidStudents m)), s1)
                | [] =>
                    let session :=
                      mkSession
                        (newObjectId (List.length (marking_records m)
                                      + List.length (sessions s)))
                        (sreq_sessionType req)
                        (attendanceRecordIds m)
                        (Z.of_nat (List.length recs))
                        (marking_present m)
                        (marking_absent m)
                        (user_id (sreq_user req))
                        attendanceDate
                        (sreq_notes req)
                        false in
                    let s2 := set_sessions (sessions s1 ++ [session]) s1 in
                    let staffToNotify :=
                      getUserIdsByRoles ["admin"; "warden"]
                                        (user_id (sreq_user req))
                                        (users s2) in
                    let sessionTime :=
                      if String.eqb (sreq_sessionType req) "morning"
                      then "Morning" else "Evening" in
                    let s3 :=
                      sendNotifications now staffToNotify
                        (sessionTime ++ " Attendance Marked")
                        (firstName (sreq_user req) ++ " "
                           ++ lastName (sreq_user req)
                           ++ " marked attendance for "
                           ++ Js.show_int (Z.of_nat (List.length recs))
                           ++ " students ("
                           ++ Js.show_int (marking_present m) ++ " present, "
                           ++ Js.show_int (marking_absent m) ++ " absent)")
                        "info" s2 in
                    (Sent 201 session, s3)
                end
            end
        end
  end.

End Attendance.

(** ** The alignment rule in the spec's words *)

(** The evening session of calendar day [D]: the first session of type
    evening whose [markedAt] falls on day [D], that is within
    [00:00:00.000, 23:59:59.999] of that day. *)
Definition eveningSessionOn (D : Z) (ss : list AttendanceSession)
  : option AttendanceSession :=
  find (fun s => String.eqb (sessionType s) "evening"
                 && (dayOf (markedAt s) =? D)%Z) ss.

(** The alignment rule in the spec's words: the attendance of breakfast and
    lunch on day [D] is that of day [D - 1], the attendance of dinner is that
    of day [D]. *)
Definition attendanceDay (mealType : string) (D : Z) : Z :=
  if String.eqb mealType "dinner" then D else (D - 1)%Z.

(** ** Vocabulary of the statements *)

(** The stock the store holds for an item. *)
Definition stockOf (id : ObjectId) (inv : list InventoryItem) : option Q :=
  option_map currentStock (findItemById id inv).


(** The notification the monitor creates for a low item and a recipient, the
    monitor's step for such a pair, and the filter that finds today's
    notification of the pair. *)
Definition lowStockAlert (showNumber : Q -> string) (now : Date)
    (p : InventoryItem * User) : Notification :=
  mkNotification (user_id (snd p)) (lowStockType (fst p))
    (lowStockTitle (fst p)) (lowStockMessage showNumber (fst p)) false now.

Definition lowStockStep (showNumber : Q -> string) (now : Date) (st : Store)
    (p : InventoryItem * User) : Store :=
  notifyLowStock showNumber now (fst p) st (snd p).

Definition alertedToday (now : Date) (p : InventoryItem * User)
  : Notification -> bool :=
  sameAlertToday now (user_id (snd p)) (lowStockTitle (fst p)).

(** ** Sample data

    A small hostel used to run the operations: day 0 of the clock is a
    Thursday, and the evening session of the day before it counts 25
    students present. *)

Module Sample.

Local Open Scope Z_scope.

Definition rice : InventoryItem := mkItem "i1" "Rice" (10 # 1) "kg" (2 # 1) 0.
Definition dal : InventoryItem := mkItem "i2" "Dal" (100 # 1) "kg" (2 # 1) 0.
Definition salt : InventoryItem := mkItem "i3" "Salt" (0 # 1) "kg" (1 # 1) 0.

(** Per ten students: four kilograms of dal and five of rice. *)
Definition dalLine : PlanItem := mkPlanItem "i2" (4 # 1) None.
Definition ricePlanLine : PlanItem := mkPlanItem "i1" (5 # 1) None.

Definition thursday : MealPlan :=
  mkPlan "Thursday" [dalLine; ricePlanLine] [] [].

Definition wednesdayEvening : AttendanceSession :=
  mkSession "s1" "evening" [] 30 25 5 "u1" (-3600000) "" false.

Definition emptyEvening : AttendanceSession :=
  mkSession "s0" "evening" [] 30 0 30 "u1" (-3600000) "" false.

Definition admin1 : User := mkUser "u1" "admin" "Asha" "Perera".
Definition cook : User := mkUser "u2" "kitchen" "Kamal" "Silva".
Definition admin2 : User := mkUser "u3" "admin" "Nimal" "Dias".
Definition warden : User := mkUser "u4" "warden" "Wasana" "Fernando".

Definition oil : InventoryItem := mkItem "i4" "Oil" (1 # 1) "l" (2 # 1) 0.

(** Salt is out of stock and oil is below its minimum. *)
Definition larder : Store :=
  mkStore [rice; salt; oil] [] [] [admin1; cook; warden] [] [] [] [].

Definition hostel : Store :=
  mkStore [rice; dal; salt] [thursday] [wednesdayEvening]
          [admin1; cook; admin2] ["st1"; "st2"; "st3"] [] [] [].

(** The same hostel with nobody present the evening before. *)
Definition hostelNobodyPresent : Store :=
  mkStore [rice; dal; salt] [thursday] [emptyEvening]
          [admin1; cook; admin2] ["st1"; "st2"; "st3"] [] [] [].

(** The same hostel without any administrator. *)
Definition hostelNoAdmin : Store :=
  mkStore [rice; dal; salt] [thursday] [wednesdayEvening]
          [cook; warden] ["st1"; "st2"; "st3"] [] [] [].

(** A breakfast request that names the rice twice, six kilograms per
    student each time, while one student was present. *)
Definition onePresent : AttendanceSession :=
  mkSession "s2" "evening" [] 1 1 0 "u1" (-3600000) "" false.

Definition pantry : Store :=
  mkStore [rice] [] [onePresent] [cook] [] [] [] [].

Definition riceLine : ReqItem := mkReqItem "i1" (Some (6 # 1)) (Some (1 # 1)).

(** The same line in a meal plan: six kilograms of rice per student. *)
Definition riceForOne : PlanItem := mkPlanItem "i1" (6 # 1) (Some (1 # 1)).

Definition riceTwice : UsageRequest :=
  mkUsageRequest (DateValue 1000) "breakfast" (Some [riceLine; riceLine])
                 "" "u2".

Definition riceOnce : UsageRequest :=
  mkUsageRequest (DateValue 1000) "breakfast" (Some [riceLine]) "" "u2".

Definition riceAndUnknown : UsageRequest :=
  mkUsageRequest (DateValue 1000) "breakfast"
    (Some [riceLine; mkReqItem "i9" (Some (1 # 1)) (Some (1 # 1))]) "" "u2".

(** A breakfast request whose only line records minus five kilograms of rice
    per student. *)
Definition riceNegativeLine : ReqItem :=
  mkReqItem "i1" (Some (-5 # 1)) (Some (1 # 1)).

Definition riceNegative : UsageRequest :=
  mkUsageRequest (DateValue 1000) "breakfast" (Some [riceNegativeLine])
                 "" "u2".

Definition showDate (d : Date) : string := Js.show_int (dayOf d).
Definition objectId (n : nat) : ObjectId := Js.show_int (Z.of_nat n).

Definition rollCall : SessionRequest :=
  mkSessionRequest "evening" ""
    (Some [mkReqRecord "st1" "present" ""; mkReqRecord "st2" "absent" "";
           mkReqRecord "st3" "present" "late"])
    (DateValue 1000) warden.

Definition rollCallDayBefore : SessionRequest :=
  mkSessionRequest "evening" ""
    (Some [mkReqRecord "st1" "present" ""])
    (DateValue (-5000)) warden.

End Sample.

(** * More of the code *)

(** ** Deleting an attendance session: [deleteAttendanceSession] *)

(** [AttendanceSession.findByIdAndDelete(id)] removes the first document with
    that [_id]. *)
Fixpoint removeSession (id : ObjectId) (ss : list AttendanceSession)
  : list AttendanceSession :=
  match ss with
  | [] => []
  | x :: rest =>
      if String.eqb (session_id x) id then rest
      else x :: removeSession id rest
  end.

(** [req.params.id]: a string that casts to an ObjectId, or one that does
    not.  [findByIdAndDelete] casts its argument before it queries. *)
Inductive ReqId :=
| IdValue (id : ObjectId)
| IdInvalid (raw : string).

(** [deleteAttendanceSession]: DELETE /api/attendance/:id.  The reply carries
    the id of the deleted session.  For a string that is no ObjectId the
    driver throws its CastError before the handler sets a status; of its
    message, which goes on to name the value and the path, the beginning is
    kept. *)
Definition deleteAttendanceSession (id : ReqId) (s : Store)
  : Response ObjectId * Store :=
  match id with
  | IdInvalid _ => (Thrown 200 "Cast to ObjectId failed", s)
  | IdValue id =>
      match find (fun x => String.eqb (session_id x) id) (sessions s) with
      | None => (Thrown 404 "Attendance session not found", s)
      | Some session =>
          (Sent 200 (session_id session),
           set_sessions (removeSession id (sessions s)) s)
      end
  end.

(** ** Stock status filters of [getAllInventoryItems] *)

(** [item.currentStock <= item.minimumStock]. *)
Definition isLowStatus (item : InventoryItem) : bool :=
  Js.leb (currentStock item) (minimumStock item).

(** [item.currentStock > item.minimumStock &&
     item.currentStock <= item.minimumStock * 1.5]. *)
Definition isMediumStatus (item : InventoryItem) : bool :=
  Js.ltb (minimumStock item) (currentStock item)
  && Js.leb (currentStock item) (minimumStock item * (3 # 2)).

(** [item.currentStock > item.minimumStock * 1.5]. *)
Definition isGoodStatus (item : InventoryItem) : bool :=
  Js.ltb (minimumStock item * (3 # 2)) (currentStock item).

(** The ids the [status] query parameter restricts the listing to: [None]
    when the parameter is none of low, medium and good, and [query._id] stays
    unset. *)
Definition stockStatusIds (status : string) (items : list InventoryItem)
  : option (list ObjectId) :=
  if String.eqb status "low" then
    Some (map item_id (filter isLowStatus items))
  else if String.eqb status "medium" then
    Some (map item_id (filter isMediumStatus items))
  else if String.eqb status "good" then
    Some (map item_id (filter isGoodStatus items))
  else None.

(** ** Creating a meal plan: [createMealPlan] *)

(** An entry of an inventory list in the request body; an empty id and
    [None] stand for a missing field.  The schema keeps [inventoryItemId] and
    [quantity] of an entry and nothing else. *)
Record PlanLine := mkPlanLine {
  line_inventoryItemId : ObjectId;
  line_quantity : option Q
}.

(** The fields of the request body the engine's view of a plan keeps: the
    lists of dish names and [createdBy] are stored with the plan and never
    read by the jobs. *)
Record PlanRequest := mkPlanRequest {
  preq_day : string;
  preq_estimatedCost : option Q;
  preq_breakfastInventory : option (list PlanLine);
  preq_lunchInventory : option (list PlanLine);
  preq_dinnerInventory : option (list PlanLine)
}.

(** The days the schema's [enum] accepts. *)
Definition planDays : list string :=
  ["Monday"; "Tuesday"; "Wednesday"; "Thursday"; "Friday"; "Saturday";
   "Sunday"].

(** The validators of an inventory entry: both fields required,
    [quantity >= 0]. *)
Definition planLineValid (l : PlanLine) : bool :=
  negb (String.eqb (line_inventoryItemId l) "")
  && match line_quantity l with
     | Some q => Js.leb 0 q
     | None => false
     end.

(** The stored entry of a valid line. *)
Definition storedLine (l : PlanLine) : PlanItem :=
  mkPlanItem (line_inventoryItemId l)
             (match line_quantity l with Some q => q | None => 0 end)
             None.

(** [xs || []]. *)
Definition linesOrEmpty (xs : option (list PlanLine)) : list PlanLine :=
  match xs with
  | Some l => l
  | None => []
  end.

(** [createMealPlan]: POST /api/meal-plans.  [None] for the cost is
    [undefined]; [!estimatedCost] also holds for 0. *)
Definition createMealPlan (req : PlanRequest) (s : Store)
  : Response MealPlan * Store :=
  let missingCost :=
    match preq_estimatedCost req with
    | Some c => Js.eqb c 0
    | None => true
    end in
  if String.eqb (preq_day req) "" || missingCost then
    (Thrown 400 "Day and estimated cost are required", s)
  else
    match findPlan (preq_day req) (mealPlans s) with
    | Some _ =>
        (Thrown 400 ("Meal plan for " ++ preq_day req ++ " already exists"), s)
    | None =>
        let b := linesOrEmpty (preq_breakfastInventory req) in
        let l := linesOrEmpty (preq_lunchInventory req) in
        let d := linesOrEmpty (preq_dinnerInventory req) in
        if existsb (String.eqb (preq_day req)) planDays
           && forallb planLineValid b && forallb planLineValid l
           && forallb planLineValid d
        then
          let plan := mkPlan (preq_day req) (map storedLine b)
                             (map storedLine l) (map storedLine d) in
          (Sent 201 plan,
           mkStore (inventory s) (mealPlans s ++ [plan]) (sessions s)
                   (users s) (students s) (records s) (usages s)
                   (notifications s))
        else (Thrown 200 "MealPlan validation failed", s)
    end.

(** ** The deprecated daily run: [consumeInventoryFromMealPlans] *)

(** [attendance !== null && attendance > 0 ? attendance / totalStudents
     : null]. *)
Definition attendanceMultiplier (attendance : option Z) (totalStudents : Z)
  : option Q :=
  match attendance with
  | Some a =>
      if (0 <? a)%Z then Some (inject_Z a / inject_Z totalStudents) else None
  | None => None
  end.

(** The variables of the three item loops: the inventory collection and the
    arrays [consumptionUpdates] and [errors]. *)
Record DailyLoop := mkDailyLoop {
  daily_inventory : list InventoryItem;
  daily_updates : list ConsumptionUpdate;
  daily_errors : list string
}.

(** The message of the ReferenceError the dinner loop raises: it reads
    [eveningAttendance], which the module never declares. *)
Definition dinnerReferenceError (item : PlanItem) : string :=
  "Dinner: Error processing " ++ inventoryItemId item
    ++ ": eveningAttendance is not defined".

Section Daily.

(** Template-literal rendering of a quantity ([Number::toString]). *)
Variable showNumber : Q -> string.

Definition dailyStockError (meal : string) (it : InventoryItem)
    (required baseQuantity : Q) (attendance : option Z) : string :=
  meal ++ ": Insufficient stock for " ++ item_name it
    ++ ". Available: " ++ Js.toFixed2 (currentStock it)
    ++ ", Required: " ++ Js.toFixed2 required
    ++ " (Base: " ++ showNumber baseQuantity ++ ", Att: "
    ++ match attendance with
       | Some a => Js.show_int a
       | None => "N/A"
       end
    ++ ")".

(** One iteration of the breakfast loop or of the lunch loop; [meal] is
    "Breakfast" or "Lunch". *)
Definition processDailyLine (meal : string) (multiplier : option Q)
    (attendance : option Z) (now : Date) (st : DailyLoop) (item : PlanItem)
  : DailyLoop :=
  match findItemById (inventoryItemId item) (daily_inventory st) with
  | None =>
      mkDailyLoop (daily_inventory st) (daily_updates st)
        (daily_errors st ++
           [(meal ++ ": Inventory item " ++ inventoryItemId item
               ++ " not found")%string])
  | Some inventoryItem =>
      match multiplier with
      | None => st
      | Some m =>
          let baseQuantity := quantity item in
          let amount := baseQuantity * m in
          if Js.ltb (currentStock inventoryItem) amount then
            mkDailyLoop (daily_inventory st) (daily_updates st)
              (daily_errors st ++
                 [dailyStockError meal inventoryItem amount baseQuantity
                                  attendance])
          else
            let saved := deduct now inventoryItem amount in
            mkDailyLoop (saveItem saved (daily_inventory st))
              (daily_updates st ++
                 [mkUpdate meal (item_name saved) baseQuantity amount
                    (match attendance with Some a => a | None => 0%Z end)
                    (currentStock saved)])
              (daily_errors st)
      end
  end.

(** One iteration of the dinner loop.  Building the error of a short stock
    and, after a debit was saved, building the entry of
    [consumptionUpdates] both read [eveningAttendance] and throw; the
    [catch] of the iteration pushes the error's message. *)
Definition processDinnerLine (multiplier : option Q) (now : Date)
    (st : DailyLoop) (item : PlanItem) : DailyLoop :=
  match findItemById (inventoryItemId item) (daily_inventory st) with
  | None =>
      mkDailyLoop (daily_inventory st) (daily_updates st)
        (daily_errors st ++
           [("Dinner: Inventory item " ++ inventoryItemId item
               ++ " not found")%string])
  | Some inventoryItem =>
      match multiplier with
      | None => st
      | Some m =>
          let amount := quantity item * m in
          if Js.ltb (currentStock inventoryItem) amount then
            mkDailyLoop (daily_inventory st) (daily_updates st)
              (daily_errors st ++ [dinnerReferenceError item])
          else
            mkDailyLoop
              (saveItem (deduct now inventoryItem amount) (daily_inventory st))
              (daily_updates st)
              (daily_errors st ++ [dinnerReferenceError item])
      end
  end.

(** The three loops, breakfast first. *)
Definition dailyLoops (now : Date) (plan : MealPlan)
    (previousDayEveningAttendance todayEveningAttendance : option Z)
    (totalStudents : Z) (inv : list InventoryItem) : DailyLoop :=
  let breakfastMultiplier :=
    attendanceMultiplier previousDayEveningAttendance totalStudents in
  let lunchMultiplier :=
    attendanceMultiplier previousDayEveningAttendance totalStudents in
  let dinnerMultiplier :=
    attendanceMultiplier todayEveningAttendance totalStudents in
  let st1 :=
    fold_left (processDailyLine "Breakfast" breakfastMultiplier
                                previousDayEveningAttendance now)
              (breakfastInventory plan) (mkDailyLoop inv [] []) in
  let st2 :=
    fold_left (processDailyLine "Lunch" lunchMultiplier
                                previousDayEveningAttendance now)
              (lunchInventory plan) st1 in
  fold_left (processDinnerLine dinnerMultiplier now) (dinnerInventory plan)
            st2.

Definition dailyWarnings
    (previousDayEveningAttendance todayEveningAttendance : option Z)
  : list string :=
  match previousDayEveningAttendance with
  | None =>
      ["Previous day evening attendance not recorded - skipping breakfast and lunch"]
  | Some _ => []
  end
  ++ match todayEveningAttendance with
     | None => ["Today evening attendance not recorded - skipping dinner"]
     | Some _ => []
     end.

(** Type, title and message of the notification of a run with errors or
    warnings. *)
Definition dailyNoticeType (errs : list string) : string :=
  match errs with
  | [] => "warning"
  | _ => "alert"
  end.

Definition dailyNoticeTitle (todayName : string) (errs : list string)
  : string :=
  "Inventory Consumption "
    ++ match errs with [] => "Warnings" | _ => "Errors" end
    ++ " - " ++ todayName.

Definition dailyNoticeMessage (warnings errs : list string) : string :=
  Js.join " | "
    (match warnings with
     | [] => []
     | _ => [("Warnings: " ++ Js.join "; " warnings)%string]
     end
     ++ match errs with
        | [] => []
        | _ => [("Errors: " ++ Js.join "; " errs)%string]
        end).

(** [consumeInventoryFromMealPlans()]; [now] is the clock, which is also
    "today". *)
Definition consumeInventoryFromMealPlans (now : Date) (s : Store) : Store :=
  match findPlan (dayName now) (mealPlans s) with
  | None => s
  | Some mealPlan =>
      let totalStudents := Z.of_nat (List.length (students s)) in
      if (totalStudents =? 0)%Z then s
      else
        let previousDayEveningAttendance :=
          getAttendanceCount "evening" (previousDay now) (sessions s) in
        let todayEveningAttendance :=
          getAttendanceCount "evening" now (sessions s) in
        let warnings :=
          dailyWarnings previousDayEveningAttendance todayEveningAttendance in
        let r := dailyLoops now mealPlan previousDayEveningAttendance
                            todayEveningAttendance totalStudents
                            (inventory s) in
        let s1 := set_inventory (daily_inventory r) s in
        match daily_errors r, warnings with
        | [], [] => s1
        | errs, _ =>
            fold_left
              (fun st admin =>
                 createNotification now (user_id admin) (dailyNoticeType errs)
                   (dailyNoticeTitle (dayName now) errs)
                   (dailyNoticeMessage warnings errs) st)
              (usersWithRole ["admin"] (users s1)) s1
        end
  end.

End Daily.

(** ** Vocabulary of the further statements *)

(** What identifies an item apart from its stock and the time of its last
    update. *)
Definition catalogue (it : InventoryItem)
  : ObjectId * string * string * Q :=
  (item_id it, item_name it, item_unit it, minimumStock it).

(** The slot a session occupies: its type and the calendar day of its
    [markedAt]. *)
Definition sessionSlot (x : AttendanceSession) : string * Z :=
  (sessionType x, dayOf (markedAt x)).

(** No two sessions occupy the same slot. *)
Definition UniqueSessions (ss : list AttendanceSession) : Prop :=
  NoDup (map sessionSlot ss).

(** A plan as the schema stores it: a day of the week, non-negative
    quantities and no [forStudents] on its entries. *)
Definition planItemStored (i : PlanItem) : Prop :=
  0 <= quantity i /\ forStudents i = None.

Definition planStored (p : MealPlan) : Prop :=
  In (day p) planDays
  /\ Forall planItemStored (breakfastInventory p)
  /\ Forall planItemStored (lunchInventory p)
  /\ Forall planItemStored (dinnerInventory p).

(** ** Sample data of the deprecated daily run *)

Module DailySample.

Local Open Scope Z_scope.

(** A Wednesday whose dinner takes five kilograms of rice. *)
Definition wednesday : MealPlan :=
  mkPlan "Wednesday" [] [] [Sample.ricePlanLine].

(** One student, present on Wednesday evening; ten kilograms of rice. *)
Definition kitchen : Store :=
  mkStore [Sample.rice] [wednesday] [Sample.onePresent]
          [Sample.admin1; Sample.cook] ["st1"] [] [] [].

(** Wednesday evening, an hour before midnight. *)
Definition wednesdayNight : Date := -3600000.

End DailySample.

(** * Properties *)

(** ** Numbers and dates *)

Lemma ltb_false_le (a b : Q) : Js.ltb a b = false -> b <= a.
Proof.
  unfold Js.ltb. intros H. apply negb_false_iff in H.
  now apply Qle_bool_iff.
Qed.

Lemma ltb_true_lt (a b : Q) : Js.ltb a b = true -> a < b.
Proof.
  unfold Js.ltb. intros H. apply negb_true_iff in H.
  apply Qnot_le_lt. intros Hle. apply Qle_bool_iff in Hle. congruence.
Qed.

Lemma le_ltb_false (a b : Q) : b <= a -> Js.ltb a b = false.
Proof.
  intros H. unfold Js.ltb. apply negb_false_iff. now apply Qle_bool_iff.
Qed.

Lemma lt_ltb_true (a b : Q) : a < b -> Js.ltb a b = true.
Proof.
  intros H. destruct (Js.ltb a b) eqn:E; [reflexivity|].
  apply ltb_false_le in E. exfalso. now apply (Qlt_not_le a b).
Qed.

Lemma startOfDay_dayOf (d : Date) : startOfDay d = (dayOf d * msPerDay)%Z.
Proof.
  unfold startOfDay, dayOf, msPerDay.
  Z.to_euclidean_division_equations. lia.
Qed.

Lemma dayOf_previousDay (d : Date) : dayOf (previousDay d) = (dayOf d - 1)%Z.
Proof.
  unfold previousDay, dayOf, msPerDay.
  Z.to_euclidean_division_equations. lia.
Qed.

Lemma dayOf_startOfDay (d : Date) : dayOf (startOfDay d) = dayOf d.
Proof.
  unfold startOfDay, dayOf, msPerDay.
  Z.to_euclidean_division_equations. lia.
Qed.

(** A date lies in the window of [date] exactly when both fall on the same
    calendar day. *)
Lemma window_dayOf (date t : Date) :
  ((startOfDay date <=? t)%Z && (t <=? endOfDay date)%Z)
  = (dayOf t =? dayOf date)%Z.
Proof.
  unfold endOfDay. rewrite startOfDay_dayOf. unfold dayOf, msPerDay.
  destruct (Z.eqb_spec (t / 86400000) (date / 86400000));
    destruct (Z.leb_spec (date / 86400000 * 86400000) t);
    destruct (Z.leb_spec t (date / 86400000 * 86400000 + 86399999));
    simpl; try reflexivity; exfalso;
    Z.to_euclidean_division_equations; lia.
Qed.

Lemma find_agree {A : Type} (f g : A -> bool) (l : list A) :
  (forall x, f x = g x) -> find f l = find g l.
Proof.
  intros H. induction l as [|x l IH]; simpl; [reflexivity|].
  now rewrite H, IH.
Qed.

Lemma findSession_evening (date : Date) (ss : list AttendanceSession) :
  findSession attendanceSessionType date ss = eveningSessionOn (dayOf date) ss.
Proof.
  unfold findSession, eveningSessionOn. apply find_agree. intros x.
  unfold sessionMatches, attendanceSessionType.
  now rewrite <- andb_assoc, window_dayOf.
Qed.

(** ** The item loops, one iteration at a time *)

Lemma processPlanItem_missing mealType attendance now st item :
  findItemById (inventoryItemId item) (loop_inventory st) = None ->
  processPlanItem mealType attendance now st item
  = mkLoop (loop_inventory st) (consumptionUpdates st)
      (errors st ++
         [(mealType ++ ": Inventory item " ++ inventoryItemId item
             ++ " not found")%string])
      (usageItems st).
Proof. intros H. unfold processPlanItem. now rewrite H. Qed.

Lemma processPlanItem_short mealType attendance now st item it :
  findItemById (inventoryItemId item) (loop_inventory st) = Some it ->
  Js.ltb (currentStock it)
         (quantityToConsume (quantity item) (forStudentsOrDefault item)
                            attendance) = true ->
  processPlanItem mealType attendance now st item
  = mkLoop (loop_inventory st) (consumptionUpdates st)
      (errors st ++
         [insufficientStockError mealType it
            (quantityToConsume (quantity item) (forStudentsOrDefault item)
                               attendance) attendance])
      (usageItems st).
Proof. intros H1 H2. unfold processPlanItem. now rewrite H1, H2. Qed.

Lemma processPlanItem_debit mealType attendance now st item it :
  findItemById (inventoryItemId item) (loop_inventory st) = Some it ->
  Js.ltb (currentStock it)
         (quantityToConsume (quantity item) (forStudentsOrDefault item)
                            attendance) = false ->
  let amount := quantityToConsume (quantity item) (forStudentsOrDefault item)
                                  attendance in
  processPlanItem mealType attendance now st item
  = mkLoop (saveItem (deduct now it amount) (loop_inventory st))
      (consumptionUpdates st ++
         [mkUpdate mealType (item_name it) (quantity item) amount attendance
                   (currentStock it - amount)])
      (errors st)
      (usageItems st ++
         [mkUsageItem (item_id it) (quantity item) (forStudentsOrDefault item)
                      amount]).
Proof. intros H1 H2. unfold processPlanItem. now rewrite H1, H2. Qed.

(** ** The consumption calculator *)

Lemma quantityToConsume_nonneg baseQuantity groupSize attendance :
  0 <= baseQuantity -> 0 < groupSize -> (0 <= attendance)%Z ->
  0 <= quantityToConsume baseQuantity groupSize attendance.
Proof.
  intros Hb Hg Ha. unfold quantityToConsume.
  apply Qmult_le_0_compat; [|assumption].
  apply Qle_shift_div_l; [assumption|].
  rewrite Qmult_0_l. change 0 with (inject_Z 0). now rewrite <- Zle_Qle.
Qed.

(** *** The calculator on binary64 *)

Section DoubleProofs.

Local Open Scope Z_scope.







(** **** A quotient of a number by itself, a product with one *)




(** **** The sign of a rounded result *)










(** **** One binade up *)













End DoubleProofs.




(** ** Which attendance feeds which meal *)

Lemma attendanceDateFor_dayOf mealType date :
  dayOf (attendanceDateFor mealType date)
  = if String.eqb mealType "breakfast" || String.eqb mealType "lunch"
    then (dayOf date - 1)%Z else dayOf date.
Proof.
  unfold attendanceDateFor.
  destruct (String.eqb mealType "breakfast" || String.eqb mealType "lunch");
    [apply dayOf_previousDay | reflexivity].
Qed.

Lemma getAttendanceCount_evening mealType date ss :
  getAttendanceCount attendanceSessionType (attendanceDateFor mealType date) ss
  = option_map presentOrZero
      (eveningSessionOn (dayOf (attendanceDateFor mealType date)) ss).
Proof.
  unfold getAttendanceCount. rewrite findSession_evening.
  now destruct (eveningSessionOn _ ss).
Qed.

Lemma getAttendanceForDate_evening mealType date ss :
  getAttendanceForDate (attendanceDateFor mealType (startOfDay date))
                       attendanceSessionType ss
  = option_map presentCount
      (eveningSessionOn (dayOf (attendanceDateFor mealType date)) ss).
Proof.
  unfold getAttendanceForDate. rewrite findSession_evening.
  rewrite !attendanceDateFor_dayOf, dayOf_startOfDay.
  now destruct (eveningSessionOn _ ss).
Qed.

(** ** Runs that must not touch the store *)

(** C3.  A scheduled run whose attendance lookup finds no session, or a
    session with nobody present, returns the store it was given: no stock is
    debited, no usage record and no notification is created. *)
Theorem consume_skips_without_attendance
    (mealType : string) (date now : Date) (s : Store) :
  getAttendanceCount attendanceSessionType (attendanceDateFor mealType date)
                     (sessions s) = None
  \/ getAttendanceCount attendanceSessionType (attendanceDateFor mealType date)
                        (sessions s) = Some 0%Z ->
  consumeInventoryForMeal mealType date now s = s.
Proof.
  intros H. unfold consumeInventoryForMeal.
  destruct (findPlan (dayName date) (mealPlans s)); [|reflexivity].
  destruct H as [-> | ->]; reflexivity.
Qed.

Lemma consume_skips_without_attendance_witness :
  (getAttendanceCount attendanceSessionType
     (attendanceDateFor "breakfast" 1000%Z)
     (sessions Sample.hostelNobodyPresent) = None
   \/ getAttendanceCount attendanceSessionType
        (attendanceDateFor "breakfast" 1000%Z)
        (sessions Sample.hostelNobodyPresent) = Some 0%Z)
  /\ consumeInventoryForMeal "breakfast" 1000%Z 2000%Z
       Sample.hostelNobodyPresent
     = Sample.hostelNobodyPresent.
Proof.
  split; [right; reflexivity|].
  apply (consume_skips_without_attendance "breakfast" 1000%Z 2000%Z
           Sample.hostelNobodyPresent).
  right; reflexivity.
Defined.

Lemma findAdmin_none (us : list User) :
  (forall u, In u us -> role u <> "admin") -> findAdmin us = None.
Proof.
  intros H. unfold findAdmin.
  destruct (find _ us) as [u|] eqn:E; [|reflexivity].
  apply find_some in E. destruct E as [Hin Hr].
  apply String.eqb_eq in Hr. now apply H in Hin.
Qed.

(** C10.  When no user has the admin role, a scheduled run returns the store
    it was given, whatever the plan and the attendance: it stops before the
    first plan item, so nothing is debited and no usage record or
    notification is created. *)
Theorem consume_needs_admin
    (mealType : string) (date now : Date) (s : Store) :
  (forall u, In u (users s) -> role u <> "admin") ->
  consumeInventoryForMeal mealType date now s = s.
Proof.
  intros H. unfold consumeInventoryForMeal.
  rewrite (findAdmin_none _ H).
  destruct (findPlan _ _); [|reflexivity].
  destruct (getAttendanceCount _ _ _) as [n|]; [|reflexivity].
  destruct (n =? 0)%Z; [reflexivity|].
  destruct (mealInventoryOf _ _); reflexivity.
Qed.

Lemma consume_needs_admin_witness :
  (forall u, In u (users Sample.hostelNoAdmin) -> role u <> "admin")
  /\ findPlan (dayName 1000%Z) (mealPlans Sample.hostelNoAdmin)
     = Some Sample.thursday
  /\ getAttendanceCount attendanceSessionType
       (attendanceDateFor "breakfast" 1000%Z) (sessions Sample.hostelNoAdmin)
     = Some 25%Z
  /\ consumeInventoryForMeal "breakfast" 1000%Z 2000%Z Sample.hostelNoAdmin
     = Sample.hostelNoAdmin.
Proof.
  assert (H : forall u, In u (users Sample.hostelNoAdmin) ->
                        role u <> "admin").
  { simpl. intros u [<- | [<- | []]]; discriminate. }
  split; [exact H|]. split; [reflexivity|]. split; [reflexivity|].
  apply (consume_needs_admin "breakfast" 1000%Z 2000%Z Sample.hostelNoAdmin H).
Defined.

(** ** Debits *)

Lemma findItemById_id id inv it :
  findItemById id inv = Some it -> item_id it = id.
Proof.
  intros H. apply find_some in H. now apply String.eqb_eq.
Qed.

Lemma findItemById_saveItem id inv it doc :
  findItemById id inv = Some it -> item_id doc = id ->
  findItemById id (saveItem doc inv) = Some doc.
Proof.
  intros H Hd. subst id. unfold findItemById, saveItem in *.
  induction inv as [|a inv IH]; simpl in *; [discriminate|].
  destruct (String.eqb (item_id a) (item_id doc)) eqn:E.
  - now rewrite String.eqb_refl.
  - rewrite E. now apply IH.
Qed.

Lemma findItemById_saveItem_other id inv doc :
  item_id doc <> id ->
  findItemById id (saveItem doc inv) = findItemById id inv.
Proof.
  intros Hd. unfold findItemById, saveItem.
  induction inv as [|a inv IH]; simpl; [reflexivity|].
  destruct (String.eqb (item_id a) (item_id doc)) eqn:E.
  - apply String.eqb_eq in E. apply String.eqb_neq in Hd.
    rewrite Hd, E, Hd. apply IH.
  - now rewrite IH.
Qed.

(** The scheduled run debits soundly: it reads the stock, compares and
    writes within one iteration.  When the amount fits, the stored stock
    becomes the stored stock minus the amount and is not negative (so the
    schema's [min: 0] validator accepts the save), and no other item moves;
    when it does not fit, the inventory is as before and the error renders
    the item's name, its stock and the amount. *)
Lemma scheduled_debit_sound mealType attendance now st item it :
  findItemById (inventoryItemId item) (loop_inventory st) = Some it ->
  let amount := quantityToConsume (quantity item) (forStudentsOrDefault item)
                                  attendance in
  let st' := processPlanItem mealType attendance now st item in
  (amount <= currentStock it ->
   stockOf (inventoryItemId item) (loop_inventory st')
     = Some (currentStock it - amount)
   /\ 0 <= currentStock it - amount
   /\ (forall other, other <> inventoryItemId item ->
         findItemById other (loop_inventory st')
         = findItemById other (loop_inventory st))
   /\ errors st' = errors st)
  /\ (currentStock it < amount ->
      loop_inventory st' = loop_inventory st
      /\ errors st'
         = errors st ++ [insufficientStockError mealType it amount attendance]).
Proof.
  intros Hfind amount st'. subst st'. split; intros Hcmp.
  - rewrite (processPlanItem_debit _ _ _ _ _ _ Hfind (le_ltb_false _ _ Hcmp)).
    simpl. fold amount. pose proof (findItemById_id _ _ _ Hfind) as Hid.
    split; [|split; [|split]].
    + unfold stockOf.
      now rewrite (findItemById_saveItem _ _ it (deduct now it amount) Hfind).
    + lra.
    + intros other Hne. apply findItemById_saveItem_other. simpl. congruence.
    + reflexivity.
  - now rewrite (processPlanItem_short _ _ _ _ _ _ Hfind
                                       (lt_ltb_true _ _ Hcmp)).
Qed.


(** C1 (the manual path at a request that names one item twice).  With ten
    kilograms of rice in store and one student present, both lines pass the
    check against the same ten kilograms and keep that document.  The first
    debit leaves four kilograms in the store; the second writes ten minus six
    again, so the store goes from four to four while six are reported as
    deducted: the stock after the debit is not the stock before it minus the
    amount, and the amount exceeded the stock the store held.  The reply is
    201 with twelve kilograms recorded as deducted. *)
Theorem manual_duplicate_lines_lose_a_debit :
  let inv0 := inventory Sample.pantry in
  let c := checkItems 1 inv0 [Sample.riceLine; Sample.riceLine] in
  let u1 := mkInventoryUpdate Sample.rice (6 # 1) in
  let u2 := mkInventoryUpdate Sample.rice (6 # 1) in
  let inv1 := applyUpdate 7 inv0 u1 in
  let inv2 := applyUpdate 7 inv1 u2 in
  let r := recordInventoryUsage Sample.showDate Sample.riceTwice 7
                                Sample.pantry in
  req_errors c = []
  /\ inventoryUpdates c = [u1; u2]
  /\ stockOf "i1" inv0 = Some (10 # 1)
  /\ stockOf "i1" inv1 = Some (4 # 1)
  /\ stockOf "i1" inv2 = Some (4 # 1)
  /\ ~ (4 # 1) == (4 # 1) - quantityToDeduct u2
  /\ (4 # 1) < quantityToDeduct u2
  /\ inventory (snd r) = inv2
  /\ (exists doc, fst r = Sent 201 doc
        /\ map actualQuantityDeducted (usage_items doc) = [6 # 1; 6 # 1]
        /\ usages (snd r) = [doc]).
Proof.
  cbv zeta.
  split; [reflexivity|]. split; [reflexivity|]. split; [reflexivity|].
  split; [reflexivity|]. split; [reflexivity|].
  split; [intros H; discriminate H|]. split; [reflexivity|].
  split; [reflexivity|].
  eexists. split; [reflexivity|]. split; reflexivity.
Qed.

(** The scheduled run on the same two lines: the second iteration reads the
    four kilograms the first one left and refuses the debit. *)
Example scheduled_duplicate_lines_second_fails :
  let r := processPlanItems "breakfast" 1 7
             [Sample.riceForOne; Sample.riceForOne] [Sample.rice] in
  stockOf "i1" (loop_inventory r) = Some (4 # 1)
  /\ List.length (usageItems r) = 1%nat
  /\ errors r
     = ["breakfast: Insufficient stock for Rice. Available: 4.00 kg, Required: 6.00 kg (Attendance: 1)"].
Proof. cbv zeta. split; [reflexivity|]. split; reflexivity. Qed.

(** ** A run that succeeds for one item and fails for the next *)

Lemma store_eta (s : Store) :
  mkStore (inventory s) (mealPlans s) (sessions s) (users s) (students s)
          (records s) (usages s) (notifications s) = s.
Proof. now destruct s. Qed.

Lemma createNotification_fold {A : Type} (uid : A -> ObjectId)
    now type title message (l : list A) (s : Store) :
  fold_left
    (fun st a => createNotification now (uid a) type title message st) l s
  = set_notifications
      (notifications s
         ++ map (fun a => mkNotification (uid a) type title message false now)
                l) s.
Proof.
  revert s. induction l as [|a l IH]; intros s; simpl.
  - unfold set_notifications. rewrite app_nil_r. symmetry. apply store_eta.
  - rewrite IH. unfold createNotification, set_notifications. simpl.
    now rewrite <- app_assoc.
Qed.


Lemma prefix_append (t b : string) : String.prefix t (t ++ b) = true.
Proof.
  induction t as [|c t IH]; simpl; [now destruct b|].
  destruct (ascii_dec c c); [assumption|congruence].
Qed.

Lemma str_includes_unfold (s t : string) :
  Js.str_includes s t
  = String.prefix t s
    || match s with
       | EmptyString => false
       | String _ s' => Js.str_includes s' t
       end.
Proof. now destruct s. Qed.

Lemma str_includes_here (t b : string) : Js.str_includes (t ++ b) t = true.
Proof.
  rewrite str_includes_unfold, prefix_append. reflexivity.
Qed.

Lemma str_includes_after (a s t : string) :
  Js.str_includes s t = true -> Js.str_includes (a ++ s) t = true.
Proof.
  intros H. induction a as [|c a IH]; simpl; [assumption|].
  rewrite IH. apply orb_true_r.
Qed.




(** ** The manual path applies all debits or none *)

Lemma validMealType_nonempty (m : string) :
  isValidMealType m = true -> String.eqb m "" = false.
Proof.
  intros H. destruct (String.eqb m "") eqn:E; [|reflexivity].
  apply String.eqb_eq in E. subst m. discriminate H.
Qed.

(** What one validation step can do: push one error, or keep one line and
    the document it was checked against. *)
Lemma checkItem_cases attendance inv st item :
  (exists msg, checkItem attendance inv st item = pushError msg st)
  \/ (exists rq rfs it,
        req_recordedQuantity item = Some rq
        /\ req_recordedForStudents item = Some rfs
        /\ Js.includes [1; 10 # 1] rfs = true
        /\ findItemById (req_inventoryItemId item) inv = Some it
        /\ quantityToConsume rq rfs attendance <= currentStock it
        /\ checkItem attendance inv st item
           = mkChecked
               (processedItems st ++
                  [mkUsageItem (req_inventoryItemId item) rq rfs
                               (quantityToConsume rq rfs attendance)])
               (inventoryUpdates st ++
                  [mkInventoryUpdate it (quantityToConsume rq rfs attendance)])
               (req_errors st)).
Proof.
  unfold checkItem.
  destruct (req_recordedQuantity item) as [rq|]; [|left; eauto].
  destruct (req_recordedForStudents item) as [rfs|]; [|left; eauto].
  destruct (String.eqb (req_inventoryItemId item) "" || Js.eqb rfs 0);
    [left; eauto|].
  destruct (Js.includes [1; 10 # 1] rfs) eqn:Hin; simpl; [|left; eauto].
  destruct (findItemById (req_inventoryItemId item) inv) as [it|] eqn:Hf;
    [|left; eauto].
  destruct (Js.ltb (currentStock it) (quantityToConsume rq rfs attendance))
    eqn:Hlt; [left; eauto|].
  right. exists rq, rfs, it. repeat (split; [reflexivity || assumption|]).
  split; [now apply ltb_false_le | reflexivity].
Qed.


(** The handler past its request checks: the validation loop, then either
    the joined errors or the debits and the usage record. *)
Lemma recordInventoryUsage_checked toLocaleDateString req now date s items
    attendance :
  req_date req = DateValue date ->
  isValidMealType (req_mealType req) = true ->
  req_items req = Some items -> items <> [] ->
  getAttendanceForDate
    (attendanceDateFor (req_mealType req) (startOfDay date))
    attendanceSessionType (sessions s) = Some attendance ->
  recordInventoryUsage toLocaleDateString req now s
  = let c := checkItems attendance (inventory s) items in
    match req_errors c with
    | _ :: _ => (Thrown 400 (Js.join "; " (req_errors c)), s)
    | [] =>
        let s1 :=
          set_inventory
            (applyUpdates now (inventoryUpdates c) (inventory s)) s in
        match createUsage
                (mkUsage (startOfDay date) (req_mealType req)
                   (processedItems c) attendance
                   (option_map session_id
                      (findSession attendanceSessionType
                         (attendanceDateFor (req_mealType req)
                                            (startOfDay date)) (sessions s)))
                   (req_user req) (req_notes req)) s1 with
        | Some (doc, s2) => (Sent 201 doc, s2)
        | None => (Thrown 200 "InventoryUsage validation failed", s1)
        end
    end.
Proof.
  intros Hd Hm Hi Hne Ha. unfold recordInventoryUsage.
  rewrite Hi, Hd, Hm, (validMealType_nonempty _ Hm), Ha.
  destruct items as [|i items]; [congruence|]. reflexivity.
Qed.

(** When the validation loop collected an error the handler keeps its
    promise: it throws 400 with the errors joined by "; " and returns the
    store untouched, so no stock changes and no usage record is created. *)
Lemma manual_errors_change_nothing
    (toLocaleDateString : Date -> string) (req : UsageRequest)
    (now date : Date) (s : Store) (items : list ReqItem) (attendance : Z) :
  req_date req = DateValue date ->
  isValidMealType (req_mealType req) = true ->
  req_items req = Some items -> items <> [] ->
  getAttendanceForDate
    (attendanceDateFor (req_mealType req) (startOfDay date))
    attendanceSessionType (sessions s) = Some attendance ->
  let c := checkItems attendance (inventory s) items in
  req_errors c <> [] ->
  recordInventoryUsage toLocaleDateString req now s
  = (Thrown 400 (Js.join "; " (req_errors c)), s).
Proof.
  intros Hd Hm Hi Hne Ha c He.
  rewrite (recordInventoryUsage_checked toLocaleDateString req now date s
             items attendance Hd Hm Hi Hne Ha).
  cbv zeta. fold c. destruct (req_errors c); [congruence|reflexivity].
Qed.

(** A request for rice and for an item the store does not know: nothing is
    written. *)
Example manual_unknown_item_changes_nothing :
  recordInventoryUsage Sample.showDate Sample.riceAndUnknown 7 Sample.pantry
  = (Thrown 400 "Inventory item i9 not found", Sample.pantry).
Proof. reflexivity. Qed.

(** C5 (the manual path at a request with a negative quantity).  With ten
    kilograms of rice in store and one student present, the request records
    minus five kilograms per student.  The validation loop does not look at
    the sign, and ten is not less than minus five: it collects no error and
    prepares a debit of minus five.  The deduct loop saves fifteen kilograms.
    Then the usage record is refused by the schema, whose [recordedQuantity]
    and [actualQuantityDeducted] have [min: 0]: the handler throws with the
    status never set and no usage record exists.  The stock was written and
    nothing was recorded. *)
Theorem manual_negative_quantity_writes_without_record :
  let inv0 := inventory Sample.pantry in
  let c := checkItems 1 inv0 [Sample.riceNegativeLine] in
  let r := recordInventoryUsage Sample.showDate Sample.riceNegative 7
                                Sample.pantry in
  req_errors c = []
  /\ inventoryUpdates c = [mkInventoryUpdate Sample.rice (-5 # 1)]
  /\ forallb usageItemValid (processedItems c) = false
  /\ stockOf "i1" inv0 = Some (10 # 1)
  /\ stockOf "i1" (inventory (snd r)) = Some (15 # 1)
  /\ (exists message, fst r = Thrown 200 message)
  /\ usages (snd r) = usages Sample.pantry
  /\ usages Sample.pantry = [].
Proof.
  cbv zeta.
  split; [reflexivity|]. split; [reflexivity|]. split; [reflexivity|].
  split; [reflexivity|]. split; [reflexivity|].
  split; [eexists; reflexivity|]. split; reflexivity.
Qed.

(** ** The low-stock monitor *)

Lemma find_app {A : Type} (f : A -> bool) (l1 l2 : list A) :
  find f (l1 ++ l2)
  = match find f l1 with Some x => Some x | None => find f l2 end.
Proof.
  induction l1 as [|a l1 IH]; simpl; [reflexivity|].
  destruct (f a); [reflexivity|apply IH].
Qed.

Lemma fold_left_map {A B C : Type} (f : A -> C -> A) (g : B -> C)
    (l : list B) (a : A) :
  fold_left f (map g l) a = fold_left (fun x b => f x (g b)) l a.
Proof.
  revert a. induction l as [|b l IH]; intros a; simpl; [reflexivity|].
  apply IH.
Qed.

Lemma set_notifications_twice l1 l2 s :
  set_notifications l2 (set_notifications l1 s) = set_notifications l2 s.
Proof. reflexivity. Qed.

Lemma sameAlertToday_day now now' user title n :
  dayOf now' = dayOf now ->
  sameAlertToday now' user title n = sameAlertToday now user title n.
Proof.
  intros H. unfold sameAlertToday. now rewrite !startOfDay_dayOf, H.
Qed.

Lemma startOfDay_le (d : Date) : (startOfDay d <= d)%Z.
Proof.
  unfold startOfDay, msPerDay. Z.to_euclidean_division_equations. lia.
Qed.

Section LowStockProofs.

Variable showNumber : Q -> string.
Variable now : Date.

Local Abbreviation alert := (lowStockAlert showNumber now).
Local Abbreviation step := (lowStockStep showNumber now).
Local Abbreviation today := (alertedToday now).

Lemma alert_today p : today p (alert p) = true.
Proof.
  unfold alertedToday, lowStockAlert, sameAlertToday. simpl.
  rewrite !String.eqb_refl. simpl. apply Z.leb_le, startOfDay_le.
Qed.

Lemma step_cases st p :
  (exists n, find (today p) (notifications st) = Some n /\ step st p = st)
  \/ (find (today p) (notifications st) = None
      /\ step st p
         = set_notifications (notifications st ++ [alert p]) st).
Proof.
  unfold lowStockStep, notifyLowStock, alertedToday.
  destruct (find _ (notifications st)) as [n|] eqn:E.
  - left. exists n. now split.
  - right. split; reflexivity.
Qed.

Lemma checkLowStockItems_pairs s :
  checkLowStockItems showNumber now s
  = fold_left step
      (list_prod (filter isLowStock (inventory s))
                 (usersWithRole ["admin"; "kitchen"] (users s))) s.
Proof.
  unfold checkLowStockItems.
  assert (H : forall items us st,
    fold_left
      (fun st item => fold_left (notifyLowStock showNumber now item) us st)
      items st
    = fold_left step (list_prod items us) st).
  { induction items as [|item items IH]; intros us st; simpl;
      [reflexivity|].
    rewrite fold_left_app, fold_left_map. unfold lowStockStep at 2. simpl.
    apply IH. }
  rewrite <- H. now destruct (filter isLowStock (inventory s)).
Qed.

(** What a pass over a list of (item, recipient) pairs creates. *)
Lemma pass_creates ps s :
  exists created,
    fold_left step ps s = set_notifications (notifications s ++ created) s
    /\ Forall (fun n => exists p, In p ps /\ n = alert p) created
    /\ NoDup (map (fun n => (notif_user n, notif_title n)) created)
    /\ Forall (fun n =>
                 find (sameAlertToday now (notif_user n) (notif_title n))
                      (notifications s) = None) created
    /\ (forall p, In p ps ->
          exists n, find (today p) (notifications s ++ created) = Some n).
Proof.
  revert s. induction ps as [|p ps IH]; intros s.
  - exists []. simpl. rewrite app_nil_r.
    split; [unfold set_notifications; now rewrite store_eta|].
    split; [constructor|]. split; [constructor|]. split; [constructor|].
    intros p [].
  - simpl. destruct (step_cases s p) as [(n & Hn & ->) | (Hnone & ->)].
    + destruct (IH s) as (created & Hfold & Hall & Hnd & Hnew & Hcov).
      exists created. split; [assumption|].
      split.
      { eapply Forall_impl; [|exact Hall]. intros a (q & Hq & ->).
        exists q. split; [now right|reflexivity]. }
      split; [assumption|]. split; [assumption|].
      intros q [<- | Hq]; [|now apply Hcov].
      exists n. now rewrite find_app, Hn.
    + destruct (IH (set_notifications (notifications s ++ [alert p]) s))
        as (created & Hfold & Hall & Hnd & Hnew & Hcov).
      simpl in Hfold, Hnew, Hcov.
      exists (alert p :: created).
      split.
      { rewrite Hfold, set_notifications_twice, <- app_assoc. reflexivity. }
      split.
      { constructor; [exists p; split; [now left|reflexivity]|].
        eapply Forall_impl; [|exact Hall]. intros a (q & Hq & ->).
        exists q. split; [now right|reflexivity]. }
      split.
      { simpl. constructor; [|assumption].
        intros Hin. apply in_map_iff in Hin.
        destruct Hin as (n' & Hkey & Hin').
        rewrite Forall_forall in Hnew. specialize (Hnew n' Hin').
        rewrite find_app in Hnew.
        destruct (find (sameAlertToday now (notif_user n') (notif_title n'))
                       (notifications s)); [discriminate|].
        apply pair_equal_spec in Hkey. destruct Hkey as [Hu Ht].
        simpl in Hnew, Hu, Ht. rewrite Hu, Ht in Hnew.
        change (sameAlertToday now (user_id (snd p)) (lowStockTitle (fst p))
                               (alert p))
          with (today p (alert p)) in Hnew.
        rewrite alert_today in Hnew. discriminate. }
      split.
      { constructor; [exact Hnone|].
        eapply Forall_impl; [|exact Hnew]. intros a Ha. simpl in Ha.
        rewrite find_app in Ha.
        now destruct (find (sameAlertToday now (notif_user a) (notif_title a))
                           (notifications s)). }
      intros q Hq. rewrite <- app_assoc in Hcov. simpl in Hcov.
      destruct Hq as [<- | Hq]; [|now apply Hcov].
      exists (alert p). rewrite find_app, Hnone. simpl.
      now rewrite alert_today.
Qed.

(** A pass over pairs that were all alerted today creates nothing. *)
Lemma pass_idle ps s :
  (forall p, In p ps -> exists n, find (today p) (notifications s) = Some n)
  -> fold_left step ps s = s.
Proof.
  induction ps as [|p ps IH]; intros H; simpl; [reflexivity|].
  destruct (step_cases s p) as [(n & _ & ->) | (Hnone & _)].
  - apply IH. intros q Hq. apply H. now right.
  - destruct (H p (or_introl eq_refl)) as (n & Hn). congruence.
Qed.

End LowStockProofs.

Lemma lowStockType_alert (item : InventoryItem) :
  (currentStock item == 0 -> lowStockType item = "alert")
  /\ (~ currentStock item == 0 -> lowStockType item = "warning").
Proof.
  unfold lowStockType, Js.eqb. split; intros H.
  - now rewrite (Qeq_eq_bool _ _ H).
  - destruct (Qeq_bool (currentStock item) 0) eqn:E; [|reflexivity].
    apply Qeq_bool_eq in E. contradiction.
Qed.

Lemma lowStock_pair (s : Store) (item : InventoryItem) (user : User) :
  In (item, user)
     (list_prod (filter isLowStock (inventory s))
                (usersWithRole ["admin"; "kitchen"] (users s)))
  <-> (In item (inventory s) /\ currentStock item <= minimumStock item)
      /\ In user (users s) /\ (role user = "admin" \/ role user = "kitchen").
Proof.
  rewrite in_prod_iff. unfold usersWithRole. rewrite !filter_In.
  unfold isLowStock, Js.leb. rewrite Qle_bool_iff. simpl.
  rewrite orb_false_r, orb_true_iff, !String.eqb_eq. tauto.
Qed.

(** C6.  Within one calendar day the monitor is idempotent: run again on the
    store a first run left, it creates nothing.  A run only appends
    notifications; it appends at most one per recipient and title, and none
    where the recipient already had one of that title created today.  Each
    one it appends is stamped with the clock and belongs to a low item
    ([currentStock <= minimumStock]) and a user with the admin or kitchen
    role; its type is alert when that item's stock is 0 and warning
    otherwise.  After the run every low item has a notification of today for
    every such recipient. *)
Theorem low_stock_monitor_once_per_day
    (showNumber : Q -> string) (now now' : Date) (s : Store) :
  dayOf now' = dayOf now ->
  let s1 := checkLowStockItems showNumber now s in
  checkLowStockItems showNumber now' s1 = s1
  /\ exists created,
       s1 = set_notifications (notifications s ++ created) s
       /\ NoDup (map (fun n => (notif_user n, notif_title n)) created)
       /\ (forall n, In n created ->
             find (sameAlertToday now (notif_user n) (notif_title n))
                  (notifications s) = None
             /\ createdAt n = now
             /\ exists item user,
                  (In item (inventory s)
                   /\ currentStock item <= minimumStock item)
                  /\ In user (users s)
                  /\ (role user = "admin" \/ role user = "kitchen")
                  /\ notif_user n = user_id user
                  /\ notif_title n = lowStockTitle item
                  /\ (currentStock item == 0 -> notif_type n = "alert")
                  /\ (~ currentStock item == 0 -> notif_type n = "warning"))
       /\ (forall item user,
             In item (inventory s) ->
             currentStock item <= minimumStock item ->
             In user (users s) ->
             role user = "admin" \/ role user = "kitchen" ->
             exists n,
               In n (notifications s1)
               /\ notif_user n = user_id user
               /\ notif_title n = lowStockTitle item
               /\ (startOfDay now <= createdAt n)%Z).
Proof.
  intros Hday s1. subst s1. rewrite (checkLowStockItems_pairs showNumber now s).
  destruct (pass_creates showNumber now
              (list_prod (filter isLowStock (inventory s))
                         (usersWithRole ["admin"; "kitchen"] (users s))) s)
    as (created & Hfold & Hall & Hnd & Hnew & Hcov).
  rewrite Hfold. split.
  - rewrite checkLowStockItems_pairs. cbn [inventory users set_notifications].
    apply pass_idle. intros p Hp. cbn [notifications].
    destruct (Hcov p Hp) as (n & Hn). exists n. rewrite <- Hn.
    apply find_agree. intros x. unfold alertedToday.
    now apply sameAlertToday_day.
  - exists created. split; [reflexivity|]. split; [assumption|]. split.
    + intros n Hn. rewrite Forall_forall in Hall, Hnew.
      split; [now apply Hnew|].
      destruct (Hall n Hn) as ([item user] & Hp & ->).
      split; [reflexivity|]. exists item, user.
      apply lowStock_pair in Hp. destruct Hp as (Hi & Hu & Hr).
      split; [assumption|]. split; [assumption|]. split; [assumption|].
      split; [reflexivity|]. split; [reflexivity|].
      apply lowStockType_alert.
    + intros item user Hi Hlow Hu Hr.
      destruct (Hcov (item, user)) as (n & Hn).
      { apply lowStock_pair. tauto. }
      apply find_some in Hn. destruct Hn as [Hin Hn].
      unfold alertedToday, sameAlertToday in Hn. simpl in Hn.
      apply andb_true_iff in Hn. destruct Hn as [Hn Ht].
      apply andb_true_iff in Hn. destruct Hn as [Hn1 Hn2].
      exists n. cbn [notifications set_notifications].
      split; [assumption|].
      split; [now apply String.eqb_eq|].
      split; [now apply String.eqb_eq|]. now apply Z.leb_le.
Qed.

Lemma low_stock_monitor_once_per_day_witness :
  dayOf 5000 = dayOf 4000
  /\ checkLowStockItems Js.toFixed2 5000
       (checkLowStockItems Js.toFixed2 4000 Sample.larder)
     = checkLowStockItems Js.toFixed2 4000 Sample.larder
  /\ map (fun n => (notif_user n, notif_type n, notif_title n))
         (notifications (checkLowStockItems Js.toFixed2 4000 Sample.larder))
     = [("u1", "alert", "Low Stock: Salt"); ("u2", "alert", "Low Stock: Salt");
        ("u1", "warning", "Low Stock: Oil");
        ("u2", "warning", "Low Stock: Oil")].
Proof.
  split; [reflexivity|]. split; [|reflexivity].
  exact (proj1 (low_stock_monitor_once_per_day Js.toFixed2 4000 5000
                  Sample.larder eq_refl)).
Defined.

(** ** Attendance sessions *)

Lemma find_first {A : Type} (f : A -> bool) (l : list A) (x : A) :
  In x l -> f x = true -> exists y, find f l = Some y.
Proof.
  intros Hin Hf. destruct (find f l) as [y|] eqn:E; [now exists y|].
  now rewrite (find_none f l E x Hin) in Hf.
Qed.

(** C8.  A request to create a session of a type and on a calendar day for
    which the store already holds a session (one of that type whose
    [markedAt] falls on that day) is rejected and the store is returned as it
    was: no session is created and the existing one is untouched.  When the
    request carries its records and a valid session type the rejection is the
    409 Conflict. *)
Theorem duplicate_session_conflict
    (toLocaleDateString : Date -> string) (newObjectId : nat -> ObjectId)
    (req : SessionRequest) (now : Date) (s : Store)
    (attendanceDate : Date) (existing : AttendanceSession) :
  sessionDate (sreq_date req) now = Some attendanceDate ->
  In existing (sessions s) ->
  sessionType existing = sreq_sessionType req ->
  dayOf (markedAt existing) = dayOf attendanceDate ->
  let r := createAttendanceSession toLocaleDateString newObjectId req now s in
  snd r = s
  /\ (exists status message, fst r = Thrown status message)
  /\ (sreq_records req <> None ->
      sreq_sessionType req = "morning" \/ sreq_sessionType req = "evening" ->
      fst r
      = Thrown 409
          ("Attendance for " ++ sreq_sessionType req ++ " session on "
             ++ toLocaleDateString attendanceDate
             ++ " already exists. Please update or delete the existing record instead.")).
Proof.
  intros Hd Hin Hty Hday r.
  assert (Hfind : exists y,
    findSession (sreq_sessionType req) attendanceDate (sessions s) = Some y).
  { apply (find_first _ _ existing Hin). unfold sessionMatches.
    rewrite Hty, String.eqb_refl, <- andb_assoc, window_dayOf, Hday.
    simpl. apply Z.eqb_refl. }
  destruct Hfind as (y & Hy).
  subst r. unfold createAttendanceSession. rewrite Hd, Hy.
  destruct (sreq_records req) as [recs|].
  - destruct (String.eqb (sreq_sessionType req) "") eqn:E1.
    + apply String.eqb_eq in E1. rewrite E1.
      split; [reflexivity|]. split; [do 2 eexists; reflexivity|].
      intros _ [H|H]; discriminate H.
    + destruct (existsb (String.eqb (sreq_sessionType req)) validSessionTypes)
        eqn:E2; simpl.
      * split; [reflexivity|]. split; [do 2 eexists; reflexivity|]. reflexivity.
      * split; [reflexivity|]. split; [do 2 eexists; reflexivity|].
        intros _ [H|H]; rewrite H in E2; discriminate E2.
  - split; [reflexivity|]. split; [do 2 eexists; reflexivity|]. intros H. congruence.
Qed.

Lemma duplicate_session_conflict_witness :
  sessionDate (sreq_date Sample.rollCallDayBefore) 7 = Some (-86400000)%Z
  /\ In Sample.wednesdayEvening (sessions Sample.hostel)
  /\ createAttendanceSession Sample.showDate Sample.objectId
       Sample.rollCallDayBefore 7 Sample.hostel
     = (Thrown 409
          "Attendance for evening session on -1 already exists. Please update or delete the existing record instead.",
        Sample.hostel).
Proof.
  split; [reflexivity|]. split; [now left|].
  destruct (duplicate_session_conflict Sample.showDate Sample.objectId
              Sample.rollCallDayBefore 7 Sample.hostel (-86400000)
              Sample.wednesdayEvening eq_refl (or_introl eq_refl) eq_refl
              eq_refl) as (Hs & _ & Hr).
  rewrite (surjective_pairing (createAttendanceSession _ _ _ _ _)).
  rewrite Hs, Hr; [reflexivity | discriminate | now right].
Defined.

Lemma markRecords_counts sts newObjectId recs st :
  invalidStudents (fold_left (markRecord newObjectId sts) recs st) = [] ->
  invalidStudents st = []
  /\ marking_present (fold_left (markRecord newObjectId sts) recs st)
     = (marking_present st
        + Z.of_nat
            (List.length
               (filter (fun r => String.eqb (rr_status r) "present") recs)))%Z
  /\ marking_absent (fold_left (markRecord newObjectId sts) recs st)
     = (marking_absent st
        + Z.of_nat
            (List.length
               (filter (fun r => negb (String.eqb (rr_status r) "present"))
                       recs)))%Z.
Proof.
  revert st. induction recs as [|r recs IH]; intros st H; simpl in *.
  - split; [assumption|]. split; lia.
  - destruct (IH _ H) as (Hinv & Hp & Ha). rewrite Hp, Ha. clear Hp Ha IH H.
    unfold markRecord in *.
    destruct (existsb (String.eqb (rr_student r)) sts).
    + destruct (String.eqb (rr_status r) "present"); simpl in *;
        (split; [assumption|]); split; lia.
    + simpl in Hinv. now apply app_eq_nil in Hinv.
Qed.

(** C9.  A session that [createAttendanceSession] created (reply 201) is
    stored, and its counts come from the submitted records: [presentCount] is
    the number of records whose status is present, [absentCount] the number
    of all the others, [totalStudents] the length of the list, and
    [presentCount + absentCount = totalStudents]. *)
Theorem session_counts_from_records
    (toLocaleDateString : Date -> string) (newObjectId : nat -> ObjectId)
    (req : SessionRequest) (now : Date) (s s' : Store)
    (session : AttendanceSession) :
  createAttendanceSession toLocaleDateString newObjectId req now s
  = (Sent 201 session, s') ->
  exists recs,
    sreq_records req = Some recs
    /\ In session (sessions s')
    /\ presentCount session
       = Z.of_nat
           (List.length
              (filter (fun r => String.eqb (rr_status r) "present") recs))
    /\ absentCount session
       = Z.of_nat
           (List.length
              (filter (fun r => negb (String.eqb (rr_status r) "present"))
                      recs))
    /\ totalStudents session = Z.of_nat (List.length recs)
    /\ (presentCount session + absentCount session = totalStudents session)%Z.
Proof.
  unfold createAttendanceSession. intros H.
  destruct (sreq_records req) as [recs|]; [|discriminate].
  destruct (String.eqb (sreq_sessionType req) ""); [discriminate|].
  destruct (negb _); [discriminate|].
  destruct (sessionDate _ _) as [attendanceDate|]; [|discriminate].
  destruct (findSession _ _ _); [discriminate|].
  destruct (invalidStudents (markRecords newObjectId s recs)) eqn:Hinv;
    [|discriminate].
  injection H as Hsess Hs'. exists recs. split; [reflexivity|].
  unfold markRecords in *.
  destruct (markRecords_counts _ _ _ _ Hinv) as (_ & Hp & Ha). simpl in Hp, Ha.
  split.
  { subst s'. unfold sendNotifications. rewrite createNotification_fold.
    cbn [sessions set_notifications set_sessions set_records].
    apply in_or_app. right. left. exact Hsess. }
  subst session. cbn [presentCount absentCount totalStudents].
  rewrite Hp, Ha. split; [reflexivity|]. split; [reflexivity|].
  split; [reflexivity|].
  rewrite <- Nat2Z.inj_add. f_equal.
  clear. induction recs as [|r recs IH]; simpl; [reflexivity|].
  destruct (String.eqb (rr_status r) "present"); simpl; lia.
Qed.

Lemma session_counts_from_records_witness :
  exists session s',
    createAttendanceSession Sample.showDate Sample.objectId Sample.rollCall 7
                            Sample.hostel = (Sent 201 session, s')
    /\ presentCount session = 2%Z /\ absentCount session = 1%Z
    /\ totalStudents session = 3%Z.
Proof.
  eexists. eexists. split; [reflexivity|].
  destruct (session_counts_from_records Sample.showDate Sample.objectId
              Sample.rollCall 7 Sample.hostel _ _ eq_refl)
    as (recs & Hrecs & _ & Hp & Ha & Ht & _).
  injection Hrecs as <-.
  split; [exact Hp|]. split; [exact Ha | exact Ht].
Defined.

(** ** Which session a run reads *)

Lemma consume_session_frame mealType date now s ss' :
  eveningSessionOn (dayOf (attendanceDateFor mealType date)) ss'
  = eveningSessionOn (dayOf (attendanceDateFor mealType date)) (sessions s) ->
  consumeInventoryForMeal mealType date now (set_sessions ss' s)
  = set_sessions ss' (consumeInventoryForMeal mealType date now s).
Proof.
  intros H. unfold consumeInventoryForMeal.
  cbn [mealPlans sessions users inventory set_sessions].
  rewrite !getAttendanceCount_evening, !findSession_evening, H.
  destruct (findPlan _ _); [|reflexivity].
  destruct (eveningSessionOn _ (sessions s)) as [x|]; [|reflexivity].
  cbn [option_map].
  destruct (presentOrZero x =? 0)%Z; [reflexivity|].
  destruct (mealInventoryOf _ _) as [|i l]; [reflexivity|].
  destruct (findAdmin _) as [systemUser|]; [|reflexivity].
  cbv zeta.
  set (r := processPlanItems _ _ _ _ _).
  assert (Hu : forall u,
    match createUsage u
            (set_inventory (loop_inventory r) (set_sessions ss' s)) with
    | Some (_, s') => s'
    | None => set_inventory (loop_inventory r) (set_sessions ss' s)
    end
    = set_sessions ss'
        match createUsage u (set_inventory (loop_inventory r) s) with
        | Some (_, s') => s'
        | None => set_inventory (loop_inventory r) s
        end).
  { intros u. unfold createUsage. destruct (usageValid _); reflexivity. }
  destruct (usageItems r) as [|ui uis]; destruct (errors r) as [|e es];
    try reflexivity; try apply Hu.
  - unfold notifyAdmins. rewrite !createNotification_fold. reflexivity.
  - rewrite Hu. unfold notifyAdmins. rewrite !createNotification_fold.
    cbn [users set_sessions notifications].
    unfold createUsage. destruct (usageValid _); reflexivity.
Qed.

Lemma attendanceDateFor_startOfDay mealType date :
  dayOf (attendanceDateFor mealType (startOfDay date))
  = dayOf (attendanceDateFor mealType date).
Proof. now rewrite !attendanceDateFor_dayOf, dayOf_startOfDay. Qed.

Lemma record_session_frame toLocaleDateString req now s ss' :
  (forall date,
     req_date req = DateValue date ->
     eveningSessionOn (dayOf (attendanceDateFor (req_mealType req) date)) ss'
     = eveningSessionOn (dayOf (attendanceDateFor (req_mealType req) date))
                        (sessions s)) ->
  recordInventoryUsage toLocaleDateString req now (set_sessions ss' s)
  = (fst (recordInventoryUsage toLocaleDateString req now s),
     set_sessions ss' (snd (recordInventoryUsage toLocaleDateString req now s))).
Proof.
  intros H. unfold recordInventoryUsage.
  cbn [sessions inventory set_sessions].
  destruct (req_items req) as [[|i items]|]; try reflexivity.
  destruct (String.eqb (req_mealType req) ""); [reflexivity|].
  destruct (req_date req) as [| |date] eqn:Hd; try reflexivity.
  - destruct (negb _); reflexivity.
  - destruct (negb _); [reflexivity|].
    rewrite !getAttendanceForDate_evening, !findSession_evening.
    rewrite attendanceDateFor_startOfDay, (H date eq_refl).
    destruct (eveningSessionOn _ (sessions s)) as [x|]; [|reflexivity].
    cbn [option_map].
    destruct (req_errors _); [|reflexivity].
    cbv zeta. unfold createUsage. destruct (usageValid _); reflexivity.
Qed.

Lemma attendanceDay_code mealType date :
  isValidMealType mealType = true ->
  dayOf (attendanceDateFor mealType date) = attendanceDay mealType (dayOf date).
Proof.
  intros H. rewrite attendanceDateFor_dayOf. unfold attendanceDay.
  unfold isValidMealType, validMealTypes in H. simpl in H.
  rewrite orb_false_r in H.
  destruct (String.eqb mealType "breakfast") eqn:E1.
  - apply String.eqb_eq in E1. now subst.
  - destruct (String.eqb mealType "lunch") eqn:E2.
    + apply String.eqb_eq in E2. now subst.
    + simpl in H. now rewrite H.
Qed.

(** C2.  For a meal type among breakfast, lunch and dinner and a date on
    calendar day [d], let [D] be [d - 1] for breakfast and lunch and [d] for
    dinner.  The scheduled run's lookup and the manual path's lookup both
    return the present count of the evening session of day [D]: the first
    session of type evening whose [markedAt] lies within 00:00:00.000 and
    23:59:59.999 of day [D].  Neither path reads anything else of the
    session collection: replacing the collection by one with the same
    evening session of day [D] changes nothing in what they do. *)
Theorem attendance_source_alignment
    (toLocaleDateString : Date -> string) (mealType : string) (date : Date)
    (ss : list AttendanceSession) :
  isValidMealType mealType = true ->
  let D := attendanceDay mealType (dayOf date) in
  (mealType = "breakfast" \/ mealType = "lunch" -> D = (dayOf date - 1)%Z)
  /\ (mealType = "dinner" -> D = dayOf date)
  /\ getAttendanceCount attendanceSessionType
                        (attendanceDateFor mealType date) ss
     = option_map presentOrZero (eveningSessionOn D ss)
  /\ getAttendanceForDate (attendanceDateFor mealType (startOfDay date))
                          attendanceSessionType ss
     = option_map presentCount (eveningSessionOn D ss)
  /\ (forall x : AttendanceSession,
        eveningSessionOn D ss = Some x ->
        In x ss /\ sessionType x = "evening"
        /\ (D * msPerDay <= markedAt x <= D * msPerDay + 86399999)%Z)
  /\ (forall (now : Date) (s : Store) (ss' : list AttendanceSession),
        eveningSessionOn D ss' = eveningSessionOn D (sessions s) ->
        consumeInventoryForMeal mealType date now (set_sessions ss' s)
        = set_sessions ss' (consumeInventoryForMeal mealType date now s))
  /\ (forall (req : UsageRequest) (now : Date) (s : Store)
             (ss' : list AttendanceSession),
        req_date req = DateValue date ->
        req_mealType req = mealType ->
        eveningSessionOn D ss' = eveningSessionOn D (sessions s) ->
        recordInventoryUsage toLocaleDateString req now (set_sessions ss' s)
        = (fst (recordInventoryUsage toLocaleDateString req now s),
           set_sessions ss'
             (snd (recordInventoryUsage toLocaleDateString req now s)))).
Proof.
  intros Hm D. subst D.
  split; [intros [-> | ->]; reflexivity|].
  split; [intros ->; reflexivity|].
  rewrite <- (attendanceDay_code mealType date Hm).
  split; [apply getAttendanceCount_evening|].
  split; [apply getAttendanceForDate_evening|].
  split.
  - intros x H. unfold eveningSessionOn in H. apply find_some in H.
    destruct H as [Hin H]. apply andb_true_iff in H. destruct H as [Ht Hd].
    apply String.eqb_eq in Ht. apply Z.eqb_eq in Hd.
    split; [assumption|]. split; [assumption|].
    rewrite <- Hd. unfold dayOf, msPerDay.
    Z.to_euclidean_division_equations. lia.
  - split.
    + intros now s ss' H. now apply consume_session_frame.
    + intros req now s ss' Hd Hmt H. apply record_session_frame.
      intros date' Hd'. rewrite Hd in Hd'. injection Hd' as <-.
      now rewrite Hmt.
Qed.

Lemma attendance_source_alignment_witness :
  isValidMealType "breakfast" = true
  /\ eveningSessionOn (-1) (sessions Sample.hostel)
     = Some Sample.wednesdayEvening
  /\ getAttendanceCount attendanceSessionType
       (attendanceDateFor "breakfast" 1000) (sessions Sample.hostel)
     = option_map presentOrZero
         (eveningSessionOn (-1) (sessions Sample.hostel))
  /\ getAttendanceForDate (attendanceDateFor "breakfast" (startOfDay 1000))
       attendanceSessionType (sessions Sample.hostel)
     = option_map presentCount
         (eveningSessionOn (-1) (sessions Sample.hostel)).
Proof.
  split; [reflexivity|]. split; [reflexivity|].
  destruct (attendance_source_alignment Sample.showDate "breakfast" 1000
              (sessions Sample.hostel) eq_refl)
    as (_ & _ & Hcron & Hmanual & _).
  split; [exact Hcron | exact Hmanual].
Defined.

(** * Further properties *)

(** ** The item loop of the scheduled run *)

(** The three outcomes of one iteration. *)
Lemma processPlanItem_cases mealType attendance now st item :
  let amount := quantityToConsume (quantity item) (forStudentsOrDefault item)
                                  attendance in
  (findItemById (inventoryItemId item) (loop_inventory st) = None
   /\ processPlanItem mealType attendance now st item
      = mkLoop (loop_inventory st) (consumptionUpdates st)
          (errors st ++
             [(mealType ++ ": Inventory item " ++ inventoryItemId item
                 ++ " not found")%string])
          (usageItems st))
  \/ (exists it,
        findItemById (inventoryItemId item) (loop_inventory st) = Some it
        /\ currentStock it < amount
        /\ processPlanItem mealType attendance now st item
           = mkLoop (loop_inventory st) (consumptionUpdates st)
               (errors st ++
                  [insufficientStockError mealType it amount attendance])
               (usageItems st))
  \/ (exists it,
        findItemById (inventoryItemId item) (loop_inventory st) = Some it
        /\ amount <= currentStock it
        /\ processPlanItem mealType attendance now st item
           = mkLoop (saveItem (deduct now it amount) (loop_inventory st))
               (consumptionUpdates st ++
                  [mkUpdate mealType (item_name it) (quantity item) amount
                            attendance (currentStock it - amount)])
               (errors st)
               (usageItems st ++
                  [mkUsageItem (item_id it) (quantity item)
                               (forStudentsOrDefault item) amount])).
Proof.
  intros amount.
  destruct (findItemById (inventoryItemId item) (loop_inventory st))
    as [it|] eqn:Hf.
  - destruct (Js.ltb (currentStock it) amount) eqn:Hlt.
    + right; left. exists it. split; [reflexivity|].
      split; [now apply ltb_true_lt|].
      now apply processPlanItem_short.
    + right; right. exists it. split; [reflexivity|].
      split; [now apply ltb_false_le|].
      now apply processPlanItem_debit.
  - left. split; [reflexivity|]. now apply processPlanItem_missing.
Qed.

(** A property of the loop variables that every iteration keeps holds after
    the loop. *)
Lemma loop_invariant mealType attendance now (P : Loop -> Prop) lines st :
  (forall st0 item,
     In item lines -> P st0 ->
     P (processPlanItem mealType attendance now st0 item)) ->
  P st ->
  P (fold_left (processPlanItem mealType attendance now) lines st).
Proof.
  revert st. induction lines as [|item lines IH]; intros st Hstep H; simpl;
    [assumption|].
  apply IH.
  - intros st0 i Hi. apply Hstep. now right.
  - apply Hstep; [now left | assumption].
Qed.

(** The same for a property of the inventory that every debit keeps. *)
Lemma inventory_invariant mealType attendance now
    (P : list InventoryItem -> Prop) lines inv :
  (forall inv0 item it,
     In item lines -> P inv0 ->
     findItemById (inventoryItemId item) inv0 = Some it ->
     quantityToConsume (quantity item) (forStudentsOrDefault item) attendance
     <= currentStock it ->
     P (saveItem
          (deduct now it
             (quantityToConsume (quantity item) (forStudentsOrDefault item)
                                attendance)) inv0)) ->
  P inv ->
  P (loop_inventory (processPlanItems mealType attendance now lines inv)).
Proof.
  intros Hstep H. unfold processPlanItems.
  apply (loop_invariant mealType attendance now
           (fun st => P (loop_inventory st))); [|exact H].
  intros st0 item Hin H0.
  destruct (processPlanItem_cases mealType attendance now st0 item)
    as [(_ & ->) | [(it & _ & _ & ->) | (it & Hf & Hle & ->)]];
    try exact H0.
  simpl. now apply (Hstep _ item it).
Qed.

(** What a run does to the store when it does anything. *)
Lemma consume_cases mealType date now s :
  consumeInventoryForMeal mealType date now s = s
  \/ exists plan attendance systemUser,
       findPlan (dayName date) (mealPlans s) = Some plan
       /\ getAttendanceCount attendanceSessionType
            (attendanceDateFor mealType date) (sessions s) = Some attendance
       /\ attendance <> 0%Z
       /\ mealInventoryOf mealType plan <> []
       /\ findAdmin (users s) = Some systemUser
       /\ let r := processPlanItems mealType attendance now
                     (mealInventoryOf mealType plan) (inventory s) in
          let s' := consumeInventoryForMeal mealType date now s in
          mealPlans s' = mealPlans s /\ sessions s' = sessions s
          /\ users s' = users s /\ students s' = students s
          /\ records s' = records s
          /\ inventory s' = loop_inventory r
          /\ (exists newUsages,
                usages s' = usages s ++ newUsages
                /\ (newUsages = []
                    \/ usageItems r <> []
                       /\ newUsages
                          = [mkUsage date mealType (usageItems r) attendance
                               (option_map session_id
                                  (findSession attendanceSessionType
                                     (attendanceDateFor mealType date)
                                     (sessions s)))
                               (user_id systemUser)
                               "Automated deduction via cron job"]))
          /\ notifications s'
             = notifications s
                 ++ match errors r with
                    | [] => []
                    | errs =>
                        map (fun admin =>
                               mkNotification (user_id admin) "alert"
                                 ("Inventory Consumption Error - " ++ mealType
                                    ++ " (" ++ dayName date ++ ")")
                                 ("Errors: " ++ Js.join "; " errs) false now)
                            (usersWithRole ["admin"] (users s))
                    end.
Proof.
  unfold consumeInventoryForMeal.
  destruct (findPlan _ _) as [plan|]; [|now left].
  destruct (getAttendanceCount _ _ _) as [attendance|]; [|now left].
  destruct (Z.eqb_spec attendance 0) as [|Hne]; [now left|].
  destruct (mealInventoryOf mealType plan) as [|i l] eqn:Hl; [now left|].
  destruct (findAdmin _) as [systemUser|]; [|now left].
  right. exists plan, attendance, systemUser.
  split; [reflexivity|]. split; [reflexivity|]. split; [assumption|].
  rewrite Hl. split; [discriminate|]. split; [reflexivity|].
  cbv zeta. set (r := processPlanItems _ _ _ _ _).
  assert (Hnot : forall errs st,
    notifyAdmins now mealType (dayName date) errs st
    = set_notifications
        (notifications st
           ++ map (fun admin =>
                     mkNotification (user_id admin) "alert"
                       ("Inventory Consumption Error - " ++ mealType
                          ++ " (" ++ dayName date ++ ")")
                       ("Errors: " ++ Js.join "; " errs) false now)
                  (usersWithRole ["admin"] (users st))) st).
  { intros errs st. unfold notifyAdmins. apply createNotification_fold. }
  destruct (usageItems r) as [|ui uis] eqn:Hui.
  - destruct (errors r) as [|e es] eqn:He.
    + cbn. repeat (split; [reflexivity|]).
      split; [exists []; rewrite app_nil_r; split; [reflexivity|now left]|].
      now rewrite app_nil_r.
    + rewrite Hnot. cbn. repeat (split; [reflexivity|]).
      split; [exists []; rewrite app_nil_r; split; [reflexivity|now left]|].
      reflexivity.
  - unfold createUsage. destruct (usageValid _).
    + destruct (errors r) as [|e es] eqn:He.
      * cbn. repeat (split; [reflexivity|]).
        split; [|now rewrite app_nil_r].
        eexists. split; [reflexivity|]. right. split; [discriminate|].
        reflexivity.
      * rewrite Hnot. cbn. repeat (split; [reflexivity|]).
        split; [|reflexivity].
        eexists. split; [reflexivity|]. right. split; [discriminate|].
        reflexivity.
    + destruct (errors r) as [|e es] eqn:He.
      * cbn. repeat (split; [reflexivity|]).
        split; [exists []; rewrite app_nil_r; split; [reflexivity|now left]|].
        now rewrite app_nil_r.
      * rewrite Hnot. cbn. repeat (split; [reflexivity|]).
        split; [exists []; rewrite app_nil_r; split; [reflexivity|now left]|].
        reflexivity.
Qed.

(** ** The scheduled run as a whole *)

(** X1.  A scheduled run that changes the store had a plan for the weekday,
    an attendance count different from 0, a non-empty list for the meal and
    a user with the admin role. *)
Theorem scheduled_run_writes_only_when
    (mealType : string) (date now : Date) (s : Store) :
  consumeInventoryForMeal mealType date now s <> s ->
  exists plan attendance systemUser,
    findPlan (dayName date) (mealPlans s) = Some plan
    /\ getAttendanceCount attendanceSessionType
         (attendanceDateFor mealType date) (sessions s) = Some attendance
    /\ attendance <> 0%Z
    /\ mealInventoryOf mealType plan <> []
    /\ findAdmin (users s) = Some systemUser.
Proof.
  intros H.
  destruct (consume_cases mealType date now s)
    as [Heq | (plan & a & u & H1 & H2 & H3 & H4 & H5 & _)];
    [contradiction|].
  exists plan, a, u. repeat (split; [assumption|]). assumption.
Qed.

Lemma scheduled_run_writes_only_when_witness :
  consumeInventoryForMeal "breakfast" 1000 2000 Sample.hostel <> Sample.hostel
  /\ exists plan attendance systemUser,
       findPlan (dayName 1000) (mealPlans Sample.hostel) = Some plan
       /\ getAttendanceCount attendanceSessionType
            (attendanceDateFor "breakfast" 1000) (sessions Sample.hostel)
          = Some attendance
       /\ attendance <> 0%Z
       /\ mealInventoryOf "breakfast" plan <> []
       /\ findAdmin (users Sample.hostel) = Some systemUser.
Proof.
  assert (H : consumeInventoryForMeal "breakfast" 1000 2000 Sample.hostel
              <> Sample.hostel).
  { intros E. apply (f_equal usages) in E. discriminate E. }
  split; [exact H|].
  exact (scheduled_run_writes_only_when "breakfast" 1000 2000 Sample.hostel H).
Defined.

Lemma unique_id_found id inv it x :
  NoDup (map item_id inv) -> findItemById id inv = Some it ->
  In x inv -> item_id x = id -> x = it.
Proof.
  unfold findItemById. induction inv as [|a inv IH]; simpl;
    intros Hnd Hf Hin Hx; [contradiction|].
  inversion Hnd as [|? ? Hnotin Hnd']; subst.
  destruct (String.eqb (item_id a) (item_id x)) eqn:E.
  - injection Hf as <-. apply String.eqb_eq in E.
    destruct Hin as [->|Hin]; [reflexivity|].
    exfalso. apply Hnotin. rewrite E. now apply in_map.
  - destruct Hin as [->|Hin]; [now rewrite String.eqb_refl in E|].
    now apply IH.
Qed.

Lemma saveItem_catalogue id inv it doc :
  NoDup (map item_id inv) -> findItemById id inv = Some it ->
  catalogue doc = catalogue it ->
  map catalogue (saveItem doc inv) = map catalogue inv.
Proof.
  intros Hnd Hf Hc. unfold saveItem. rewrite map_map.
  apply map_ext_in. intros x Hx.
  destruct (String.eqb (item_id x) (item_id doc)) eqn:E; [|reflexivity].
  apply String.eqb_eq in E.
  assert (Hid : item_id doc = id).
  { apply (f_equal (fun c => fst (fst (fst c)))) in Hc. simpl in Hc.
    rewrite Hc. now apply findItemById_id in Hf. }
  rewrite (unique_id_found id inv it x Hnd Hf Hx); [assumption|congruence].
Qed.

Lemma catalogue_ids inv inv' :
  map catalogue inv' = map catalogue inv -> map item_id inv' = map item_id inv.
Proof.
  intros H. apply (f_equal (map (fun c => fst (fst (fst c))))) in H.
  now rewrite !map_map in H.
Qed.

(** X2.  A scheduled run never touches the meal plans, the sessions, the
    users, the students or the attendance records.  Of an inventory with
    distinct ids it keeps every item's id, name, unit and minimum stock, in
    the same order.  It appends at most one usage record, for the run's date
    and meal type and with at least one line, and either no notification or
    one per user with the admin role, each of type alert, unread and stamped
    with the clock; earlier usage records and notifications stay as they
    are. *)
Theorem scheduled_run_frame
    (mealType : string) (date now : Date) (s : Store) :
  NoDup (map item_id (inventory s)) ->
  let s' := consumeInventoryForMeal mealType date now s in
  mealPlans s' = mealPlans s /\ sessions s' = sessions s
  /\ users s' = users s /\ students s' = students s
  /\ records s' = records s
  /\ map catalogue (inventory s') = map catalogue (inventory s)
  /\ (exists newUsages,
        usages s' = usages s ++ newUsages
        /\ (List.length newUsages <= 1)%nat
        /\ Forall (fun u => usage_date u = date
                            /\ usage_mealType u = mealType
                            /\ usage_items u <> []) newUsages)
  /\ (exists alerts,
        notifications s' = notifications s ++ alerts
        /\ (alerts = []
            \/ map notif_user alerts
               = map user_id (usersWithRole ["admin"] (users s)))
        /\ Forall (fun n => notif_type n = "alert" /\ notif_read n = false
                            /\ createdAt n = now) alerts).
Proof.
  intros Hnd s'. subst s'.
  destruct (consume_cases mealType date now s)
    as [-> | (plan & a & u & _ & _ & _ & _ & _ & H)].
  - repeat (split; [reflexivity|]).
    split; exists []; rewrite app_nil_r; split; try reflexivity.
    + split; [simpl; lia | constructor].
    + split; [now left | constructor].
  - cbv zeta in H.
    destruct H as (H1 & H2 & H3 & H4 & H5 & Hinv & (nu & Hu & Hnu) & Hn).
    repeat (split; [assumption|]).
    split.
    { rewrite Hinv.
      apply (inventory_invariant mealType a now
               (fun inv => NoDup (map item_id inv)
                           /\ map catalogue inv
                              = map catalogue (inventory s))
               (mealInventoryOf mealType plan) (inventory s));
        [|now split].
      intros inv0 item it _ [Hnd0 Hc0] Hf _.
      assert (Hc : map catalogue
                     (saveItem
                        (deduct now it
                           (quantityToConsume (quantity item)
                              (forStudentsOrDefault item) a)) inv0)
                   = map catalogue inv0)
        by now apply (saveItem_catalogue (inventoryItemId item) inv0 it).
      split; [|congruence].
      now rewrite (catalogue_ids _ _ Hc). }
    split.
    { exists nu. split; [assumption|].
      destruct Hnu as [-> | [Hne ->]].
      - split; [simpl; lia | constructor].
      - split; [simpl; lia|]. constructor; [|constructor].
        now repeat split. }
    eexists. split; [exact Hn|].
    destruct (errors _) as [|e es].
    + split; [now left | constructor].
    + split; [right; now rewrite map_map|].
      apply Forall_forall. intros n Hin. apply in_map_iff in Hin.
      destruct Hin as (x & <- & _). now repeat split.
Qed.

Lemma scheduled_run_frame_witness :
  NoDup (map item_id (inventory Sample.hostel))
  /\ map catalogue
       (inventory (consumeInventoryForMeal "breakfast" 1000 2000
                     Sample.hostel))
     = map catalogue (inventory Sample.hostel).
Proof.
  assert (H : NoDup (map item_id (inventory Sample.hostel))).
  { simpl. repeat constructor; simpl; intuition discriminate. }
  split; [exact H|].
  exact (proj1 (proj2 (proj2 (proj2 (proj2 (proj2
           (scheduled_run_frame "breakfast" 1000 2000 Sample.hostel H))))))).
Defined.

Lemma saveItem_Forall (P : InventoryItem -> Prop) doc inv :
  P doc -> Forall P inv -> Forall P (saveItem doc inv).
Proof.
  intros Hd H. unfold saveItem. apply Forall_forall. intros x Hx.
  apply in_map_iff in Hx. destruct Hx as (y & <- & Hy).
  destruct (String.eqb _ _); [assumption|].
  rewrite Forall_forall in H. now apply H.
Qed.

(** X3.  A scheduled run keeps the inventory free of negative stock: if no
    stored stock is negative before the run, none is after it, whatever the
    plan and the attendance. *)
Theorem scheduled_run_keeps_stock_nonnegative
    (mealType : string) (date now : Date) (s : Store) :
  Forall (fun it => 0 <= currentStock it) (inventory s) ->
  Forall (fun it => 0 <= currentStock it)
         (inventory (consumeInventoryForMeal mealType date now s)).
Proof.
  intros H.
  destruct (consume_cases mealType date now s)
    as [-> | (plan & a & u & _ & _ & _ & _ & _ & Hs)]; [assumption|].
  cbv zeta in Hs. destruct Hs as (_ & _ & _ & _ & _ & -> & _).
  apply inventory_invariant; [|assumption].
  intros inv0 item it _ H0 _ Hle.
  apply saveItem_Forall; [simpl; lra | assumption].
Qed.

Lemma scheduled_run_keeps_stock_nonnegative_witness :
  Forall (fun it => 0 <= currentStock it) (inventory Sample.hostel)
  /\ Forall (fun it => 0 <= currentStock it)
       (inventory (consumeInventoryForMeal "breakfast" 1000 2000
                     Sample.hostel)).
Proof.
  assert (H : Forall (fun it => 0 <= currentStock it)
                     (inventory Sample.hostel)).
  { simpl. repeat constructor; unfold Qle; simpl; lia. }
  split; [exact H|].
  exact (scheduled_run_keeps_stock_nonnegative "breakfast" 1000 2000
           Sample.hostel H).
Defined.

Lemma found_plan_lines mealType p :
  planStored p -> Forall planItemStored (mealInventoryOf mealType p).
Proof.
  intros (_ & Hb & Hl & Hd). unfold mealInventoryOf.
  destruct (String.eqb mealType "breakfast"); [assumption|].
  destruct (String.eqb mealType "lunch"); assumption.
Qed.

Lemma stored_amount_nonneg item attendance :
  planItemStored item -> (0 <= attendance)%Z ->
  0 <= quantityToConsume (quantity item) (forStudentsOrDefault item)
                         attendance.
Proof.
  intros [Hq Hf] Ha. unfold forStudentsOrDefault. rewrite Hf.
  apply quantityToConsume_nonneg; [assumption | reflexivity | assumption].
Qed.

Lemma attendance_count_nonneg ty date ss a :
  (forall x, In x ss -> (0 <= presentCount x)%Z) ->
  getAttendanceCount ty date ss = Some a -> (0 <= a)%Z.
Proof.
  intros H. unfold getAttendanceCount, findSession.
  destruct (find _ ss) as [x|] eqn:E; [|discriminate].
  intros Ha. injection Ha as <-. apply find_some in E.
  unfold presentOrZero. destruct (presentCount x =? 0)%Z; [lia|].
  now apply H.
Qed.

(** X4.  When the plans are stored as the schema stores them (quantities not
    negative, no group size of their own) and no session counts a negative
    number of students present, a scheduled run never raises a stock: every
    item that had a stock still has one, and it is not larger. *)
Theorem scheduled_run_never_restocks
    (mealType : string) (date now : Date) (s : Store)
    (id : ObjectId) (q : Q) :
  (forall p, In p (mealPlans s) -> planStored p) ->
  (forall x, In x (sessions s) -> (0 <= presentCount x)%Z) ->
  stockOf id (inventory s) = Some q ->
  exists q',
    stockOf id (inventory (consumeInventoryForMeal mealType date now s))
    = Some q'
    /\ q' <= q.
Proof.
  intros Hplans Hsess Hq.
  destruct (consume_cases mealType date now s)
    as [-> | (plan & a & u & Hp & Ha & _ & _ & _ & Hs)].
  - exists q. split; [assumption | apply Qle_refl].
  - cbv zeta in Hs. destruct Hs as (_ & _ & _ & _ & _ & -> & _).
    apply find_some in Hp. destruct Hp as [Hp _].
    pose proof (found_plan_lines mealType plan (Hplans plan Hp)) as Hlines.
    pose proof (attendance_count_nonneg _ _ _ _ Hsess Ha) as Hpos.
    apply (inventory_invariant mealType a now
             (fun inv => exists q', stockOf id inv = Some q' /\ q' <= q));
      [|exists q; split; [assumption | apply Qle_refl]].
    intros inv0 item it Hin (q0 & Hq0 & Hle0) Hf Hle.
    rewrite Forall_forall in Hlines.
    pose proof (stored_amount_nonneg item a (Hlines item Hin) Hpos) as Hamt.
    unfold stockOf in *.
    destruct (String.eqb_spec (inventoryItemId item) id) as [E|E].
    + subst id. rewrite Hf in Hq0. injection Hq0 as <-.
      rewrite (findItemById_saveItem _ _ it _ Hf);
        [|simpl; now apply findItemById_id in Hf].
      eexists. split; [reflexivity|]. simpl. lra.
    + rewrite findItemById_saveItem_other;
        [|simpl; apply findItemById_id in Hf; congruence].
      exists q0. now split.
Qed.

Lemma scheduled_run_never_restocks_witness :
  (forall p, In p (mealPlans Sample.hostel) -> planStored p)
  /\ (forall x, In x (sessions Sample.hostel) -> (0 <= presentCount x)%Z)
  /\ stockOf "i2" (inventory Sample.hostel) = Some (100 # 1)
  /\ exists q',
       stockOf "i2"
         (inventory (consumeInventoryForMeal "breakfast" 1000 2000
                       Sample.hostel)) = Some q'
       /\ q' <= 100 # 1.
Proof.
  assert (H1 : forall p, In p (mealPlans Sample.hostel) -> planStored p).
  { simpl. intros p [<- | []]. unfold planStored. simpl.
    split; [tauto|].
    split; [|split; constructor].
    repeat constructor; unfold Qle; simpl; lia. }
  assert (H2 : forall x, In x (sessions Sample.hostel) ->
                         (0 <= presentCount x)%Z).
  { simpl. intros x [<- | []]. simpl. lia. }
  split; [exact H1|]. split; [exact H2|]. split; [reflexivity|].
  exact (scheduled_run_never_restocks "breakfast" 1000 2000 Sample.hostel
           "i2" (100 # 1) H1 H2 eq_refl).
Defined.

Lemma saveItem_ids doc inv : map item_id (saveItem doc inv) = map item_id inv.
Proof.
  unfold saveItem. rewrite map_map. apply map_ext. intros x.
  destruct (String.eqb (item_id x) (item_id doc)) eqn:E; [|reflexivity].
  apply String.eqb_eq in E. congruence.
Qed.

(** The loop from given arrays is the loop from empty arrays with the given
    ones in front. *)
Lemma processPlanItem_acc mealType attendance now inv U E I item :
  processPlanItem mealType attendance now (mkLoop inv U E I) item
  = let r := processPlanItem mealType attendance now (mkLoop inv [] [] [])
                             item in
    mkLoop (loop_inventory r) (U ++ consumptionUpdates r) (E ++ errors r)
           (I ++ usageItems r).
Proof.
  unfold processPlanItem. cbn [loop_inventory consumptionUpdates errors
                               usageItems].
  destruct (findItemById (inventoryItemId item) inv) as [it|].
  - destruct (Js.ltb _ _); cbn; now rewrite ?app_nil_r.
  - cbn. now rewrite ?app_nil_r.
Qed.

Lemma processPlanItems_acc mealType attendance now lines inv U E I :
  fold_left (processPlanItem mealType attendance now) lines (mkLoop inv U E I)
  = let r := processPlanItems mealType attendance now lines inv in
    mkLoop (loop_inventory r) (U ++ consumptionUpdates r) (E ++ errors r)
           (I ++ usageItems r).
Proof.
  unfold processPlanItems.
  revert inv U E I. induction lines as [|item lines IH]; intros inv U E I.
  - cbn. now rewrite !app_nil_r.
  - cbn [fold_left]. rewrite processPlanItem_acc. cbv zeta.
    destruct (processPlanItem mealType attendance now (mkLoop inv [] [] [])
                              item) as [inv1 U1 E1 I1].
    cbn [loop_inventory consumptionUpdates errors usageItems].
    rewrite (IH inv1 (U ++ U1) (E ++ E1) (I ++ I1)), (IH inv1 U1 E1 I1).
    cbv zeta. cbn [loop_inventory consumptionUpdates errors usageItems].
    now rewrite !app_assoc.
Qed.

(** X6.  A plan line whose item is not in the inventory does not stop the
    loop and does not disturb the other lines: with the line anywhere in the
    list, the inventory, the debits and the usage lines are those of the list
    without it, and the errors are those of the list without it with the
    line's "not found" error at the line's place. *)
Theorem missing_item_is_isolated
    (mealType : string) (attendance : Z) (now : Date)
    (before after : list PlanItem) (line : PlanItem)
    (inv : list InventoryItem) :
  findItemById (inventoryItemId line) inv = None ->
  let r := processPlanItems mealType attendance now
             (before ++ line :: after) inv in
  let r0 := processPlanItems mealType attendance now (before ++ after) inv in
  loop_inventory r = loop_inventory r0
  /\ usageItems r = usageItems r0
  /\ consumptionUpdates r = consumptionUpdates r0
  /\ exists e1 e2,
       errors r0 = e1 ++ e2
       /\ errors r
          = e1 ++ [(mealType ++ ": Inventory item " ++ inventoryItemId line
                      ++ " not found")%string] ++ e2.
Proof.
  intros Hnone r r0. subst r r0. unfold processPlanItems.
  rewrite !fold_left_app. cbn [fold_left].
  assert (Hstill :
    findItemById (inventoryItemId line)
      (loop_inventory (processPlanItems mealType attendance now before inv))
    = None).
  { apply (inventory_invariant mealType attendance now
             (fun i => findItemById (inventoryItemId line) i = None));
      [|assumption].
    intros inv0 item it _ H0 Hf _.
    rewrite findItemById_saveItem_other; [assumption|].
    simpl. intros E. rewrite (findItemById_id _ _ _ Hf) in E.
    rewrite E in Hf. congruence. }
  set (st1 := fold_left (processPlanItem mealType attendance now) before
                        (mkLoop inv [] [] [])) in *.
  unfold processPlanItems in Hstill. fold st1 in Hstill.
  rewrite (processPlanItem_missing _ _ _ _ _ Hstill).
  destruct st1 as [inv1 U1 E1 I1].
  cbn [loop_inventory consumptionUpdates errors usageItems].
  rewrite !processPlanItems_acc. cbv zeta.
  cbn [loop_inventory consumptionUpdates errors usageItems].
  split; [reflexivity|]. split; [reflexivity|]. split; [reflexivity|].
  exists E1, (errors (processPlanItems mealType attendance now after inv1)).
  split; [reflexivity|]. now rewrite <- app_assoc.
Qed.

Lemma missing_item_is_isolated_witness :
  findItemById "i9" [Sample.rice] = None
  /\ loop_inventory
       (processPlanItems "breakfast" 1 7
          ([Sample.riceForOne] ++ mkPlanItem "i9" (1 # 1) None :: [])
          [Sample.rice])
     = loop_inventory
         (processPlanItems "breakfast" 1 7 ([Sample.riceForOne] ++ [])
            [Sample.rice]).
Proof.
  split; [reflexivity|].
  exact (proj1 (missing_item_is_isolated "breakfast" 1 7 [Sample.riceForOne]
                  [] (mkPlanItem "i9" (1 # 1) None) [Sample.rice] eq_refl)).
Defined.

(** ** The manual path as a whole *)

Lemma applyUpdates_ids now updates inv :
  map item_id (applyUpdates now updates inv) = map item_id inv.
Proof.
  unfold applyUpdates. revert inv.
  induction updates as [|u us IH]; intros inv; simpl; [reflexivity|].
  rewrite IH. apply saveItem_ids.
Qed.

(** X7.  The replies of the manual handler and what each leaves behind.  It
    never touches the plans, the sessions, the users, the students, the
    attendance records or the notifications, and never adds or removes an
    inventory item.  It either sends 201 with the usage record it appended,
    or it throws and appends no usage record.  A throw after the handler set
    the status, 400 or 404, returns the store unchanged; only a throw with
    the status never set can follow a write to the inventory. *)
Theorem manual_outcomes
    (toLocaleDateString : Date -> string) (req : UsageRequest) (now : Date)
    (s : Store) :
  let r := recordInventoryUsage toLocaleDateString req now s in
  (mealPlans (snd r) = mealPlans s /\ sessions (snd r) = sessions s
   /\ users (snd r) = users s /\ students (snd r) = students s
   /\ records (snd r) = records s
   /\ notifications (snd r) = notifications s
   /\ map item_id (inventory (snd r)) = map item_id (inventory s))
  /\ ((exists doc,
         fst r = Sent 201 doc
         /\ usages (snd r) = usages s ++ [doc]
         /\ recordedBy doc = req_user req
         /\ usage_mealType doc = req_mealType req)
      \/ (exists status message,
            fst r = Thrown status message
            /\ (status = 400 \/ status = 404 \/ status = 200)%Z
            /\ usages (snd r) = usages s
            /\ (status <> 200%Z -> snd r = s))).
Proof.
  intros r. subst r. unfold recordInventoryUsage.
  assert (Hs : forall st msg,
    (st = 400 \/ st = 404)%Z ->
    (mealPlans s = mealPlans s /\ sessions s = sessions s
     /\ users s = users s /\ students s = students s
     /\ records s = records s /\ notifications s = notifications s
     /\ map item_id (inventory s) = map item_id (inventory s))
    /\ ((exists doc,
           @Thrown InventoryUsage st msg = Sent 201 doc
           /\ usages s = usages s ++ [doc]
           /\ recordedBy doc = req_user req
           /\ usage_mealType doc = req_mealType req)
        \/ (exists status message,
              @Thrown InventoryUsage st msg = Thrown status message
              /\ (status = 400 \/ status = 404 \/ status = 200)%Z
              /\ usages s = usages s
              /\ (status <> 200%Z -> s = s)))).
  { intros st msg Hst. split; [now repeat split|]. right.
    exists st, msg. split; [reflexivity|]. split; [tauto|].
    split; reflexivity. }
  destruct (req_items req) as [[|i items]|];
    try (apply Hs; left; reflexivity).
  destruct (String.eqb (req_mealType req) "");
    [apply Hs; left; reflexivity|].
  destruct (req_date req) as [| |date];
    [apply Hs; left; reflexivity
    |destruct (negb _); apply Hs; left; reflexivity|].
  destruct (negb _); [apply Hs; left; reflexivity|].
  destruct (getAttendanceForDate _ _ _) as [a|];
    [|apply Hs; right; reflexivity].
  destruct (req_errors _); [|apply Hs; left; reflexivity].
  cbv zeta. unfold createUsage. destruct (usageValid _); cbn.
  - split; [repeat (split; [reflexivity|]); apply applyUpdates_ids|].
    left. eexists. split; [reflexivity|]. now repeat split.
  - split; [repeat (split; [reflexivity|]); apply applyUpdates_ids|].
    right. do 2 eexists. split; [reflexivity|].
    split; [right; right; reflexivity|]. split; [reflexivity|].
    intros H. now elim H.
Qed.

Lemma manual_outcomes_witness :
  exists doc,
    fst (recordInventoryUsage Sample.showDate Sample.riceOnce 2000
           Sample.pantry) = Sent 201 doc
    /\ usages (snd (recordInventoryUsage Sample.showDate Sample.riceOnce 2000
                      Sample.pantry))
       = usages Sample.pantry ++ [doc]
    /\ recordedBy doc = req_user Sample.riceOnce
    /\ usage_mealType doc = req_mealType Sample.riceOnce.
Proof.
  destruct (proj2 (manual_outcomes Sample.showDate Sample.riceOnce 2000
                     Sample.pantry))
    as [H | (status & message & H & _)].
  - exact H.
  - discriminate H.
Defined.







Lemma checkItems_kept_amounts attendance inv items st (P : Q -> Prop) :
  (forall rq rfs, P (quantityToConsume rq rfs attendance)) ->
  Forall (fun l => P (actualQuantityDeducted l)) (processedItems st) ->
  Forall (fun u => P (quantityToDeduct u)
                   /\ findItemById (item_id (update_item u)) inv
                      = Some (update_item u)) (inventoryUpdates st) ->
  Forall (fun l => P (actualQuantityDeducted l))
         (processedItems (fold_left (checkItem attendance inv) items st))
  /\ Forall (fun u => P (quantityToDeduct u)
                      /\ findItemById (item_id (update_item u)) inv
                         = Some (update_item u))
            (inventoryUpdates (fold_left (checkItem attendance inv) items st)).
Proof.
  intros HP. revert st.
  induction items as [|item items IH]; intros st H1 H2; simpl;
    [now split|].
  apply IH;
    destruct (checkItem_cases attendance inv st item)
      as [[msg ->] | (rq & rfs & it & _ & _ & _ & Hfind & _ & ->)];
    try assumption; simpl.
  - apply Forall_app. split; [assumption|]. constructor; [apply HP|constructor].
  - apply Forall_app. split; [assumption|].
    constructor; [|constructor]. simpl. split; [apply HP|].
    now rewrite (findItemById_id _ _ _ Hfind).
Qed.

Lemma applyUpdates_zero now inv updates inv0 :
  Forall (fun u => quantityToDeduct u == 0
                   /\ findItemById (item_id (update_item u)) inv
                      = Some (update_item u)) updates ->
  (forall id q, stockOf id inv = Some q ->
     exists q', stockOf id inv0 = Some q' /\ q' == q) ->
  forall id q, stockOf id inv = Some q ->
    exists q', stockOf id (applyUpdates now updates inv0) = Some q' /\ q' == q.
Proof.
  intros H. revert inv0.
  induction H as [|u us [Hz Hdoc] _ IH]; intros inv0 H0; [exact H0|].
  change (applyUpdates now (u :: us) inv0)
    with (applyUpdates now us (applyUpdate now inv0 u)).
  apply IH. intros id q Hq. destruct (H0 id q Hq) as (q0 & Hq0 & Heq).
  unfold applyUpdate, stockOf in *.
  destruct (String.eqb_spec (item_id (update_item u)) id) as [E|E].
  - subst id. rewrite Hdoc in Hq. injection Hq as <-.
    destruct (findItemById (item_id (update_item u)) inv0) as [x|] eqn:Hx;
      [|discriminate].
    rewrite (findItemById_saveItem _ _ x _ Hx) by reflexivity.
    eexists. split; [reflexivity|]. simpl. rewrite Hz. lra.
  - rewrite findItemById_saveItem_other by (simpl; assumption).
    exists q0. now split.
Qed.

(** X9.  Where the scheduled run skips a meal with nobody present, the
    manual path goes on with an attendance of 0: every amount is 0, so a
    usage record it sends reports only zero deductions and every item keeps
    the value of its stock. *)
Theorem manual_zero_attendance_deducts_nothing
    (toLocaleDateString : Date -> string) (req : UsageRequest)
    (now date : Date) (s : Store) (items : list ReqItem) :
  req_date req = DateValue date ->
  isValidMealType (req_mealType req) = true ->
  req_items req = Some items -> items <> [] ->
  getAttendanceForDate
    (attendanceDateFor (req_mealType req) (startOfDay date))
    attendanceSessionType (sessions s) = Some 0%Z ->
  let r := recordInventoryUsage toLocaleDateString req now s in
  (forall doc, fst r = Sent 201 doc ->
     Forall (fun l => actualQuantityDeducted l == 0) (usage_items doc))
  /\ (forall id q,
        stockOf id (inventory s) = Some q ->
        exists q', stockOf id (inventory (snd r)) = Some q' /\ q' == q).
Proof.
  intros Hd Hm Hi Hne Ha r. subst r.
  rewrite (recordInventoryUsage_checked toLocaleDateString req now date s
             items 0 Hd Hm Hi Hne Ha).
  cbv zeta.
  destruct (checkItems_kept_amounts 0 (inventory s) items (mkChecked [] [] [])
              (fun q => q == 0)) as [Hlines Hupd];
    [ intros rq rfs; unfold quantityToConsume; simpl;
      unfold Qdiv; rewrite Qmult_0_l; apply Qmult_0_l
    | constructor | constructor | ].
  fold (checkItems 0 (inventory s) items) in Hlines, Hupd.
  destruct (req_errors (checkItems 0 (inventory s) items)).
  - assert (Hstock : forall id q,
      stockOf id (inventory s) = Some q ->
      exists q',
        stockOf id
          (applyUpdates now
             (inventoryUpdates (checkItems 0 (inventory s) items))
             (inventory s)) = Some q' /\ q' == q).
    { apply (applyUpdates_zero now (inventory s)); [assumption|].
      intros id q H. exists q. split; [assumption|reflexivity]. }
    unfold createUsage. destruct (usageValid _); cbn.
    + split; [|assumption]. intros doc H. injection H as <-. assumption.
    + split; [|assumption]. intros doc H. discriminate H.
  - cbn. split; [intros doc H; discriminate H|].
    intros id q H. exists q. split; [assumption|reflexivity].
Qed.

Lemma manual_zero_attendance_deducts_nothing_witness :
  getAttendanceForDate
    (attendanceDateFor (req_mealType Sample.riceOnce) (startOfDay 1000))
    attendanceSessionType (sessions Sample.hostelNobodyPresent) = Some 0%Z
  /\ (exists doc,
        fst (recordInventoryUsage Sample.showDate Sample.riceOnce 7
               Sample.hostelNobodyPresent) = Sent 201 doc
        /\ Forall (fun l => actualQuantityDeducted l == 0) (usage_items doc))
  /\ consumeInventoryForMeal "breakfast" 1000 7 Sample.hostelNobodyPresent
     = Sample.hostelNobodyPresent.
Proof.
  split; [reflexivity|]. split; [|reflexivity].
  eexists. split; [reflexivity|].
  refine (proj1 (manual_zero_attendance_deducts_nothing Sample.showDate
                   Sample.riceOnce 7 1000 Sample.hostelNobodyPresent
                   [Sample.riceLine] eq_refl eq_refl eq_refl _ eq_refl)
                _ eq_refl).
  discriminate.
Defined.

(** ** Attendance lookup and sessions *)

Lemma sessionMatches_slot ty date x :
  sessionMatches ty date x = true
  <-> sessionType x = ty /\ dayOf (markedAt x) = dayOf date.
Proof.
  unfold sessionMatches. rewrite <- andb_assoc, window_dayOf.
  rewrite andb_true_iff, String.eqb_eq, Z.eqb_eq. tauto.
Qed.

Lemma unique_slot_found ty date ss x :
  UniqueSessions ss -> In x ss ->
  sessionType x = ty -> dayOf (markedAt x) = dayOf date ->
  findSession ty date ss = Some x.
Proof.
  unfold UniqueSessions, findSession.
  induction ss as [|a ss IH]; simpl; intros Hnd Hin Ht Hd; [contradiction|].
  inversion Hnd as [|? ? Hnotin Hnd']; subst.
  destruct (sessionMatches (sessionType x) date a) eqn:E.
  - destruct Hin as [-> | Hin]; [reflexivity|].
    apply sessionMatches_slot in E. destruct E as [E1 E2].
    exfalso. apply Hnotin.
    replace (sessionSlot a) with (sessionSlot x)
      by (unfold sessionSlot; congruence).
    now apply in_map.
  - destruct Hin as [-> | Hin]; [|now apply IH].
    assert (sessionMatches (sessionType x) date x = true)
      by now apply sessionMatches_slot.
    congruence.
Qed.

(** X10.  The attendance lookups answer "not found" exactly when no session
    of the type has its [markedAt] on the calendar day of the date; a session
    with nobody present is found and gives 0.  When no two sessions share
    type and day, the lookups return the count of the session of that type
    and day wherever it stands in the collection. *)
Theorem attendance_lookup_complete
    (ty : string) (date : Date) (ss : list AttendanceSession) :
  (getAttendanceCount ty date ss = None
   <-> forall x, In x ss -> sessionType x = ty ->
                 dayOf (markedAt x) <> dayOf date)
  /\ (getAttendanceForDate date ty ss = None
      <-> forall x, In x ss -> sessionType x = ty ->
                    dayOf (markedAt x) <> dayOf date)
  /\ (UniqueSessions ss ->
      forall x, In x ss -> sessionType x = ty ->
                dayOf (markedAt x) = dayOf date ->
                getAttendanceCount ty date ss = Some (presentOrZero x)
                /\ getAttendanceForDate date ty ss = Some (presentCount x)).
Proof.
  assert (Hnone : findSession ty date ss = None
                  <-> forall x, In x ss -> sessionType x = ty ->
                                dayOf (markedAt x) <> dayOf date).
  { unfold findSession. split.
    - intros H x Hin Ht Hd.
      pose proof (find_none _ _ H x Hin) as Hx.
      assert (sessionMatches ty date x = true)
        by now apply sessionMatches_slot.
      congruence.
    - intros H. destruct (find _ ss) as [x|] eqn:E; [|reflexivity].
      apply find_some in E. destruct E as [Hin Hm].
      apply sessionMatches_slot in Hm. destruct Hm as [Ht Hd].
      exfalso. exact (H x Hin Ht Hd). }
  unfold getAttendanceCount, getAttendanceForDate.
  split; [|split].
  - rewrite <- Hnone. destruct (findSession ty date ss); split; congruence.
  - rewrite <- Hnone. destruct (findSession ty date ss); split; congruence.
  - intros Hu x Hin Ht Hd.
    now rewrite (unique_slot_found ty date ss x Hu Hin Ht Hd).
Qed.

Lemma attendance_lookup_complete_witness :
  UniqueSessions (sessions Sample.hostel)
  /\ getAttendanceCount "evening" (-3600000) (sessions Sample.hostel)
     = Some (presentOrZero Sample.wednesdayEvening)
  /\ getAttendanceForDate (-3600000) "evening" (sessions Sample.hostel)
     = Some (presentCount Sample.wednesdayEvening).
Proof.
  assert (H : UniqueSessions (sessions Sample.hostel)).
  { unfold UniqueSessions. simpl. repeat constructor. simpl. tauto. }
  split; [exact H|].
  exact (proj2 (proj2 (attendance_lookup_complete "evening" (-3600000)
                         (sessions Sample.hostel)))
           H Sample.wednesdayEvening (or_introl eq_refl) eq_refl eq_refl).
Defined.

Lemma removeSession_In id ss y :
  NoDup (map session_id ss) ->
  In y (removeSession id ss) <-> In y ss /\ session_id y <> id.
Proof.
  induction ss as [|a ss IH]; simpl; intros Hnd; [tauto|].
  inversion Hnd as [|? ? Hnotin Hnd']; subst.
  destruct (String.eqb_spec (session_id a) id) as [E|E].
  - split.
    + intros Hy. split; [now right|]. intros Ey. apply Hnotin.
      rewrite E, <- Ey. now apply in_map.
    + intros [[-> | Hy] Hne]; [contradiction | assumption].
  - simpl. rewrite (IH Hnd'). split.
    + intros [-> | [Hy Hne]]; [split; [now left | assumption] | tauto].
    + intros [[-> | Hy] Hne]; [now left | right; tauto].
Qed.

(** X11.  Deleting a stored session frees its slot.  When session ids are
    distinct and no two sessions share type and day, the reply is 200 with
    the id, exactly that session leaves the collection, the attendance
    records it refers to stay, and afterwards no session of its type is
    found on its day: the attendance lookup of the engine answers "not
    found" there.  An ObjectId no session has gives 404 and an unchanged
    store; a string that is no ObjectId makes the driver throw with the
    status never set, the store again unchanged. *)
Theorem delete_frees_the_slot (s : Store) (x : AttendanceSession) :
  NoDup (map session_id (sessions s)) ->
  UniqueSessions (sessions s) ->
  In x (sessions s) ->
  let r := deleteAttendanceSession (IdValue (session_id x)) s in
  fst r = Sent 200 (session_id x)
  /\ (forall y, In y (sessions (snd r)) <-> In y (sessions s) /\ y <> x)
  /\ records (snd r) = records s
  /\ inventory (snd r) = inventory s
  /\ usages (snd r) = usages s
  /\ findSession (sessionType x) (markedAt x) (sessions (snd r)) = None
  /\ getAttendanceCount (sessionType x) (markedAt x) (sessions (snd r)) = None
  /\ (forall id,
        (forall y, In y (sessions s) -> session_id y <> id) ->
        deleteAttendanceSession (IdValue id) s
        = (Thrown 404 "Attendance session not found", s))
  /\ (forall raw,
        exists message,
          deleteAttendanceSession (IdInvalid raw) s = (Thrown 200 message, s)).
Proof.
  intros Hids Hu Hin r. subst r. unfold deleteAttendanceSession.
  destruct (find _ (sessions s)) as [y|] eqn:E.
  2:{ pose proof (find_none _ _ E x Hin) as H. simpl in H.
      now rewrite String.eqb_refl in H. }
  apply find_some in E. destruct E as [Hy Ey]. apply String.eqb_eq in Ey.
  assert (Hsame : forall a b, In a (sessions s) -> In b (sessions s) ->
                              session_id a = session_id b -> a = b).
  { clear -Hids. induction (sessions s) as [|c l IH]; simpl;
      intros a b Ha Hb Hab; [contradiction|].
    inversion Hids as [|? ? Hnotin Hnd']; subst.
    destruct Ha as [<- | Ha]; destruct Hb as [<- | Hb];
      try reflexivity; try now apply IH.
    - exfalso. apply Hnotin. rewrite Hab. now apply in_map.
    - exfalso. apply Hnotin. rewrite <- Hab. now apply in_map. }
  assert (Hmem : forall z, In z (removeSession (session_id x) (sessions s))
                           <-> In z (sessions s) /\ z <> x).
  { intros z. rewrite (removeSession_In _ _ z Hids). split.
    - intros [Hz Hne]. split; [assumption|]. congruence.
    - intros [Hz Hne]. split; [assumption|]. intros Ez.
      apply Hne. now apply Hsame. }
  assert (Hfree : findSession (sessionType x) (markedAt x)
                    (removeSession (session_id x) (sessions s)) = None).
  { unfold findSession.
    destruct (find _ (removeSession _ _)) as [z|] eqn:Ez; [|reflexivity].
    apply find_some in Ez. destruct Ez as [Hz Hm].
    apply Hmem in Hz. destruct Hz as [Hz Hne].
    apply sessionMatches_slot in Hm. destruct Hm as [Ht Hd].
    pose proof (unique_slot_found (sessionType x) (markedAt x) (sessions s) z
                  Hu Hz Ht Hd) as F1.
    pose proof (unique_slot_found (sessionType x) (markedAt x) (sessions s) x
                  Hu Hin eq_refl eq_refl) as F2.
    congruence. }
  cbn [fst snd sessions records inventory usages set_sessions].
  split; [now rewrite Ey|]. split; [exact Hmem|].
  split; [reflexivity|]. split; [reflexivity|]. split; [reflexivity|].
  split; [exact Hfree|].
  split; [unfold getAttendanceCount; now rewrite Hfree|].
  split; [|intros raw; eexists; reflexivity].
  intros id Hid.
  destruct (find (fun x0 => String.eqb (session_id x0) id) (sessions s))
    as [z|] eqn:Ez; [|reflexivity].
  apply find_some in Ez. destruct Ez as [Hz Hzid].
  apply String.eqb_eq in Hzid. now apply Hid in Hz.
Qed.

Lemma delete_frees_the_slot_witness :
  NoDup (map session_id (sessions Sample.hostel))
  /\ UniqueSessions (sessions Sample.hostel)
  /\ In Sample.wednesdayEvening (sessions Sample.hostel)
  /\ getAttendanceCount "evening" (-3600000)
       (sessions (snd (deleteAttendanceSession (IdValue "s1")
                         Sample.hostel))) = None.
Proof.
  assert (H1 : NoDup (map session_id (sessions Sample.hostel)))
    by (simpl; repeat constructor; simpl; tauto).
  assert (H2 : UniqueSessions (sessions Sample.hostel))
    by (unfold UniqueSessions; simpl; repeat constructor; simpl; tauto).
  assert (H3 : In Sample.wednesdayEvening (sessions Sample.hostel))
    by (now left).
  split; [exact H1|]. split; [exact H2|]. split; [exact H3|].
  exact (proj1 (proj2 (proj2 (proj2 (proj2 (proj2 (proj2
           (delete_frees_the_slot Sample.hostel Sample.wednesdayEvening
              H1 H2 H3)))))))).
Defined.

(** ** Creating attendance sessions *)

Section AttendanceProofs.

Variable toLocaleDateString : Date -> string.
Variable newObjectId : nat -> ObjectId.

Local Abbreviation create :=
  (createAttendanceSession toLocaleDateString newObjectId).

(** What a 201 reply tells. *)
Lemma create_success req now s session s1 :
  create req now s = (Sent 201 session, s1) ->
  exists recs d,
    sreq_records req = Some recs
    /\ (sreq_sessionType req = "morning" \/ sreq_sessionType req = "evening")
    /\ sessionDate (sreq_date req) now = Some d
    /\ findSession (sreq_sessionType req) d (sessions s) = None
    /\ invalidStudents (markRecords newObjectId s recs) = []
    /\ sessionType session = sreq_sessionType req
    /\ markedAt session = d
    /\ markedBy session = user_id (sreq_user req)
    /\ sessions s1 = sessions s ++ [session]
    /\ records s1 = marking_records (markRecords newObjectId s recs)
    /\ users s1 = users s /\ inventory s1 = inventory s
    /\ usages s1 = usages s /\ mealPlans s1 = mealPlans s
    /\ exists added,
         notifications s1 = notifications s ++ added
         /\ map notif_user added
            = getUserIdsByRoles ["admin"; "warden"]
                (user_id (sreq_user req)) (users s)
         /\ Forall (fun n => notif_type n = "info" /\ notif_read n = false
                             /\ createdAt n = now) added.
Proof.
  unfold createAttendanceSession. intros H.
  destruct (sreq_records req) as [recs|]; [|discriminate].
  destruct (String.eqb (sreq_sessionType req) ""); [discriminate|].
  destruct (existsb _ validSessionTypes) eqn:Hty; [|discriminate].
  cbn [negb] in H.
  destruct (sessionDate _ _) as [d|] eqn:Hd; [|discriminate].
  destruct (findSession _ _ _) eqn:Hfree; [discriminate|].
  destruct (invalidStudents (markRecords newObjectId s recs)) eqn:Hinv;
    [|discriminate].
  injection H as Hsess Hs1. exists recs, d.
  split; [reflexivity|].
  split.
  { simpl in Hty. rewrite orb_false_r in Hty.
    apply orb_true_iff in Hty. now rewrite !String.eqb_eq in Hty. }
  split; [reflexivity|]. split; [exact Hfree|]. split; [exact Hinv|].
  subst session s1. unfold sendNotifications.
  rewrite createNotification_fold.
  cbn [sessionType markedAt markedBy sessions records users inventory usages
       mealPlans notifications set_notifications set_sessions set_records].
  repeat (split; [reflexivity|]).
  eexists. split; [reflexivity|].
  split; [now rewrite map_map, map_id|].
  apply Forall_forall. intros n Hn. apply in_map_iff in Hn.
  destruct Hn as (x & <- & _). now repeat split.
Qed.

(** A request for an occupied slot, with its records and a valid type. *)
Lemma create_conflict req now s d x recs :
  sreq_records req = Some recs ->
  sreq_sessionType req = "morning" \/ sreq_sessionType req = "evening" ->
  sessionDate (sreq_date req) now = Some d ->
  In x (sessions s) -> sessionType x = sreq_sessionType req ->
  dayOf (markedAt x) = dayOf d ->
  create req now s
  = (Thrown 409
       ("Attendance for " ++ sreq_sessionType req ++ " session on "
          ++ toLocaleDateString d
          ++ " already exists. Please update or delete the existing record instead."),
     s).
Proof.
  intros Hr Hty Hd Hin Hx Hday. unfold createAttendanceSession.
  destruct (find_first (sessionMatches (sreq_sessionType req) d) (sessions s) x
              Hin) as (y & Hy); [now apply sessionMatches_slot|].
  unfold findSession. rewrite Hr, Hd, Hy.
  destruct Hty as [-> | ->]; reflexivity.
Qed.

(** X12.  Once a session is created its slot is taken: any later request
    with records for the same session type and a date on the same calendar
    day is rejected with 409 and leaves the store as the creation left it. *)
Theorem created_session_blocks_its_slot
    (req req2 : SessionRequest) (now now2 d2 : Date) (s s1 : Store)
    (session : AttendanceSession) :
  create req now s = (Sent 201 session, s1) ->
  sreq_sessionType req2 = sreq_sessionType req ->
  sreq_records req2 <> None ->
  sessionDate (sreq_date req2) now2 = Some d2 ->
  dayOf d2 = dayOf (markedAt session) ->
  exists message, create req2 now2 s1 = (Thrown 409 message, s1).
Proof.
  intros H Hty Hrecs Hd2 Hday.
  destruct (create_success req now s session s1 H)
    as (recs & d & _ & Hvalid & _ & _ & _ & Hst & _ & _ & Hsess & _).
  destruct (sreq_records req2) as [recs2|] eqn:Hr2; [|congruence].
  eexists.
  apply (create_conflict req2 now2 s1 d2 session recs2); try assumption.
  - now rewrite Hty.
  - rewrite Hsess. apply in_or_app. right. now left.
  - congruence.
  - congruence.
Qed.

Lemma NoDup_snoc {A : Type} (l : list A) (x : A) :
  NoDup l -> ~ In x l -> NoDup (l ++ [x]).
Proof.
  intros Hnd Hx. induction Hnd as [|a l Ha Hnd IH]; simpl.
  - constructor; [tauto | constructor].
  - constructor.
    + intros Hin. apply in_app_or in Hin. destruct Hin as [Hin | [<- | []]].
      * contradiction.
      * apply Hx. now left.
    + apply IH. intros Hin. apply Hx. now right.
Qed.

(** X13.  Creation keeps the session collection free of duplicates: if no
    two stored sessions share session type and calendar day, the same holds
    after any request, accepted or rejected. *)
Theorem create_keeps_sessions_unique
    (req : SessionRequest) (now : Date) (s : Store) :
  UniqueSessions (sessions s) ->
  UniqueSessions (sessions (snd (create req now s))).
Proof.
  intros Hu.
  destruct (create req now s) as [[status session | status message] s1] eqn:E.
  - assert (status = 201%Z).
    { unfold createAttendanceSession in E.
      destruct (sreq_records req); [|discriminate].
      destruct (String.eqb _ ""); [discriminate|].
      destruct (negb _); [discriminate|].
      destruct (sessionDate _ _); [|discriminate].
      destruct (findSession _ _ _); [discriminate|].
      destruct (invalidStudents _); [|discriminate].
      now injection E as <- _ _. }
    subst status.
    destruct (create_success req now s session s1 E)
      as (recs & d & _ & _ & _ & Hfree & _ & Hst & Hm & _ & Hsess & _).
    simpl. rewrite Hsess. unfold UniqueSessions. rewrite map_app. simpl.
    apply NoDup_snoc; [assumption|].
    intros Hin. apply in_map_iff in Hin. destruct Hin as (y & Hslot & Hy).
    unfold findSession in Hfree.
    pose proof (find_none _ _ Hfree y Hy) as Hno.
    assert (sessionMatches (sreq_sessionType req) d y = true).
    { apply sessionMatches_slot. unfold sessionSlot in Hslot.
      apply pair_equal_spec in Hslot. destruct Hslot as [H1 H2].
      split; congruence. }
    congruence.
  - assert (sessions s1 = sessions s); [|simpl; congruence].
    unfold createAttendanceSession in E.
    destruct (sreq_records req); [|now injection E as _ _ <-].
    destruct (String.eqb _ ""); [now injection E as _ _ <-|].
    destruct (negb _); [now injection E as _ _ <-|].
    destruct (sessionDate _ _); [|now injection E as _ _ <-].
    destruct (findSession _ _ _); [now injection E as _ _ <-|].
    destruct (invalidStudents _); [discriminate|].
    now injection E as _ _ <-.
Qed.

End AttendanceProofs.

Lemma created_session_blocks_its_slot_witness :
  exists session s1 message,
    createAttendanceSession Sample.showDate Sample.objectId Sample.rollCall 7
                            Sample.hostel = (Sent 201 session, s1)
    /\ createAttendanceSession Sample.showDate Sample.objectId Sample.rollCall
                               9 s1 = (Thrown 409 message, s1).
Proof.
  destruct (created_session_blocks_its_slot Sample.showDate Sample.objectId
              Sample.rollCall Sample.rollCall 7 9 0 Sample.hostel _ _
              eq_refl eq_refl)
    as (message & H); [discriminate | reflexivity | reflexivity|].
  eexists. eexists. exists message. split; [reflexivity | exact H].
Defined.

Lemma create_keeps_sessions_unique_witness :
  UniqueSessions (sessions Sample.hostel)
  /\ UniqueSessions
       (sessions
          (snd (createAttendanceSession Sample.showDate Sample.objectId
                  Sample.rollCall 7 Sample.hostel))).
Proof.
  assert (H : UniqueSessions (sessions Sample.hostel))
    by (unfold UniqueSessions; simpl; repeat constructor; simpl; tauto).
  split; [exact H|].
  exact (create_keeps_sessions_unique Sample.showDate Sample.objectId
           Sample.rollCall 7 Sample.hostel H).
Defined.

(** What the callbacks of [records.map] leave behind, record by record. *)
Lemma markRecords_shape newObjectId sts recs st :
  invalidStudents (fold_left (markRecord newObjectId sts) recs st)
  = invalidStudents st
      ++ filter (fun id => negb (existsb (String.eqb id) sts))
                (map rr_student recs)
  /\ map snd (marking_records
                (fold_left (markRecord newObjectId sts) recs st))
     = map snd (marking_records st)
         ++ map (fun r => mkRecord (rr_student r) (rr_status r)
                                   (rr_remarks r))
                (filter (fun r => existsb (String.eqb (rr_student r)) sts)
                        recs).
Proof.
  revert st. induction recs as [|r recs IH]; intros st; simpl.
  - now rewrite !app_nil_r.
  - destruct (IH (markRecord newObjectId sts st r)) as [-> ->].
    unfold markRecord.
    destruct (existsb (String.eqb (rr_student r)) sts); simpl.
    + destruct (String.eqb (rr_status r) "present"); simpl;
        rewrite !map_app, <- !app_assoc; split; reflexivity.
    + now rewrite <- !app_assoc.
Qed.

(** X14.  A request that names a student the store does not know is rejected
    with 400 and the unknown ids joined by ", " in the order of the request;
    no session and no notification is created.  The attendance records of
    the known students of the request have been created all the same and
    stay in the store. *)
Theorem unknown_students_reject_the_session
    (toLocaleDateString : Date -> string) (newObjectId : nat -> ObjectId)
    (req : SessionRequest) (now d : Date) (s : Store)
    (recs : list ReqRecord) :
  sreq_records req = Some recs ->
  sreq_sessionType req = "morning" \/ sreq_sessionType req = "evening" ->
  sessionDate (sreq_date req) now = Some d ->
  findSession (sreq_sessionType req) d (sessions s) = None ->
  let unknown :=
    filter (fun id => negb (existsb (String.eqb id) (students s)))
           (map rr_student recs) in
  unknown <> [] ->
  let r := createAttendanceSession toLocaleDateString newObjectId req now s in
  fst r
  = Thrown 400
      ("Invalid students or students not in this dorm: "
         ++ Js.join ", " unknown)
  /\ sessions (snd r) = sessions s
  /\ notifications (snd r) = notifications s
  /\ map snd (records (snd r))
     = map snd (records s)
         ++ map (fun r => mkRecord (rr_student r) (rr_status r)
                                   (rr_remarks r))
                (filter (fun r => existsb (String.eqb (rr_student r))
                                          (students s)) recs).
Proof.
  intros Hr Hty Hd Hfree unknown Hne r. subst r.
  unfold createAttendanceSession. rewrite Hr, Hd, Hfree.
  assert (Hv : String.eqb (sreq_sessionType req) "" = false
               /\ existsb (String.eqb (sreq_sessionType req))
                          validSessionTypes = true)
    by (destruct Hty as [-> | ->]; split; reflexivity).
  destruct Hv as [-> ->]. cbn [negb].
  destruct (markRecords_shape newObjectId (students s) recs
              (mkMarking [] [] 0%Z 0%Z (records s))) as [Hi Hm].
  fold (markRecords newObjectId s recs) in Hi, Hm. simpl in Hi, Hm.
  fold unknown in Hi. rewrite Hi.
  destruct unknown as [|u0 us]; [congruence|].
  cbn [fst snd sessions notifications records set_records].
  repeat (split; [reflexivity|]). exact Hm.
Qed.

Lemma unknown_students_reject_the_session_witness :
  let req :=
    mkSessionRequest "evening" ""
      (Some [mkReqRecord "st1" "present" ""; mkReqRecord "st9" "present" ""])
      (DateValue 1000) Sample.warden in
  findSession "evening" 0 (sessions Sample.hostel) = None
  /\ fst (createAttendanceSession Sample.showDate Sample.objectId req 7
            Sample.hostel)
     = Thrown 400 "Invalid students or students not in this dorm: st9"
  /\ map snd
       (records
          (snd (createAttendanceSession Sample.showDate Sample.objectId req 7
                  Sample.hostel)))
     = [mkRecord "st1" "present" ""].
Proof.
  intros req. split; [reflexivity|].
  destruct (unknown_students_reject_the_session Sample.showDate
              Sample.objectId req 7 0 Sample.hostel
              [mkReqRecord "st1" "present" ""; mkReqRecord "st9" "present" ""]
              eq_refl (or_intror eq_refl) eq_refl eq_refl)
    as (H1 & _ & _ & H4); [discriminate|].
  split; [exact H1 | exact H4].
Defined.

(** X15.  An accepted request notifies the staff and never the user who
    marked the attendance: the notifications it appends are of type info,
    unread and stamped with the clock, none is addressed to the marker, and
    every other user with the admin or warden role is addressed. *)
Theorem marking_notifies_the_other_staff
    (toLocaleDateString : Date -> string) (newObjectId : nat -> ObjectId)
    (req : SessionRequest) (now : Date) (s s1 : Store)
    (session : AttendanceSession) :
  user_id (sreq_user req) <> "" ->
  createAttendanceSession toLocaleDateString newObjectId req now s
  = (Sent 201 session, s1) ->
  exists added,
    notifications s1 = notifications s ++ added
    /\ Forall (fun n => notif_type n = "info" /\ notif_read n = false
                        /\ createdAt n = now
                        /\ notif_user n <> user_id (sreq_user req)) added
    /\ (forall u, In u (users s) ->
                  role u = "admin" \/ role u = "warden" ->
                  user_id u <> user_id (sreq_user req) ->
                  exists n, In n added /\ notif_user n = user_id u).
Proof.
  intros Hmarker H.
  destruct (create_success toLocaleDateString newObjectId req now s session s1
              H)
    as (recs & d & _ & _ & _ & _ & _ & _ & _ & _ & _ & _ & _ & _ & _ & _
        & added & Hn & Hu & Hall).
  exists added. split; [assumption|].
  assert (Hmem : forall id,
    In id (map notif_user added)
    <-> exists u, In u (users s)
                  /\ (role u = "admin" \/ role u = "warden")
                  /\ user_id u <> user_id (sreq_user req)
                  /\ user_id u = id).
  { intros id. rewrite Hu. unfold getUserIdsByRoles, usersWithRole.
    rewrite in_map_iff. apply String.eqb_neq in Hmarker.
    split.
    - intros (u & <- & Hin). apply filter_In in Hin. destruct Hin as [Hin Hc].
      apply filter_In in Hin. destruct Hin as [Hin Hrole].
      rewrite Hmarker in Hc. simpl in Hc.
      apply negb_true_iff, String.eqb_neq in Hc.
      simpl in Hrole. rewrite orb_false_r in Hrole.
      apply orb_true_iff in Hrole. rewrite !String.eqb_eq in Hrole.
      exists u. now repeat split.
    - intros (u & Hin & Hrole & Hne & <-). exists u. split; [reflexivity|].
      apply filter_In. split.
      + apply filter_In. split; [assumption|]. simpl.
        rewrite orb_false_r. apply orb_true_iff.
        now rewrite !String.eqb_eq.
      + rewrite Hmarker. simpl.
        now apply negb_true_iff, String.eqb_neq. }
  split.
  - rewrite Forall_forall in *. intros n Hin.
    destruct (Hall n Hin) as (H1 & H2 & H3).
    repeat (split; [assumption|]).
    assert (Hid : In (notif_user n) (map notif_user added)) by now apply in_map.
    apply Hmem in Hid. destruct Hid as (u & _ & _ & Hne & <-). assumption.
  - intros u Hin Hrole Hne.
    assert (Hid : In (user_id u) (map notif_user added)).
    { apply Hmem. exists u. now repeat split. }
    apply in_map_iff in Hid. destruct Hid as (n & Hn' & Hin').
    exists n. now split.
Qed.

Lemma marking_notifies_the_other_staff_witness :
  user_id (sreq_user Sample.rollCall) <> ""
  /\ exists session s1 added,
       createAttendanceSession Sample.showDate Sample.objectId Sample.rollCall
                               7 Sample.hostel = (Sent 201 session, s1)
       /\ notifications s1 = notifications Sample.hostel ++ added
       /\ Forall (fun n => notif_type n = "info" /\ notif_read n = false
                           /\ createdAt n = 7%Z
                           /\ notif_user n <> user_id (sreq_user Sample.rollCall))
                 added.
Proof.
  assert (H : user_id (sreq_user Sample.rollCall) <> "") by discriminate.
  split; [exact H|].
  destruct (marking_notifies_the_other_staff Sample.showDate Sample.objectId
              Sample.rollCall 7 Sample.hostel _ _ H eq_refl)
    as (added & H1 & H2 & _).
  eexists. eexists. exists added.
  split; [reflexivity|]. split; [exact H1 | exact H2].
Defined.

(** ** The low-stock monitor on a new day *)

Lemma NoDup_map_injective {A B : Type} (f : A -> B) (l : list A) :
  (forall x y, f x = f y -> x = y) -> NoDup l -> NoDup (map f l).
Proof.
  intros Hinj H. induction H as [|a l Ha _ IH]; simpl; constructor;
    [|assumption].
  intros Hin. apply in_map_iff in Hin. destruct Hin as (x & E & Hx).
  apply Hinj in E. now subst.
Qed.

Lemma NoDup_pair_keys {A B K L : Type} (f : A -> K) (g : B -> L)
    (l1 : list A) (l2 : list B) :
  NoDup (map f l1) -> NoDup (map g l2) ->
  NoDup (map (fun p => (g (snd p), f (fst p))) (list_prod l1 l2)).
Proof.
  intros H1 H2. induction l1 as [|a l1 IH]; simpl; [constructor|].
  inversion H1 as [|? ? Hnotin H1']; subst.
  rewrite map_app, map_map. simpl.
  apply NoDup_app.
  - replace (map (fun x : B => (g x, f a)) l2)
      with (map (fun k => (k, f a)) (map g l2)) by now rewrite map_map.
    apply NoDup_map_injective; [|assumption].
    intros x y E. now injection E.
  - now apply IH.
  - intros k Hk1 Hk2. apply in_map_iff in Hk1. destruct Hk1 as (y & <- & _).
    apply in_map_iff in Hk2. destruct Hk2 as ([x y'] & E & Hin).
    simpl in E. injection E as _ E. apply in_prod_iff in Hin.
    apply Hnotin. rewrite <- E. apply in_map. tauto.
Qed.

Section LowStockFresh.

Variable showNumber : Q -> string.
Variable now : Date.

(** A pass over pairs with distinct recipient and title, none of them
    alerted today, creates the alert of every pair, in order. *)
Lemma pass_fresh ps s :
  NoDup (map (fun p => (user_id (snd p), lowStockTitle (fst p))) ps) ->
  (forall p, In p ps -> find (alertedToday now p) (notifications s) = None) ->
  fold_left (lowStockStep showNumber now) ps s
  = set_notifications
      (notifications s ++ map (lowStockAlert showNumber now) ps) s.
Proof.
  revert s. induction ps as [|p ps IH]; intros s Hnd Hnone; simpl.
  - unfold set_notifications. rewrite app_nil_r. symmetry. apply store_eta.
  - inversion Hnd as [|? ? Hnotin Hnd']; subst.
    destruct (step_cases showNumber now s p) as [(n & Hn & _) | (_ & ->)].
    { rewrite (Hnone p (or_introl eq_refl)) in Hn. discriminate. }
    rewrite IH; [|assumption|].
    + rewrite set_notifications_twice. cbn [notifications set_notifications].
      now rewrite <- app_assoc.
    + intros q Hq. cbn [notifications set_notifications].
      rewrite find_app, (Hnone q (or_intror Hq)). simpl.
      destruct (alertedToday now q (lowStockAlert showNumber now p)) eqn:E;
        [|reflexivity].
      exfalso. apply Hnotin.
      unfold alertedToday, sameAlertToday, lowStockAlert in E.
      cbn [notif_user notif_title] in E.
      apply andb_true_iff in E. destruct E as [E _].
      apply andb_true_iff in E. destruct E as [E1 E2].
      apply String.eqb_eq in E1. apply String.eqb_eq in E2.
      rewrite E1, E2.
      now apply (in_map (fun p => (user_id (snd p), lowStockTitle (fst p)))).
Qed.

End LowStockFresh.

(** X16.  On a day on which nothing has been notified yet (every stored
    notification was created before the start of the day), with distinct
    names among the low items and distinct ids among the recipients, the
    monitor creates exactly one notification per low item and recipient with
    the admin or kitchen role, item by item: notifications of earlier days do
    not hold it back. *)
Theorem monitor_notifies_again_next_day
    (showNumber : Q -> string) (now : Date) (s : Store) :
  (forall n, In n (notifications s) -> (createdAt n < startOfDay now)%Z) ->
  NoDup (map item_name (filter isLowStock (inventory s))) ->
  NoDup (map user_id (usersWithRole ["admin"; "kitchen"] (users s))) ->
  let s' := checkLowStockItems showNumber now s in
  notifications s'
  = notifications s
      ++ map (lowStockAlert showNumber now)
             (list_prod (filter isLowStock (inventory s))
                        (usersWithRole ["admin"; "kitchen"] (users s)))
  /\ inventory s' = inventory s /\ usages s' = usages s.
Proof.
  intros Hold Hnames Hids s'. subst s'.
  rewrite checkLowStockItems_pairs, pass_fresh.
  - now repeat split.
  - apply NoDup_pair_keys; [|assumption].
    replace (map lowStockTitle (filter isLowStock (inventory s)))
      with (map (fun n => ("Low Stock: " ++ n)%string)
                (map item_name (filter isLowStock (inventory s))))
      by now rewrite map_map.
    apply NoDup_map_injective; [|assumption].
    intros a b E. simpl in E. now injection E.
  - intros p _. destruct (find _ (notifications s)) as [n|] eqn:E;
      [|reflexivity].
    apply find_some in E. destruct E as [Hin E].
    unfold alertedToday, sameAlertToday in E.
    apply andb_true_iff in E. destruct E as [_ E]. apply Z.leb_le in E.
    specialize (Hold n Hin). lia.
Qed.

Lemma monitor_notifies_again_next_day_witness :
  (forall n, In n (notifications Sample.larder) ->
             (createdAt n < startOfDay 4000)%Z)
  /\ NoDup (map item_name (filter isLowStock (inventory Sample.larder)))
  /\ NoDup (map user_id
              (usersWithRole ["admin"; "kitchen"] (users Sample.larder)))
  /\ List.length
       (notifications (checkLowStockItems Js.toFixed2 4000 Sample.larder))
     = 4%nat.
Proof.
  assert (H1 : forall n, In n (notifications Sample.larder) ->
                         (createdAt n < startOfDay 4000)%Z)
    by (intros n []).
  assert (H2 : NoDup (map item_name
                        (filter isLowStock (inventory Sample.larder))))
    by (simpl; repeat constructor; simpl; intuition discriminate).
  assert (H3 : NoDup (map user_id
                        (usersWithRole ["admin"; "kitchen"]
                                       (users Sample.larder))))
    by (simpl; repeat constructor; simpl; intuition discriminate).
  split; [exact H1|]. split; [exact H2|]. split; [exact H3|].
  rewrite (proj1 (monitor_notifies_again_next_day Js.toFixed2 4000
                    Sample.larder H1 H2 H3)).
  reflexivity.
Defined.

(** ** Stock status of the inventory listing *)

Lemma lt_leb_false (a b : Q) : b < a -> Js.leb a b = false.
Proof.
  intros H. unfold Js.leb. destruct (Qle_bool a b) eqn:E; [|reflexivity].
  apply Qle_bool_iff in E. lra.
Qed.

Lemma le_leb_true (a b : Q) : a <= b -> Js.leb a b = true.
Proof. intros H. unfold Js.leb. now apply Qle_bool_iff. Qed.

Lemma stock_status_exclusive (it : InventoryItem) :
  0 <= minimumStock it ->
  (isLowStatus it = true /\ isMediumStatus it = false
   /\ isGoodStatus it = false)
  \/ (isLowStatus it = false /\ isMediumStatus it = true
      /\ isGoodStatus it = false)
  \/ (isLowStatus it = false /\ isMediumStatus it = false
      /\ isGoodStatus it = true).
Proof.
  intros Hm. unfold isLowStatus, isMediumStatus, isGoodStatus.
  destruct (Qlt_le_dec (minimumStock it) (currentStock it)) as [H1|H1].
  - rewrite (lt_ltb_true _ _ H1), (lt_leb_false _ _ H1).
    destruct (Qlt_le_dec (minimumStock it * (3 # 2)) (currentStock it))
      as [H2|H2].
    + right; right. rewrite (lt_ltb_true _ _ H2), (lt_leb_false _ _ H2).
      now repeat split.
    + right; left. rewrite (le_ltb_false _ _ H2), (le_leb_true _ _ H2).
      now repeat split.
  - left. rewrite (le_ltb_false _ _ H1), (le_leb_true _ _ H1).
    split; [reflexivity|]. split; [reflexivity|].
    apply le_ltb_false. lra.
Qed.

(** X17.  The three stock statuses of the inventory listing partition an
    inventory whose minimum stocks are not negative: every item is low,
    medium or good and never two of them, so the three filtered lists
    together have as many entries as the inventory.  "low" selects the items
    the low-stock monitor reports; any other status value sets no filter. *)
Theorem stock_status_partitions_inventory (items : list InventoryItem) :
  Forall (fun it => 0 <= minimumStock it) items ->
  (forall low medium good,
     stockStatusIds "low" items = Some low ->
     stockStatusIds "medium" items = Some medium ->
     stockStatusIds "good" items = Some good ->
     (List.length low + List.length medium + List.length good
      = List.length items)%nat)
  /\ (forall it, In it items ->
        (isLowStatus it = true /\ isMediumStatus it = false
         /\ isGoodStatus it = false)
        \/ (isLowStatus it = false /\ isMediumStatus it = true
            /\ isGoodStatus it = false)
        \/ (isLowStatus it = false /\ isMediumStatus it = false
            /\ isGoodStatus it = true))
  /\ stockStatusIds "low" items
     = Some (map item_id (filter isLowStock items))
  /\ (forall status,
        status <> "low" -> status <> "medium" -> status <> "good" ->
        stockStatusIds status items = None).
Proof.
  intros H. split; [|split; [|split]].
  - intros low medium good Hl Hm Hg.
    injection Hl as <-. injection Hm as <-. injection Hg as <-.
    rewrite !length_map.
    induction H as [|it items Hit _ IH]; simpl; [reflexivity|].
    destruct (stock_status_exclusive it Hit)
      as [(-> & -> & ->) | [(-> & -> & ->) | (-> & -> & ->)]];
      simpl; lia.
  - intros it Hin. rewrite Forall_forall in H.
    now apply stock_status_exclusive, H.
  - reflexivity.
  - intros status H1 H2 H3. unfold stockStatusIds.
    apply String.eqb_neq in H1, H2, H3. now rewrite H1, H2, H3.
Qed.

Lemma stock_status_partitions_inventory_witness :
  Forall (fun it => 0 <= minimumStock it) (inventory Sample.larder)
  /\ stockStatusIds "low" (inventory Sample.larder) = Some ["i3"; "i4"]
  /\ stockStatusIds "medium" (inventory Sample.larder) = Some []
  /\ stockStatusIds "good" (inventory Sample.larder) = Some ["i1"]
  /\ (List.length ["i3"; "i4"] + List.length (@nil ObjectId)
      + List.length ["i1"]
      = List.length (inventory Sample.larder))%nat.
Proof.
  assert (H : Forall (fun it => 0 <= minimumStock it)
                     (inventory Sample.larder)).
  { simpl. repeat constructor; unfold Qle; simpl; lia. }
  split; [exact H|]. split; [reflexivity|]. split; [reflexivity|].
  split; [reflexivity|].
  exact (proj1 (stock_status_partitions_inventory (inventory Sample.larder) H)
               ["i3"; "i4"] [] ["i1"] eq_refl eq_refl eq_refl).
Defined.

(** ** Meal plans *)

Lemma stored_lines_valid lines :
  forallb planLineValid lines = true ->
  Forall planItemStored (map storedLine lines).
Proof.
  induction lines as [|l lines IH]; simpl; intros H; [constructor|].
  apply andb_true_iff in H. destruct H as [Hl H].
  constructor; [|now apply IH].
  unfold planLineValid in Hl. apply andb_true_iff in Hl.
  destruct Hl as [_ Hl]. unfold planItemStored, storedLine. simpl.
  destruct (line_quantity l) as [q|]; [|discriminate].
  split; [now apply Qle_bool_iff | reflexivity].
Qed.

(** X18.  Creating meal plans keeps one plan per weekday, each in the form
    the schema stores.  If the stored plans have distinct days and stored
    form, so have the plans after any request.  An accepted request (201)
    had no plan for its day before, and afterwards the lookup the scheduled
    run uses finds exactly the new plan for that day; a request for a day
    that has a plan, or with an estimated cost of 0 or none, is rejected
    with 400 and changes nothing.  The inventory, sessions, usages and
    notifications are never touched. *)
Theorem create_meal_plan_keeps_one_plan_per_day
    (req : PlanRequest) (s : Store) :
  NoDup (map day (mealPlans s)) ->
  (forall p, In p (mealPlans s) -> planStored p) ->
  let r := createMealPlan req s in
  NoDup (map day (mealPlans (snd r)))
  /\ (forall p, In p (mealPlans (snd r)) -> planStored p)
  /\ (forall plan,
        fst r = Sent 201 plan ->
        findPlan (preq_day req) (mealPlans s) = None
        /\ findPlan (preq_day req) (mealPlans (snd r)) = Some plan
        /\ mealPlans (snd r) = mealPlans s ++ [plan])
  /\ (findPlan (preq_day req) (mealPlans s) <> None
      \/ preq_estimatedCost req = None
      \/ (exists c, preq_estimatedCost req = Some c /\ c == 0) ->
      snd r = s /\ exists message, fst r = Thrown 400 message)
  /\ (inventory (snd r) = inventory s /\ sessions (snd r) = sessions s
      /\ usages (snd r) = usages s
      /\ notifications (snd r) = notifications s).
Proof.
  intros Hnd Hstored r. subst r. unfold createMealPlan.
  set (missing := match preq_estimatedCost req with
                  | Some c => Js.eqb c 0
                  | None => true
                  end).
  assert (Hmissing : preq_estimatedCost req = None
                     \/ (exists c, preq_estimatedCost req = Some c /\ c == 0)
                     -> missing = true).
  { intros [E | (c & E & Hc)]; unfold missing; rewrite E; [reflexivity|].
    now apply Qeq_eq_bool. }
  destruct (String.eqb (preq_day req) "" || missing) eqn:Hreq.
  { cbn [fst snd]. split; [assumption|]. split; [assumption|].
    split; [intros plan H; discriminate H|].
    split; [intros _; split; [reflexivity | eauto]|]. now repeat split. }
  apply orb_false_iff in Hreq. destruct Hreq as [Hday Hcost].
  destruct (findPlan (preq_day req) (mealPlans s)) as [old|] eqn:Hfind.
  { cbn [fst snd]. split; [assumption|]. split; [assumption|].
    split; [intros plan H; discriminate H|].
    split; [intros _; split; [reflexivity | eauto]|]. now repeat split. }
  destruct (existsb (String.eqb (preq_day req)) planDays) eqn:Hd;
    cbn [andb].
  2:{ cbn [fst snd]. split; [assumption|]. split; [assumption|].
      split; [intros plan H; discriminate H|].
      split; [|now repeat split].
      intros [H | H]; [congruence|]. apply Hmissing in H. congruence. }
  destruct (forallb planLineValid (linesOrEmpty (preq_breakfastInventory req)))
    eqn:Hb; cbn [andb].
  2:{ cbn [fst snd]. split; [assumption|]. split; [assumption|].
      split; [intros plan H; discriminate H|].
      split; [|now repeat split].
      intros [H | H]; [congruence|]. apply Hmissing in H. congruence. }
  destruct (forallb planLineValid (linesOrEmpty (preq_lunchInventory req)))
    eqn:Hl; cbn [andb].
  2:{ cbn [fst snd]. split; [assumption|]. split; [assumption|].
      split; [intros plan H; discriminate H|].
      split; [|now repeat split].
      intros [H | H]; [congruence|]. apply Hmissing in H. congruence. }
  destruct (forallb planLineValid (linesOrEmpty (preq_dinnerInventory req)))
    eqn:Hdn.
  2:{ cbn [fst snd]. split; [assumption|]. split; [assumption|].
      split; [intros plan H; discriminate H|].
      split; [|now repeat split].
      intros [H | H]; [congruence|]. apply Hmissing in H. congruence. }
  cbn [fst snd mealPlans inventory sessions usages notifications].
  split.
  { rewrite map_app. simpl. apply NoDup_snoc; [assumption|].
    intros Hin. apply in_map_iff in Hin. destruct Hin as (p & Hp & Hin).
    unfold findPlan in Hfind. pose proof (find_none _ _ Hfind p Hin) as Hno.
    simpl in Hno. rewrite Hp, String.eqb_refl in Hno. discriminate. }
  split.
  { intros p Hin. apply in_app_or in Hin. destruct Hin as [Hin | [<- | []]];
      [now apply Hstored|].
    unfold planStored. simpl.
    split.
    { apply existsb_exists in Hd. destruct Hd as (x & Hx & E).
      apply String.eqb_eq in E. now subst. }
    split; [now apply stored_lines_valid|].
    split; now apply stored_lines_valid. }
  split.
  { intros plan H. injection H as <-. split; [reflexivity|].
    split; [|reflexivity].
    unfold findPlan in *. rewrite find_app, Hfind. simpl.
    now rewrite String.eqb_refl. }
  split; [|now repeat split].
  intros [H | H]; [congruence|]. apply Hmissing in H. congruence.
Qed.

Lemma create_meal_plan_keeps_one_plan_per_day_witness :
  let req :=
    mkPlanRequest "Friday" (Some (250 # 1))
      (Some [mkPlanLine "i1" (Some (3 # 1))]) None None in
  NoDup (map day (mealPlans Sample.hostel))
  /\ (forall p, In p (mealPlans Sample.hostel) -> planStored p)
  /\ exists plan,
       fst (createMealPlan req Sample.hostel) = Sent 201 plan
       /\ findPlan "Friday" (mealPlans (snd (createMealPlan req Sample.hostel)))
          = Some plan.
Proof.
  intros req.
  assert (H1 : NoDup (map day (mealPlans Sample.hostel)))
    by (simpl; repeat constructor; simpl; tauto).
  assert (H2 : forall p, In p (mealPlans Sample.hostel) -> planStored p).
  { simpl. intros p [<- | []]. unfold planStored. simpl.
    split; [tauto|].
    split; [|split; constructor].
    repeat constructor; unfold Qle; simpl; lia. }
  split; [exact H1|]. split; [exact H2|].
  eexists. split; [reflexivity|].
  exact (proj1 (proj2 (proj1 (proj2 (proj2
           (create_meal_plan_keeps_one_plan_per_day req Sample.hostel H1 H2)))
           _ eq_refl))).
Defined.

(** ** The deprecated daily run *)

Section DailyProofs.

Variable showNumber : Q -> string.
Variable now : Date.

Lemma processDailyLine_cases meal multiplier attendance st item :
  (daily_inventory (processDailyLine showNumber meal multiplier attendance now
                                     st item) = daily_inventory st
   \/ exists it amount,
        findItemById (inventoryItemId item) (daily_inventory st) = Some it
        /\ amount <= currentStock it
        /\ daily_inventory (processDailyLine showNumber meal multiplier
                                             attendance now st item)
           = saveItem (deduct now it amount) (daily_inventory st))
  /\ exists more,
       daily_errors (processDailyLine showNumber meal multiplier attendance
                                      now st item)
       = daily_errors st ++ more.
Proof.
  unfold processDailyLine.
  destruct (findItemById _ _) as [it|] eqn:Hf.
  - destruct multiplier as [m|].
    + destruct (Js.ltb _ _) eqn:Hlt; cbn.
      * split; [now left | eauto].
      * split; [|exists []; now rewrite app_nil_r].
        right. exists it, (quantity item * m).
        split; [reflexivity|]. split; [now apply ltb_false_le | reflexivity].
    + split; [now left | exists []; now rewrite app_nil_r].
  - cbn. split; [now left | eauto].
Qed.

Lemma processDinnerLine_cases multiplier st item :
  (daily_inventory (processDinnerLine multiplier now st item)
   = daily_inventory st
   \/ exists it amount,
        findItemById (inventoryItemId item) (daily_inventory st) = Some it
        /\ amount <= currentStock it
        /\ daily_inventory (processDinnerLine multiplier now st item)
           = saveItem (deduct now it amount) (daily_inventory st))
  /\ exists more,
       daily_errors (processDinnerLine multiplier now st item)
       = daily_errors st ++ more.
Proof.
  unfold processDinnerLine.
  destruct (findItemById _ _) as [it|] eqn:Hf.
  - destruct multiplier as [m|].
    + destruct (Js.ltb _ _) eqn:Hlt; cbn.
      * split; [now left | eauto].
      * split; [|eauto].
        right. exists it, (quantity item * m).
        split; [reflexivity|]. split; [now apply ltb_false_le | reflexivity].
    + split; [now left | exists []; now rewrite app_nil_r].
  - cbn. split; [now left | eauto].
Qed.

(** A property of the inventory that every debit keeps holds after the three
    loops. *)
Lemma daily_inventory_invariant (P : list InventoryItem -> Prop) plan prev
    today total inv :
  (forall inv0 id it amount,
     P inv0 -> findItemById id inv0 = Some it -> amount <= currentStock it ->
     P (saveItem (deduct now it amount) inv0)) ->
  P inv ->
  P (daily_inventory (dailyLoops showNumber now plan prev today total inv)).
Proof.
  intros Hstep H. unfold dailyLoops.
  assert (Hd : forall meal m att lines st,
    P (daily_inventory st) ->
    P (daily_inventory
         (fold_left (processDailyLine showNumber meal m att now) lines st))).
  { intros meal m att lines. induction lines as [|l lines IH]; intros st Hst;
      simpl; [assumption|].
    apply IH.
    destruct (processDailyLine_cases meal m att st l)
      as [[-> | (it & amount & Hf & Hle & ->)] _]; [assumption|].
    now apply (Hstep _ (inventoryItemId l)). }
  assert (Hn : forall m lines st,
    P (daily_inventory st) ->
    P (daily_inventory (fold_left (processDinnerLine m now) lines st))).
  { intros m lines. induction lines as [|l lines IH]; intros st Hst;
      simpl; [assumption|].
    apply IH.
    destruct (processDinnerLine_cases m st l)
      as [[-> | (it & amount & Hf & Hle & ->)] _]; [assumption|].
    now apply (Hstep _ (inventoryItemId l)). }
  apply Hn, Hd, Hd. exact H.
Qed.

(** The deprecated run skips without a plan or without students. *)
Lemma daily_skip s :
  findPlan (dayName now) (mealPlans s) = None \/ students s = [] ->
  consumeInventoryFromMealPlans showNumber now s = s.
Proof.
  unfold consumeInventoryFromMealPlans. intros [-> | ->]; [reflexivity|].
  now destruct (findPlan _ _).
Qed.

(** What it does to the store otherwise. *)
Lemma daily_run s plan :
  findPlan (dayName now) (mealPlans s) = Some plan ->
  students s <> [] ->
  let prev := getAttendanceCount "evening" (previousDay now) (sessions s) in
  let today := getAttendanceCount "evening" now (sessions s) in
  let r := dailyLoops showNumber now plan prev today
             (Z.of_nat (List.length (students s))) (inventory s) in
  let s' := consumeInventoryFromMealPlans showNumber now s in
  mealPlans s' = mealPlans s /\ sessions s' = sessions s
  /\ users s' = users s /\ students s' = students s
  /\ records s' = records s /\ usages s' = usages s
  /\ inventory s' = daily_inventory r
  /\ notifications s'
     = notifications s
         ++ match daily_errors r, dailyWarnings prev today with
            | [], [] => []
            | errs, warnings =>
                map (fun admin =>
                       mkNotification (user_id admin) (dailyNoticeType errs)
                         (dailyNoticeTitle (dayName now) errs)
                         (dailyNoticeMessage warnings errs) false now)
                    (usersWithRole ["admin"] (users s))
            end.
Proof.
  intros Hp Hst. unfold consumeInventoryFromMealPlans. rewrite Hp.
  destruct (Z.eqb_spec (Z.of_nat (List.length (students s))) 0) as [E|_].
  { destruct (students s); [congruence | discriminate E]. }
  cbv zeta.
  set (r := dailyLoops _ _ _ _ _ _ _).
  set (w := dailyWarnings _ _).
  destruct (daily_errors r) as [|e es]; destruct w as [|w0 ws];
    try rewrite createNotification_fold; cbn;
    repeat (split; [reflexivity|]); now rewrite ?app_nil_r.
Qed.

End DailyProofs.

(** X19.  The deprecated daily run never creates a usage record and never
    touches the plans, the sessions, the users, the students or the
    attendance records.  It keeps the ids of the inventory and leaves no
    stock negative that was not.  It appends either no notification or one
    per user with the admin role, of type alert or warning, unread and
    stamped with the clock. *)
Theorem daily_run_frame
    (showNumber : Q -> string) (now : Date) (s : Store) :
  let s' := consumeInventoryFromMealPlans showNumber now s in
  usages s' = usages s /\ mealPlans s' = mealPlans s
  /\ sessions s' = sessions s /\ users s' = users s
  /\ students s' = students s /\ records s' = records s
  /\ map item_id (inventory s') = map item_id (inventory s)
  /\ (Forall (fun it => 0 <= currentStock it) (inventory s) ->
      Forall (fun it => 0 <= currentStock it) (inventory s'))
  /\ exists added,
       notifications s' = notifications s ++ added
       /\ (added = []
           \/ map notif_user added
              = map user_id (usersWithRole ["admin"] (users s)))
       /\ Forall (fun n => (notif_type n = "alert"
                            \/ notif_type n = "warning")
                           /\ notif_read n = false /\ createdAt n = now)
                 added.
Proof.
  intros s'. subst s'.
  destruct (findPlan (dayName now) (mealPlans s)) as [plan|] eqn:Hp.
  2:{ rewrite daily_skip by now left.
      repeat (split; [reflexivity|]). split; [tauto|].
      exists []. rewrite app_nil_r. split; [reflexivity|].
      split; [now left | constructor]. }
  assert (Hcase : students s = [] \/ students s <> [])
    by (destruct (students s); [now left | right; discriminate]).
  destruct Hcase as [Hst | Hne].
  { rewrite daily_skip by now right.
    repeat (split; [reflexivity|]). split; [tauto|].
    exists []. rewrite app_nil_r. split; [reflexivity|].
    split; [now left | constructor]. }
  destruct (daily_run showNumber now s plan Hp Hne)
    as (H1 & H2 & H3 & H4 & H5 & H6 & Hinv & Hn).
  split; [assumption|]. split; [assumption|]. split; [assumption|].
  split; [assumption|]. split; [assumption|]. split; [assumption|].
  split.
  { rewrite Hinv.
    apply (daily_inventory_invariant showNumber now
             (fun inv => map item_id inv = map item_id (inventory s)));
      [|reflexivity].
    intros inv0 id it amount H0 _ _. now rewrite saveItem_ids. }
  split.
  { intros Hpos. rewrite Hinv.
    apply (daily_inventory_invariant showNumber now
             (Forall (fun it => 0 <= currentStock it))); [|assumption].
    intros inv0 id it amount H0 _ Hle.
    apply saveItem_Forall; [simpl; lra | assumption]. }
  eexists. split; [exact Hn|].
  destruct (daily_errors _) as [|e es];
    destruct (dailyWarnings _ _) as [|w0 ws].
  - split; [now left | constructor].
  - split; [right; now rewrite map_map|].
    apply Forall_forall. intros n Hin. apply in_map_iff in Hin.
    destruct Hin as (x & <- & _). simpl. tauto.
  - split; [right; now rewrite map_map|].
    apply Forall_forall. intros n Hin. apply in_map_iff in Hin.
    destruct Hin as (x & <- & _). simpl. tauto.
  - split; [right; now rewrite map_map|].
    apply Forall_forall. intros n Hin. apply in_map_iff in Hin.
    destruct Hin as (x & <- & _). simpl. tauto.
Qed.

Lemma daily_run_frame_witness :
  Forall (fun it => 0 <= currentStock it) (inventory DailySample.kitchen)
  /\ Forall (fun it => 0 <= currentStock it)
       (inventory (consumeInventoryFromMealPlans Js.toFixed2
                     DailySample.wednesdayNight DailySample.kitchen))
  /\ usages (consumeInventoryFromMealPlans Js.toFixed2
               DailySample.wednesdayNight DailySample.kitchen)
     = usages DailySample.kitchen.
Proof.
  assert (H : Forall (fun it => 0 <= currentStock it)
                     (inventory DailySample.kitchen)).
  { simpl. repeat constructor; unfold Qle; simpl; lia. }
  split; [exact H|].
  destruct (daily_run_frame Js.toFixed2 DailySample.wednesdayNight
              DailySample.kitchen)
    as (Hu & _ & _ & _ & _ & _ & _ & Hs & _).
  split; [exact (Hs H) | exact Hu].
Defined.

Lemma found_of_id id inv :
  In id (map item_id inv) -> exists it, findItemById id inv = Some it.
Proof.
  intros H. apply in_map_iff in H. destruct H as (x & Hx & Hin).
  apply (find_first _ _ x Hin). now apply String.eqb_eq.
Qed.

Lemma join_includes (sep e : string) (l : list string) :
  In e l -> Js.str_includes (Js.join sep l) e = true.
Proof.
  unfold Js.join. induction l as [|x l IH]; intros H; [contradiction|].
  destruct l as [|y l].
  - destruct H as [<- | []]. simpl.
    replace x with (x ++ "")%string at 1
      by (clear; induction x; simpl; congruence).
    apply str_includes_here.
  - change (String.concat sep (x :: y :: l))
      with (x ++ sep ++ String.concat sep (y :: l))%string.
    destruct H as [<- | H]; [apply str_includes_here|].
    apply str_includes_after, str_includes_after. now apply IH.
Qed.

Section DinnerProofs.

Variable showNumber : Q -> string.
Variable now : Date.

Lemma dinner_errors_grow m lines st e :
  In e (daily_errors st) ->
  In e (daily_errors (fold_left (processDinnerLine m now) lines st)).
Proof.
  revert st. induction lines as [|l lines IH]; intros st H; simpl;
    [assumption|].
  apply IH. destruct (processDinnerLine_cases now m st l) as [_ (more & ->)].
  apply in_or_app. now left.
Qed.

Lemma dinner_ids m st l :
  map item_id (daily_inventory (processDinnerLine m now st l))
  = map item_id (daily_inventory st).
Proof.
  destruct (processDinnerLine_cases now m st l)
    as [[-> | (it & amount & _ & _ & ->)] _]; [reflexivity|].
  apply saveItem_ids.
Qed.

(** Every dinner line whose item exists ends in the ReferenceError. *)
Lemma dinner_lines_err m lines st line :
  In line lines ->
  In (inventoryItemId line) (map item_id (daily_inventory st)) ->
  In (dinnerReferenceError line)
     (daily_errors (fold_left (processDinnerLine (Some m) now) lines st)).
Proof.
  revert st. induction lines as [|l lines IH]; intros st Hin Hid;
    [contradiction|].
  simpl. destruct Hin as [-> | Hin].
  - apply dinner_errors_grow. unfold processDinnerLine.
    destruct (found_of_id _ _ Hid) as (it & ->).
    destruct (Js.ltb _ _); cbn; apply in_or_app; right; now left.
  - apply IH; [assumption|]. now rewrite dinner_ids.
Qed.

End DinnerProofs.

(** X20.  In the deprecated daily run the dinner loop reads a variable the
    module never declares.  So when the weekday has a plan, there are
    students, and this evening's attendance is recorded and positive, every
    dinner line whose item exists ends in the error "eveningAttendance is
    not defined", whether or not its stock sufficed and was debited: each
    user with the admin role gets a notification of type alert whose message
    contains that line's error. *)
Theorem daily_dinner_line_always_errs
    (showNumber : Q -> string) (now : Date) (s : Store) (plan : MealPlan)
    (attendance : Z) (line : PlanItem) :
  findPlan (dayName now) (mealPlans s) = Some plan ->
  students s <> [] ->
  getAttendanceCount "evening" now (sessions s) = Some attendance ->
  (0 < attendance)%Z ->
  In line (dinnerInventory plan) ->
  In (inventoryItemId line) (map item_id (inventory s)) ->
  let s' := consumeInventoryFromMealPlans showNumber now s in
  exists added,
    notifications s' = notifications s ++ added
    /\ map notif_user added = map user_id (usersWithRole ["admin"] (users s))
    /\ Forall (fun n => notif_type n = "alert"
                        /\ Js.str_includes (notif_message n)
                             (dinnerReferenceError line) = true) added.
Proof.
  intros Hp Hst Ha Hpos Hline Hid s'. subst s'.
  destruct (daily_run showNumber now s plan Hp Hst)
    as (_ & _ & _ & _ & _ & _ & _ & Hn).
  cbv zeta in Hn. rewrite Ha in Hn.
  set (prev := getAttendanceCount "evening" (previousDay now) (sessions s))
    in *.
  assert (Herr :
    In (dinnerReferenceError line)
       (daily_errors
          (dailyLoops showNumber now plan prev (Some attendance)
             (Z.of_nat (List.length (students s))) (inventory s)))).
  { unfold dailyLoops. cbv zeta.
    assert (Hm : attendanceMultiplier (Some attendance)
                   (Z.of_nat (List.length (students s)))
                 = Some (inject_Z attendance
                         / inject_Z (Z.of_nat (List.length (students s)))))
      by (unfold attendanceMultiplier;
          now rewrite (proj2 (Z.ltb_lt 0 attendance) Hpos)).
    rewrite Hm.
    apply dinner_lines_err; [assumption|].
    assert (Hd : forall meal m att lines st,
      map item_id
        (daily_inventory
           (fold_left (processDailyLine showNumber meal m att now) lines st))
      = map item_id (daily_inventory st)).
    { intros meal m att lines. induction lines as [|l lines IH]; intros st;
        simpl; [reflexivity|].
      rewrite IH.
      destruct (processDailyLine_cases showNumber now meal m att st l)
        as [[-> | (it & amount & _ & _ & ->)] _]; [reflexivity|].
      apply saveItem_ids. }
    now rewrite !Hd. }
  destruct (daily_errors _) as [|e es] eqn:He; [contradiction|].
  eexists. split; [exact Hn|].
  destruct (dailyWarnings prev (Some attendance)) as [|w0 ws] eqn:Hw.
  - split; [now rewrite map_map|].
    apply Forall_forall. intros n Hin. apply in_map_iff in Hin.
    destruct Hin as (x & <- & _). split; [reflexivity|].
    cbn [notif_message]. unfold dailyNoticeMessage. cbn [app].
    unfold Js.join at 1. cbn [String.concat].
    apply (str_includes_after "Errors: "). now apply join_includes.
  - split; [now rewrite map_map|].
    apply Forall_forall. intros n Hin. apply in_map_iff in Hin.
    destruct Hin as (x & <- & _). split; [reflexivity|].
    cbn [notif_message]. unfold dailyNoticeMessage. cbn [app].
    unfold Js.join at 1. cbn [String.concat].
    apply str_includes_after, (str_includes_after " | "),
      (str_includes_after "Errors: ").
    now apply join_includes.
Qed.

Lemma daily_dinner_line_always_errs_witness :
  findPlan (dayName DailySample.wednesdayNight)
           (mealPlans DailySample.kitchen) = Some DailySample.wednesday
  /\ getAttendanceCount "evening" DailySample.wednesdayNight
       (sessions DailySample.kitchen) = Some 1%Z
  /\ stockOf "i1"
       (inventory (consumeInventoryFromMealPlans Js.toFixed2
                     DailySample.wednesdayNight DailySample.kitchen))
     = Some (5 # 1)
  /\ exists added,
       notifications (consumeInventoryFromMealPlans Js.toFixed2
                        DailySample.wednesdayNight DailySample.kitchen)
       = notifications DailySample.kitchen ++ added
       /\ map notif_user added
          = map user_id (usersWithRole ["admin"] (users DailySample.kitchen))
       /\ Forall (fun n => notif_type n = "alert"
                           /\ Js.str_includes (notif_message n)
                                (dinnerReferenceError Sample.ricePlanLine)
                              = true) added.
Proof.
  split; [reflexivity|].
  split; [reflexivity|].
  split; [reflexivity|].
  refine (daily_dinner_line_always_errs Js.toFixed2
            DailySample.wednesdayNight DailySample.kitchen
            DailySample.wednesday 1 Sample.ricePlanLine
            eq_refl _ eq_refl eq_refl _ _).
  - discriminate.
  - now left.
  - now left.
Defined.
